(** * Smart Carbon Monitoring System: analytics engine

    A shallow embedding of the two analytics classes of the repository,
    [CarbonDataAnalyzer] (src/components/CarbonDataAnalyzer.js) and
    [ReportGenerator], together with the properties the specification
    states about them.

    Modelling conventions.

    - Numbers are modelled at two levels.  The two analyses whose outcome
      is a comparison of computed numbers with a threshold,
      [detectAnomalies] and [identifyTrends], are embedded in [Binary64]
      with the arithmetic of the engine: IEEE 754 binary64 ([F64], over
      [SpecFloat] of the standard library), every operation rounded to
      nearest, ties to even, [Math.sqrt] the correctly rounded root,
      [Math.pow(x, 2)] the product [x * x].  A field of a reading holds the
      number as written ([Q]); the engine reads it as the nearest double
      ([F64.ofQ]).
    - The other functions, and the properties of the two analyses that do
      not depend on how a number is rounded (which readings are grouped,
      counted, kept, named, in which order; what a zero divisor does), are
      embedded over exact rationals ([Q]), with the real square root for
      [Math.sqrt] ([R]).  What IEEE arithmetic does on a zero divisor (NaN,
      Infinity) is written out in [JS.div], and every division done
      directly in [Q] is one the source guards itself (a non-empty length,
      a positive count, a tested divisor).  A total, a mean or a ratio of
      that embedding is the exact one, and [toFixed] rounds it half away
      from zero; the engine rounds the double it has computed, which at a
      tie may fall on either side.  Theorems about such a value therefore
      state it up to that rounding: [Rounding.near d v x] says that [x] is
      a decimal of [d] digits within half a unit of the last digit of [v].
      Overflow, and rounding error large enough to move a value by more
      than that, are outside this embedding.
    - [x.toFixed(d)] yields a string; it is kept in structured form
      ([JS.fixed]: sign, scaled integer, digit count) with [JS.fixedString] to
      print it and [JS.parseFloat] to read it back.
    - A JavaScript object used as a dictionary is an association list in
      creation order; [JS.values] yields the values in the order of
      [Object.values] (array-index keys first, ascending, then the others in
      creation order).  Keys are assumed not to name a property inherited
      from [Object.prototype].
    - [Array.prototype.sort] is a stable sort ([JS.sort]).
    - The services of the runtime that depend on the host (printing an
      arbitrary number, the local calendar of [Date], parsing a date) are
      the fields of [Host.t]; [UTC.host] is one such host.
    - A time value is the number of milliseconds since the epoch ([Z]). *)

From Stdlib Require Import ZArith QArith Qround Qabs Qminmax Reals Qreals R_Ifp.
From Stdlib Require Import List String Ascii Bool Lia Psatz Permutation.
From Stdlib Require Import DecimalString DecimalZ DecimalPos Sorted.
From Stdlib Require Import SpecFloat.
Import ListNotations.

Set Implicit Arguments.

(* ================================================================== *)
(** * The JavaScript runtime *)
(* ================================================================== *)

Module JS.

Local Open Scope Q_scope.

(** ** Numbers *)

(** [a < b] and [a > b] on finite numbers. *)
Definition ltb (a b : Q) : bool := negb (Qle_bool b a).
Definition gtb (a b : Q) : bool := ltb b a.
Definition eqb (a b : Q) : bool := Qeq_bool a b.

(** A number that may be non-finite: the result of a division whose divisor
    is not known to be non-zero. *)
Inductive ext (A : Type) : Type :=
| Fin (x : A)
| PosInf
| NegInf
| NaN.
Arguments PosInf {A}.
Arguments NegInf {A}.
Arguments NaN {A}.

Definition num := ext Q.
Definition real := ext R.

(** [a / b] on finite rationals, IEEE style. *)
Definition div (a b : Q) : num :=
  if eqb b 0 then
    if eqb a 0 then NaN else if ltb 0 a then PosInf else NegInf
  else Fin (a / b).

(** [a / b] on finite reals. *)
Definition divR (a b : R) : real :=
  if Req_dec_T b 0 then
    if Req_dec_T a 0 then NaN
    else if Rlt_dec 0 a then PosInf else NegInf
  else Fin (a / b)%R.

(** [Math.abs]. *)
Definition absR (x : real) : real :=
  match x with
  | Fin r => Fin (Rabs r)
  | PosInf | NegInf => PosInf
  | NaN => NaN
  end.

(** [x > y]; false as soon as an operand is NaN. *)
Definition gtR (x y : real) : bool :=
  match x, y with
  | NaN, _ | _, NaN => false
  | Fin a, Fin b => if Rlt_dec b a then true else false
  | PosInf, PosInf => false
  | PosInf, _ => true
  | NegInf, _ => false
  | Fin _, NegInf => true
  | Fin _, PosInf => false
  end.

(** [Math.min(...l)] and [Math.max(...l)]; with no argument they are
    [Infinity] and [-Infinity]. *)
Definition Math_min (l : list Q) : num :=
  match l with
  | [] => PosInf
  | x :: l' => Fin (fold_left Qmin l' x)
  end.

Definition Math_max (l : list Q) : num :=
  match l with
  | [] => NegInf
  | x :: l' => Fin (fold_left Qmax l' x)
  end.

(** [Math.max(0, x)] for a finite [x]. *)
Definition max0 (x : Q) : Q := if ltb x 0 then 0 else x.

(** [Math.abs] on a finite number. *)
Definition abs (x : Q) : Q := Qabs x.

(** ** [toFixed] and [parseFloat] *)

Definition pow10 (d : nat) : Z := (10 ^ Z.of_nat d)%Z.

(** The digits of [x.toFixed(d)]: the string denotes
    [(-1)^fneg * fmant / 10^fdigits]. *)
Record fixed : Type := mkFixed { fneg : bool; fmant : Z; fdigits : nat }.

(** A string made by [toFixed]. *)
Inductive fixedStr : Type :=
| Digits (f : fixed)
| StrNaN
| StrInfinity
| StrNegInfinity.

(** [x.toFixed(d)]: the sign is set aside, and [n] is the integer nearest to
    [|x| * 10^d], the larger one on a tie. *)
Definition toFixed (x : Q) (d : nat) : fixed :=
  mkFixed (ltb x 0) (Qfloor (Qabs x * inject_Z (pow10 d) + (1 # 2))) d.

Definition toFixedR (x : R) (d : nat) : fixed :=
  mkFixed (if Rlt_dec x 0 then true else false)
          (Int_part (Rabs x * IZR (pow10 d) + / 2)%R) d.

Definition toFixedNum (x : num) (d : nat) : fixedStr :=
  match x with
  | Fin q => Digits (toFixed q d)
  | PosInf => StrInfinity
  | NegInf => StrNegInfinity
  | NaN => StrNaN
  end.

Definition toFixedReal (x : real) (d : nat) : fixedStr :=
  match x with
  | Fin r => Digits (toFixedR r d)
  | PosInf => StrInfinity
  | NegInf => StrNegInfinity
  | NaN => StrNaN
  end.

(** [parseFloat] on a string made by [toFixed]. *)
Definition parseFloat (f : fixed) : Q :=
  (if fneg f then - (1) else 1) * (fmant f # Z.to_pos (pow10 (fdigits f))).


(** [parseFloat(x.toFixed(d))]. *)
Definition rounded (x : Q) (d : nat) : Q := parseFloat (toFixed x d).

(** ** Strings *)

Local Open Scope string_scope.

(** [n.toString()] for an integer. *)
Definition showZ (z : Z) : string := NilZero.string_of_int (Z.to_int z).

Fixpoint repeat0 (n : nat) : string :=
  match n with
  | O => EmptyString
  | S n' => "0" ++ repeat0 n'
  end.

(** [s.padStart(n, '0')]. *)
Definition padStart0 (s : string) (n : nat) : string :=
  repeat0 (n - String.length s) ++ s.

(** The characters of a string made by [toFixed]. *)
Definition fixedString (f : fixed) : string :=
  let p := pow10 (fdigits f) in
  (if fneg f then "-" else EmptyString) ++
  showZ (fmant f / p) ++
  match fdigits f with
  | O => EmptyString
  | S _ => "." ++ padStart0 (showZ (fmant f mod p)) (fdigits f)
  end.

Definition showFixedStr (s : fixedStr) : string :=
  match s with
  | Digits f => fixedString f
  | StrNaN => "NaN"
  | StrInfinity => "Infinity"
  | StrNegInfinity => "-Infinity"
  end.

(** [s.split('T')[0]]. *)
Fixpoint beforeT (s : string) : string :=
  match s with
  | EmptyString => EmptyString
  | String c s' => if Ascii.eqb c "T" then EmptyString else String c (beforeT s')
  end.

(** [a || b] on strings that may be absent: the empty string is falsy. *)
Definition orElse (a : option string) (b : string) : string :=
  match a with
  | Some s => if String.eqb s EmptyString then b else s
  | None => b
  end.

(** ** Objects used as dictionaries *)

Definition obj (V : Type) : Type := list (string * V).

Fixpoint lookup {V : Type} (k : string) (o : obj V) : option V :=
  match o with
  | [] => None
  | (k', v) :: o' => if String.eqb k k' then Some v else lookup k o'
  end.

(** [o[k] = f(o[k])] on a key that is present. *)
Fixpoint update {V : Type} (k : string) (f : V -> V) (o : obj V) : obj V :=
  match o with
  | [] => []
  | (k', v) :: o' =>
      if String.eqb k k' then (k', f v) :: o' else (k', v) :: update k f o'
  end.

(** [if (!o[k]) o[k] = v0]: a new key goes last. *)
Definition ensure {V : Type} (k : string) (v0 : V) (o : obj V) : obj V :=
  match lookup k o with
  | Some _ => o
  | None => (o ++ [(k, v0)])%list
  end.

(** The value of a decimal digit. *)
Definition digitOf (c : ascii) : option N :=
  let n := N_of_ascii c in
  if (48 <=? n)%N && (n <=? 57)%N then Some (n - 48)%N else None.

Fixpoint digitsValue (s : string) (acc : N) : option N :=
  match s with
  | EmptyString => Some acc
  | String c s' =>
      match digitOf c with
      | Some d => digitsValue s' (10 * acc + d)%N
      | None => None
      end
  end.

(** A key is an array index when it is the canonical decimal spelling of an
    integer below [2^32 - 1]. *)
Definition arrayIndex (k : string) : option N :=
  match k with
  | EmptyString => None
  | String c rest =>
      if Ascii.eqb c "0" && negb (String.eqb rest EmptyString) then None
      else if (10 <? String.length k)%nat then None
      else match digitsValue k 0 with
           | Some n => if (n <? 4294967295)%N then Some n else None
           | None => None
           end
  end.

Fixpoint insertIndex {V : Type} (n : N) (e : string * V)
  (l : list (N * (string * V))) : list (N * (string * V)) :=
  match l with
  | [] => [(n, e)]
  | (m, e') :: l' =>
      if (n <? m)%N then (n, e) :: l else (m, e') :: insertIndex n e l'
  end.

Fixpoint indexEntries {V : Type} (o : obj V) : list (N * (string * V)) :=
  match o with
  | [] => []
  | (k, v) :: o' =>
      match arrayIndex k with
      | Some n => insertIndex n (k, v) (indexEntries o')
      | None => indexEntries o'
      end
  end.

Fixpoint namedEntries {V : Type} (o : obj V) : list (string * V) :=
  match o with
  | [] => []
  | (k, v) :: o' =>
      match arrayIndex k with
      | Some _ => namedEntries o'
      | None => (k, v) :: namedEntries o'
      end
  end.

(** [Object.entries(o)] and [Object.values(o)]. *)
Definition entries {V : Type} (o : obj V) : list (string * V) :=
  (map snd (indexEntries o) ++ namedEntries o)%list.

Definition values {V : Type} (o : obj V) : list V := map snd (entries o).

(** ** Exceptions *)

(** The outcome of a call that may throw. *)
Inductive completion (A : Type) : Type :=
| Normal (a : A)
| Throw (e : string).
Arguments Throw {A} e.

Definition bind {A B : Type} (c : completion A) (k : A -> completion B)
  : completion B :=
  match c with
  | Normal a => k a
  | Throw e => Throw e
  end.

(** Reading a property of a value that may be [undefined]. *)
Definition defined {A : Type} (o : option A) : completion A :=
  match o with
  | Some a => Normal a
  | None => Throw "TypeError"
  end.

(** [l.push(x)]. *)
Definition push {A : Type} (l : list A) (x : A) : list A := (l ++ [x])%list.

(** [l[l.length - 1]]. *)
Fixpoint lastOf {A : Type} (l : list A) : option A :=
  match l with
  | [] => None
  | [x] => Some x
  | _ :: l' => lastOf l'
  end.

(** ** Sorting *)

(** [before a b] holds when the comparator is negative on [(a, b)]. *)
Fixpoint insertSorted {A : Type} (before : A -> A -> bool) (x : A)
  (l : list A) : list A :=
  match l with
  | [] => [x]
  | y :: l' =>
      if before y x then y :: insertSorted before x l' else x :: l
  end.

(** [l.sort(cmp)]: stable, an element stays ahead of the later ones that the
    comparator does not put strictly before it. *)
Definition sort {A : Type} (before : A -> A -> bool) (l : list A) : list A :=
  fold_right (insertSorted before) [] l.

(** [l.reduce((sum, val) => sum + val, 0)]. *)
Definition sum (l : list Q) : Q := fold_left Qplus l 0.

(** [l.length] as a number. *)
Definition len {A : Type} (l : list A) : Q := inject_Z (Z.of_nat (List.length l)).

(** [l[i] = f(l[i])] for an index within the array. *)
Fixpoint updateAt {A : Type} (i : nat) (f : A -> A) (l : list A) : list A :=
  match l, i with
  | [], _ => []
  | x :: l', O => f x :: l'
  | x :: l', S i' => x :: updateAt i' f l'
  end.

(** A value that may be [undefined], inside a template literal. *)
Definition str (o : option string) : string :=
  match o with
  | Some s => s
  | None => "undefined"
  end.

(** The double quote. *)
Definition quote : string := String (ascii_of_nat 34) EmptyString.

(** The line feed. *)
Definition nl : string := String (ascii_of_nat 10) EmptyString.

(** [Math.ceil(a / b)] for integers, [b] positive. *)
Definition ceilDiv (a b : Z) : Z := (- ((- a) / b))%Z.

End JS.

Unset Implicit Arguments.

Notation "x <- c ;; k" := (JS.bind c (fun x => k))
  (at level 61, c at next level, right associativity).

(* ================================================================== *)
(** * The host *)
(* ================================================================== *)

(** What the analytics code asks of its host.  The [Date] methods are
    given on time values; the getters and setters work in the local time
    zone of the host. *)
Module Host.

Record t : Type := {
  (** [String(x)] for a number [x] *)
  numberToString : Q -> string;
  (** [d.getFullYear()], [d.getMonth()], [d.getDate()], [d.getHours()],
      [d.getDay()] *)
  getFullYear : Z -> Z;
  getMonth : Z -> Z;
  getDate : Z -> Z;
  getHours : Z -> Z;
  getDay : Z -> Z;
  (** the time value of [d] after [d.setDate(n)] *)
  setDate : Z -> Z -> Z;
  (** the time value of [d] after [d.setHours(0, 0, 0, 0)] *)
  setHours0 : Z -> Z;
  (** [new Date(year, monthIndex, day)] *)
  newDate : Z -> Z -> Z -> Z;
  (** [d.toISOString()] *)
  toISOString : Z -> string;
  (** [new Date(s)] for a string [s]; [None] is the invalid date *)
  parseDate : string -> option Z
}.

End Host.

(** ** A host on UTC

    The proleptic Gregorian calendar with no offset from UTC, numbers
    printed in decimal with at most twenty fractional digits, and only the
    date-only ISO form [YYYY-MM-DD] accepted by the parser. *)
Module UTC.

Local Open Scope Z_scope.

Definition msPerDay : Z := 86400000.

(** The civil date [(year, month 1..12, day)] of a day number. *)
Definition civil (days : Z) : Z * Z * Z :=
  let z := days + 719468 in
  let era := z / 146097 in
  let doe := z - era * 146097 in
  let yoe := (doe - doe / 1460 + doe / 36524 - doe / 146096) / 365 in
  let y := yoe + era * 400 in
  let doy := doe - (365 * yoe + yoe / 4 - yoe / 100) in
  let mp := (5 * doy + 2) / 153 in
  let d := doy - (153 * mp + 2) / 5 + 1 in
  let m := if mp <? 10 then mp + 3 else mp - 9 in
  (if m <=? 2 then y + 1 else y, m, d).

(** The day number of a civil date. *)
Definition dayNumber (y m d : Z) : Z :=
  let y := if m <=? 2 then y - 1 else y in
  let era := y / 400 in
  let yoe := y - era * 400 in
  let doy := (153 * (if 2 <? m then m - 3 else m + 9) + 2) / 5 + d - 1 in
  let doe := yoe * 365 + yoe / 4 - yoe / 100 + doy in
  era * 146097 + doe - 719468.

Definition getFullYear (t : Z) : Z := fst (fst (civil (t / msPerDay))).
Definition getMonth (t : Z) : Z := snd (fst (civil (t / msPerDay))) - 1.
Definition getDate (t : Z) : Z := snd (civil (t / msPerDay)).
Definition getHours (t : Z) : Z := (t mod msPerDay) / 3600000.
Definition getDay (t : Z) : Z := (t / msPerDay + 4) mod 7.
Definition setDate (t n : Z) : Z := t + (n - getDate t) * msPerDay.
Definition setHours0 (t : Z) : Z := t - t mod msPerDay.

Definition newDate (year monthIndex day : Z) : Z :=
  let year := if (0 <=? year) && (year <=? 99) then 1900 + year else year in
  (dayNumber (year + monthIndex / 12) (monthIndex mod 12 + 1) 1 + (day - 1))
  * msPerDay.

Local Open Scope string_scope.

Definition pad (z : Z) (n : nat) : string := JS.padStart0 (JS.showZ z) n.

Definition toISOString (t : Z) : string :=
  let ms := (t mod msPerDay)%Z in
  let year := getFullYear t in
  (if (0 <=? year)%Z && (year <=? 9999)%Z then pad year 4
   else (if (year <? 0)%Z then "-" else "+") ++ pad (Z.abs year) 6) ++
  "-" ++ pad (getMonth t + 1) 2 ++ "-" ++ pad (getDate t) 2 ++
  "T" ++ pad (ms / 3600000) 2 ++ ":" ++ pad ((ms / 60000) mod 60) 2 ++
  ":" ++ pad ((ms / 1000) mod 60) 2 ++ "." ++ pad (ms mod 1000) 3 ++ "Z".

(** The fractional digits of [num / den], at most [fuel] of them, with no
    trailing zero. *)
Fixpoint fraction (fuel : nat) (num den : Z) : string :=
  match fuel with
  | O => EmptyString
  | S fuel' =>
      if (num =? 0)%Z then EmptyString
      else JS.showZ (10 * num / den) ++ fraction fuel' ((10 * num) mod den) den
  end.

Definition numberToString (q : Q) : string :=
  let n := Z.abs (Qnum q) in
  let d := Zpos (Qden q) in
  let frac := fraction 20 (n mod d) d in
  (if (Qnum q <? 0)%Z then "-" else EmptyString) ++ JS.showZ (n / d) ++
  (if String.eqb frac EmptyString then EmptyString else "." ++ frac).

(** [YYYY-MM-DD] as the time value of that day at midnight. *)
Definition parseDate (s : string) : option Z :=
  if (String.length s =? 10)%nat
     && String.eqb (substring 4 1 s) "-" && String.eqb (substring 7 1 s) "-"
  then
    match JS.digitsValue (substring 0 4 s) 0,
          JS.digitsValue (substring 5 2 s) 0,
          JS.digitsValue (substring 8 2 s) 0 with
    | Some y, Some m, Some d =>
        Some (dayNumber (Z.of_N y) (Z.of_N m) (Z.of_N d) * msPerDay)%Z
    | _, _, _ => None
    end
  else None.

Definition host : Host.t :=
  {| Host.numberToString := numberToString;
     Host.getFullYear := getFullYear;
     Host.getMonth := getMonth;
     Host.getDate := getDate;
     Host.getHours := getHours;
     Host.getDay := getDay;
     Host.setDate := setDate;
     Host.setHours0 := setHours0;
     Host.newDate := newDate;
     Host.toISOString := toISOString;
     Host.parseDate := parseDate |}.

End UTC.

(* ================================================================== *)
(** * Binary64 arithmetic *)
(* ================================================================== *)

(** The numbers of the engine: IEEE 754 binary64 with rounding to nearest,
    ties to even, as [SpecFloat] defines it. *)
Module F64.

Definition prec : Z := 53.
Definition emax : Z := 1024.

Definition t : Type := spec_float.

Definition zero : t := S754_zero false.
Definition nan : t := S754_nan.

Definition add : t -> t -> t := SFadd prec emax.
Definition sub : t -> t -> t := SFsub prec emax.
Definition mul : t -> t -> t := SFmul prec emax.
Definition div : t -> t -> t := SFdiv prec emax.

(** [Math.sqrt] and [Math.abs]. *)
Definition sqrt : t -> t := SFsqrt prec emax.
Definition abs : t -> t := SFabs.

(** [a < b], [a > b], [a === b] and [a !== b]; a comparison with NaN is
    false, and NaN differs from every number. *)
Definition ltb : t -> t -> bool := SFltb.
Definition gtb (a b : t) : bool := SFltb b a.
Definition eqb : t -> t -> bool := SFeqb.
Definition neqb (a b : t) : bool := negb (SFeqb a b).

(** An integer as a number. *)
Definition ofZ (z : Z) : t := binary_normalize prec emax z 0 false.
Definition ofNat (n : nat) : t := ofZ (Z.of_nat n).
Definition one : t := ofZ 1.

(** The number nearest to a rational: what reading a decimal literal
    gives. *)
Definition ofQ (q : Q) : t :=
  match Qnum q with
  | Z0 => zero
  | Zpos n => div (S754_finite false n 0) (S754_finite false (Qden q) 0)
  | Zneg n => div (S754_finite true n 0) (S754_finite false (Qden q) 0)
  end.

(** The rational that a finite number is; 0 for the others. *)
Definition value (x : t) : Q :=
  match x with
  | S754_finite s m e =>
      let a := match e with
               | Zneg p => Zpos m # Pos.pow 2 p
               | _ => inject_Z (Zpos m * 2 ^ e)
               end in
      if s then Qopp a else a
  | _ => 0
  end.

(** A number that is neither NaN nor infinite. *)
Definition finite (x : t) : bool :=
  match x with
  | S754_zero _ | S754_finite _ _ _ => true
  | _ => false
  end.



(** [Math.pow(x, 2)]: the square, rounded once. *)
Definition sq (x : t) : t := mul x x.

(** [l.reduce((sum, val) => sum + val, 0)]. *)
Definition sum (l : list t) : t := fold_left add l zero.

(** [l.length] as a number. *)
Definition len {A : Type} (l : list A) : t := ofNat (List.length l).

(** A string made by [toFixed]: digits, or the text of the number itself
    when its magnitude is [10^21] or more. *)
Inductive fixedStr : Type :=
| Digits (f : JS.fixed)
| Exponent (x : t)
| StrNaN
| StrInfinity
| StrNegInfinity.

(** [x.toFixed(d)]: on a finite number below [10^21] in magnitude, the
    digits of the decimal nearest to its exact value, the larger one on a
    tie. *)
Definition toFixed (x : t) (d : nat) : fixedStr :=
  match x with
  | S754_nan => StrNaN
  | S754_infinity false => StrInfinity
  | S754_infinity true => StrNegInfinity
  | _ =>
      if Qle_bool (inject_Z (10 ^ 21)) (Qabs (value x)) then Exponent x
      else Digits (JS.toFixed (value x) d)
  end.

(** [parseFloat] on such a string. *)
Definition parseFloat (s : fixedStr) : t :=
  match s with
  | Digits f =>
      if (JS.fmant f =? 0)%Z then S754_zero (JS.fneg f)
      else ofQ (JS.parseFloat f)
  | Exponent x => x
  | StrNaN => nan
  | StrInfinity => S754_infinity false
  | StrNegInfinity => S754_infinity true
  end.

(** [parseFloat(x.toFixed(d))]. *)
Definition rounded (x : t) (d : nat) : t := parseFloat (toFixed x d).

(** The characters of such a string, for a host that prints numbers. *)
Definition showFixedStr (host : Host.t) (s : fixedStr) : string :=
  match s with
  | Digits f => JS.fixedString f
  | Exponent x => Host.numberToString host (value x)
  | StrNaN => "NaN"
  | StrInfinity => "Infinity"
  | StrNegInfinity => "-Infinity"
  end.

End F64.

(* ================================================================== *)
(** * Readings *)
(* ================================================================== *)

Module Metadata.
Record t : Type := {
  buildingName : option string;
  buildingType : option string;
  deviceType : option string
}.
End Metadata.

Module Reading.
Record t : Type := {
  id : string;
  timestamp : Z;
  buildingId : string;
  deviceId : string;
  energyConsumption : Q;
  carbonEmissions : Q;
  temperature : option Q;
  humidity : option Q;
  metadata : option Metadata.t
}.

(** [item.metadata?.buildingName] and [item.metadata?.deviceType]. *)
Definition buildingName (r : t) : option string :=
  match metadata r with
  | Some m => Metadata.buildingName m
  | None => None
  end.

Definition deviceType (r : t) : option string :=
  match metadata r with
  | Some m => Metadata.deviceType m
  | None => None
  end.
End Reading.

(* ================================================================== *)
(** * CarbonDataAnalyzer *)
(* ================================================================== *)

(** A field that holds a number on one path and a [toFixed] string on
    another. *)
Inductive numOrStr : Type :=
| Num (q : Q)
| Str (s : JS.fixedStr).


Module Statistics.
Record t : Type := {
  count : nat;
  emissionsTotal : numOrStr;
  emissionsAvg : numOrStr;
  emissionsMin : numOrStr;
  emissionsMax : numOrStr;
  energyTotal : numOrStr;
  energyAvg : numOrStr;
  energyMin : numOrStr;
  energyMax : numOrStr;
  dateRangeStart : option string;
  dateRangeEnd : option string
}.
End Statistics.

Module Anomaly.
Record t : Type := {
  id : string;
  timestamp : Z;
  buildingId : string;
  deviceId : string;
  carbonEmissions : Q;
  energyConsumption : Q;
  emissionsZScore : JS.fixedStr;
  energyZScore : JS.fixedStr;
  reason : string
}.
End Anomaly.

(** A device group: totals while the readings are grouped, rounded totals
    and intensity in the result. *)
Module Device.
Record t : Type := {
  id : string;
  type : string;
  totalEmissions : Q;
  totalEnergy : Q;
  intensity : Q
}.
End Device.

(** A building group while the readings are grouped. *)
Module Group.
Record t : Type := {
  id : string;
  name : string;
  totalEmissions : Q;
  totalEnergy : Q;
  intensity : Q;
  devices : JS.obj Device.t
}.
End Group.

(** A building of the result, its devices an array. *)
Module BuildingIntensity.
Record t : Type := {
  id : string;
  name : string;
  totalEmissions : Q;
  totalEnergy : Q;
  intensity : Q;
  devices : list Device.t
}.
End BuildingIntensity.

Module Intensity.
Record t : Type := {
  buildings : list BuildingIntensity.t;
  average : Q
}.
End Intensity.

(** A bucket of [identifyTrends] while the readings are grouped;
    [interval] is the key, or [None] for [undefined]. *)
Module Bucket.
Record t : Type := {
  interval : option string;
  totalEmissions : Q;
  totalEnergy : Q;
  count : Z
}.
End Bucket.

Module TrendPoint.
Record t : Type := {
  interval : option string;
  totalEmissions : Q;
  totalEnergy : Q;
  averageEmissions : Q;
  averageEnergy : Q;
  count : Z;
  predicted : Q;
  deviation : Q
}.
End TrendPoint.

(** The values of the regression before they are rounded for output. *)
Module Regression.
Record t : Type := {
  slope : Q;
  yIntercept : Q;
  predicted : list Q;
  ssResidual : Q;
  ssTotal : Q;
  rSquared : Q
}.
End Regression.

Module TrendAnalysis.
Record t : Type := {
  slope : Q;
  yIntercept : Q;
  rSquared : Q;
  direction : string;
  strength : string;
  interpretation : string
}.
End TrendAnalysis.

(** The result of [identifyTrends]; [analysis] is absent on empty data. *)
Module Trends.
Record t : Type := {
  trends : list TrendPoint.t;
  analysis : option TrendAnalysis.t;
  hasSignificantTrend : bool
}.
End Trends.

Module Recommendation.
Record t : Type := {
  type : string;
  priority : string;
  target : option string;
  text : string
}.
End Recommendation.

Module ForecastPoint.
Record t : Type := {
  interval : string;
  forecast : Q
}.
End ForecastPoint.

(** The result of [forecast]; [historical] and [slope] are absent from the
    object returned on too little data. *)
Module Forecast.
Record t : Type := {
  historical : option (list TrendPoint.t);
  forecast : list ForecastPoint.t;
  confidence : string;
  slope : option Q;
  message : string
}.
End Forecast.

Module CarbonDataAnalyzer.

Section Analyzer.

Variable host : Host.t.

Local Open Scope Q_scope.
Local Open Scope string_scope.

Definition Zmin_list (x : Z) (l : list Z) : Z := fold_left Z.min l x.
Definition Zmax_list (x : Z) (l : list Z) : Z := fold_left Z.max l x.

(** [getStatistics()]. *)
Definition getStatistics (data : list Reading.t) : Statistics.t :=
  match data with
  | [] =>
      {| Statistics.count := 0;
         Statistics.emissionsTotal := Num 0;
         Statistics.emissionsAvg := Num 0;
         Statistics.emissionsMin := Num 0;
         Statistics.emissionsMax := Num 0;
         Statistics.energyTotal := Num 0;
         Statistics.energyAvg := Num 0;
         Statistics.energyMin := Num 0;
         Statistics.energyMax := Num 0;
         Statistics.dateRangeStart := None;
         Statistics.dateRangeEnd := None |}
  | first :: rest =>
      let emissions := map Reading.carbonEmissions data in
      let energy := map Reading.energyConsumption data in
      let timestamps := map Reading.timestamp rest in
      let startDate := Zmin_list (Reading.timestamp first) timestamps in
      let endDate := Zmax_list (Reading.timestamp first) timestamps in
      {| Statistics.count := List.length data;
         Statistics.emissionsTotal :=
           Str (JS.Digits (JS.toFixed (JS.sum emissions) 2));
         Statistics.emissionsAvg :=
           Str (JS.Digits (JS.toFixed (JS.sum emissions / JS.len emissions) 2));
         Statistics.emissionsMin := Str (JS.toFixedNum (JS.Math_min emissions) 2);
         Statistics.emissionsMax := Str (JS.toFixedNum (JS.Math_max emissions) 2);
         Statistics.energyTotal :=
           Str (JS.Digits (JS.toFixed (JS.sum energy) 2));
         Statistics.energyAvg :=
           Str (JS.Digits (JS.toFixed (JS.sum energy / JS.len energy) 2));
         Statistics.energyMin := Str (JS.toFixedNum (JS.Math_min energy) 2);
         Statistics.energyMax := Str (JS.toFixedNum (JS.Math_max energy) 2);
         Statistics.dateRangeStart := Some (Host.toISOString host startDate);
         Statistics.dateRangeEnd := Some (Host.toISOString host endDate) |}
  end.

(** [Math.pow(v, 2)]. *)
Definition sq (v : Q) : Q := v * v.

(** [Math.sqrt(values.reduce((sum, val) => sum + Math.pow(val - mean, 2), 0)
    / values.length)]. *)
Definition stdDev (values : list Q) (mean : Q) : R :=
  sqrt (Q2R (fold_left (fun sum val => sum + sq (val - mean)) values 0
             / JS.len values)).

(** [(value - mean) / stdDev]. *)
Definition zScore (value mean : Q) (sd : R) : JS.real :=
  JS.divR (Q2R (value - mean)) sd.

(** The test of [detectAnomalies] on one reading. *)
Definition exceeds (z : JS.real) (threshold : Q) : bool :=
  JS.gtR (JS.absR z) (JS.Fin (Q2R threshold)).

(** The object pushed for an anomalous reading. *)
Definition anomalyOf (item : Reading.t) (emissionsZScore energyZScore : JS.real)
  : Anomaly.t :=
  {| Anomaly.id := Reading.id item;
     Anomaly.timestamp := Reading.timestamp item;
     Anomaly.buildingId := Reading.buildingId item;
     Anomaly.deviceId := Reading.deviceId item;
     Anomaly.carbonEmissions := Reading.carbonEmissions item;
     Anomaly.energyConsumption := Reading.energyConsumption item;
     Anomaly.emissionsZScore := JS.toFixedReal emissionsZScore 2;
     Anomaly.energyZScore := JS.toFixedReal energyZScore 2;
     Anomaly.reason :=
       if JS.gtR (JS.absR emissionsZScore) (JS.absR energyZScore) then
         "Unusual carbon emissions (" ++
         Host.numberToString host (Reading.carbonEmissions item) ++
         " kg, z-score: " ++
         JS.showFixedStr (JS.toFixedReal emissionsZScore 2) ++ ")"
       else
         "Unusual energy consumption (" ++
         Host.numberToString host (Reading.energyConsumption item) ++
         " kWh, z-score: " ++
         JS.showFixedStr (JS.toFixedReal energyZScore 2) ++ ")" |}.

(** [detectAnomalies(threshold)]. *)
Definition detectAnomalies (data : list Reading.t) (threshold : Q)
  : list Anomaly.t :=
  if (List.length data <? 5)%nat then []
  else
    let emissions := map Reading.carbonEmissions data in
    let emissionsMean := JS.sum emissions / JS.len emissions in
    let emissionsStdDev := stdDev emissions emissionsMean in
    let energy := map Reading.energyConsumption data in
    let energyMean := JS.sum energy / JS.len energy in
    let energyStdDev := stdDev energy energyMean in
    fold_left
      (fun anomalies item =>
         let emissionsZScore :=
           zScore (Reading.carbonEmissions item) emissionsMean emissionsStdDev in
         let energyZScore :=
           zScore (Reading.energyConsumption item) energyMean energyStdDev in
         if exceeds emissionsZScore threshold || exceeds energyZScore threshold
         then JS.push anomalies (anomalyOf item emissionsZScore energyZScore)
         else anomalies)
      data [].

(** ** Carbon intensity *)

(** The step of the grouping loop of [calculateCarbonIntensity]. *)
Definition intensityDeviceStep (item : Reading.t) (devices : JS.obj Device.t)
  : JS.obj Device.t :=
  let devices :=
    JS.ensure (Reading.deviceId item)
      {| Device.id := Reading.deviceId item;
         Device.type := JS.orElse (Reading.deviceType item) "unknown";
         Device.totalEmissions := 0;
         Device.totalEnergy := 0;
         Device.intensity := 0 |} devices in
  JS.update (Reading.deviceId item)
    (fun device =>
       {| Device.id := Device.id device;
          Device.type := Device.type device;
          Device.totalEmissions :=
            Device.totalEmissions device + Reading.carbonEmissions item;
          Device.totalEnergy :=
            Device.totalEnergy device + Reading.energyConsumption item;
          Device.intensity := Device.intensity device |}) devices.

Definition intensityStep (buildings : JS.obj Group.t) (item : Reading.t)
  : JS.obj Group.t :=
  let buildings :=
    JS.ensure (Reading.buildingId item)
      {| Group.id := Reading.buildingId item;
         Group.name :=
           JS.orElse (Reading.buildingName item) (Reading.buildingId item);
         Group.totalEmissions := 0;
         Group.totalEnergy := 0;
         Group.intensity := 0;
         Group.devices := [] |} buildings in
  JS.update (Reading.buildingId item)
    (fun building =>
       {| Group.id := Group.id building;
          Group.name := Group.name building;
          Group.totalEmissions :=
            Group.totalEmissions building + Reading.carbonEmissions item;
          Group.totalEnergy :=
            Group.totalEnergy building + Reading.energyConsumption item;
          Group.intensity := Group.intensity building;
          Group.devices := intensityDeviceStep item (Group.devices building) |})
    buildings.

(** [totalEnergy > 0 ? totalEmissions / totalEnergy : 0]. *)
Definition ratio (totalEmissions totalEnergy : Q) : Q :=
  if JS.gtb totalEnergy 0 then totalEmissions / totalEnergy else 0.

(** The devices of a building as the sorted array of the result. *)
Definition intensityDevices (devices : JS.obj Device.t) : list Device.t :=
  JS.sort (fun a b => JS.ltb (Device.intensity b - Device.intensity a) 0)
    (map (fun device =>
            {| Device.id := Device.id device;
               Device.type := Device.type device;
               Device.totalEmissions := JS.rounded (Device.totalEmissions device) 2;
               Device.totalEnergy := JS.rounded (Device.totalEnergy device) 2;
               Device.intensity :=
                 JS.rounded (ratio (Device.totalEmissions device)
                                (Device.totalEnergy device)) 4 |})
         (JS.values devices)).

(** A building as it stands in the result. *)
Definition intensityBuilding (building : Group.t) : BuildingIntensity.t :=
  {| BuildingIntensity.id := Group.id building;
     BuildingIntensity.name := Group.name building;
     BuildingIntensity.totalEmissions := JS.rounded (Group.totalEmissions building) 2;
     BuildingIntensity.totalEnergy := JS.rounded (Group.totalEnergy building) 2;
     BuildingIntensity.intensity :=
       JS.rounded (ratio (Group.totalEmissions building)
                      (Group.totalEnergy building)) 4;
     BuildingIntensity.devices := intensityDevices (Group.devices building) |}.

(** [calculateCarbonIntensity()]. *)
Definition calculateCarbonIntensity (data : list Reading.t) : Intensity.t :=
  match data with
  | [] => {| Intensity.buildings := []; Intensity.average := 0 |}
  | _ =>
      let buildings := fold_left intensityStep data [] in
      let totals :=
        fold_left
          (fun acc building =>
             (fst acc + Group.totalEmissions building,
              snd acc + Group.totalEnergy building))
          (JS.values buildings) (0, 0) in
      let totalEmissions := fst totals in
      let totalEnergy := snd totals in
      let averageIntensity := ratio totalEmissions totalEnergy in
      let buildingsArray :=
        JS.sort
          (fun a b =>
             JS.ltb (BuildingIntensity.intensity b - BuildingIntensity.intensity a) 0)
          (map intensityBuilding (JS.values buildings)) in
      {| Intensity.buildings := buildingsArray;
         Intensity.average := JS.rounded averageIntensity 4 |}
  end.

(** ** Trends *)

Definition pad2 (z : Z) : string := JS.padStart0 (JS.showZ z) 2.

(** [`${d.getFullYear()}-${month}-${day}`], month and day padded. *)
Definition ymd (d : Z) : string :=
  JS.showZ (Host.getFullYear host d) ++ "-" ++
  pad2 (Host.getMonth host d + 1) ++ "-" ++
  pad2 (Host.getDate host d).

(** The key of the bucket of a reading; [None] is [undefined], the value
    of the uninitialised [key] when the interval is none of the three. *)
Definition bucketKey (interval : string) (date : Z) : option string :=
  if String.eqb interval "hour" then
    Some (ymd date ++ " " ++ pad2 (Host.getHours host date) ++ ":00")
  else if String.eqb interval "day" then
    Some (ymd date)
  else if String.eqb interval "week" then
    let day := Host.getDay host date in
    let firstDayOfWeek :=
      Host.setDate host date (Host.getDate host date - day) in
    Some ("Week of " ++ ymd firstDayOfWeek)
  else None.

(** A key as a property name. *)
Definition propertyName (key : option string) : string :=
  match key with
  | Some k => k
  | None => "undefined"
  end.

Definition bucketStep (interval : string) (groupedData : JS.obj Bucket.t)
  (item : Reading.t) : JS.obj Bucket.t :=
  let key := bucketKey interval (Reading.timestamp item) in
  let groupedData :=
    JS.ensure (propertyName key)
      {| Bucket.interval := key;
         Bucket.totalEmissions := 0;
         Bucket.totalEnergy := 0;
         Bucket.count := 0 |} groupedData in
  JS.update (propertyName key)
    (fun group =>
       {| Bucket.interval := Bucket.interval group;
          Bucket.totalEmissions :=
            Bucket.totalEmissions group + Reading.carbonEmissions item;
          Bucket.totalEnergy :=
            Bucket.totalEnergy group + Reading.energyConsumption item;
          Bucket.count := Bucket.count group + 1 |}) groupedData.

(** The buckets of the readings, oldest reading first. *)
Definition buckets (data : list Reading.t) (interval : string)
  : list Bucket.t :=
  let sortedData :=
    JS.sort (fun a b => (Reading.timestamp a - Reading.timestamp b <? 0)%Z)
            data in
  JS.values (fold_left (bucketStep interval) sortedData []).

(** [averageEmissions] of a bucket. *)
Definition averageEmissions (group : Bucket.t) : Q :=
  JS.rounded (Bucket.totalEmissions group / inject_Z (Bucket.count group)) 2.

Definition averageEnergy (group : Bucket.t) : Q :=
  JS.rounded (Bucket.totalEnergy group / inject_Z (Bucket.count group)) 2.

(** [Array.from({ length: n }, (_, i) => i)]. *)
Definition indices (n : nat) : list Q :=
  map (fun i => inject_Z (Z.of_nat i)) (seq 0 n).

(** The least-squares fit of [yValues] against [0, 1, 2, ...]: the part of
    [identifyTrends] from "Calculate trend" to "Calculate R-squared". *)
Definition regression (yValues : list Q) : Regression.t :=
  let n := JS.len yValues in
  let xValues := indices (List.length yValues) in
  let xMean := JS.sum xValues / n in
  let yMean := JS.sum yValues / n in
  let numerator :=
    fold_left (fun acc xy => acc + (fst xy - xMean) * (snd xy - yMean))
              (combine xValues yValues) 0 in
  let denominator :=
    fold_left (fun acc xy => acc + sq (fst xy - xMean))
              (combine xValues yValues) 0 in
  let slope := if negb (JS.eqb denominator 0) then numerator / denominator else 0 in
  let yIntercept := yMean - slope * xMean in
  let predicted := map (fun x => slope * x + yIntercept) xValues in
  let ssResidual :=
    fold_left (fun acc yp => acc + sq (fst yp - snd yp))
              (combine yValues predicted) 0 in
  let ssTotal :=
    fold_left (fun acc yp => acc + sq (fst yp - yMean))
              (combine yValues predicted) 0 in
  let rSquared := if negb (JS.eqb ssTotal 0) then 1 - ssResidual / ssTotal else 0 in
  {| Regression.slope := slope;
     Regression.yIntercept := yIntercept;
     Regression.predicted := predicted;
     Regression.ssResidual := ssResidual;
     Regression.ssTotal := ssTotal;
     Regression.rSquared := rSquared |}.

Definition trendDirection (slope : Q) : string :=
  if JS.gtb slope 0 then "increasing"
  else if JS.ltb slope 0 then "decreasing" else "stable".

Definition trendStrength (rSquared : Q) : string :=
  if JS.gtb rSquared (7 # 10) then "strong"
  else if JS.gtb rSquared (3 # 10) then "moderate" else "weak".

Definition significant (slope rSquared : Q) : bool :=
  JS.gtb (JS.abs slope) (1 # 10) && JS.gtb rSquared (3 # 10).

(** A bucket with its predicted value, as a point of the result. *)
Definition trendPoint (group : Bucket.t) (predicted : Q) : TrendPoint.t :=
  {| TrendPoint.interval := Bucket.interval group;
     TrendPoint.totalEmissions := JS.rounded (Bucket.totalEmissions group) 2;
     TrendPoint.totalEnergy := JS.rounded (Bucket.totalEnergy group) 2;
     TrendPoint.averageEmissions := averageEmissions group;
     TrendPoint.averageEnergy := averageEnergy group;
     TrendPoint.count := Bucket.count group;
     TrendPoint.predicted := JS.rounded predicted 2;
     TrendPoint.deviation := JS.rounded (averageEmissions group - predicted) 2 |}.

(** [identifyTrends(interval)]. *)
Definition identifyTrends (data : list Reading.t) (interval : string)
  : Trends.t :=
  match data with
  | [] =>
      {| Trends.trends := [];
         Trends.analysis := None;
         Trends.hasSignificantTrend := false |}
  | _ =>
      let groups := buckets data interval in
      let fit := regression (map averageEmissions groups) in
      let slope := Regression.slope fit in
      let rSquared := Regression.rSquared fit in
      let trends :=
        map (fun gp => trendPoint (fst gp) (snd gp))
            (combine groups (Regression.predicted fit)) in
      let hasSignificantTrend := significant slope rSquared in
      let trendDirection := trendDirection slope in
      let trendStrength := trendStrength rSquared in
      {| Trends.trends := trends;
         Trends.analysis :=
           Some
             {| TrendAnalysis.slope := JS.rounded slope 4;
                TrendAnalysis.yIntercept := JS.rounded (Regression.yIntercept fit) 4;
                TrendAnalysis.rSquared := JS.rounded rSquared 4;
                TrendAnalysis.direction := trendDirection;
                TrendAnalysis.strength := trendStrength;
                TrendAnalysis.interpretation :=
                  "Carbon emissions show a " ++ trendStrength ++ " " ++
                  trendDirection ++ " trend over the " ++ interval ++
                  "s analyzed." |};
         Trends.hasSignificantTrend := hasSignificantTrend |}
  end.

(** ** Recommendations *)

(** The step of the loop that groups the anomalies by building. *)
Definition anomalyStep (buildingAnomalies : JS.obj (list Anomaly.t))
  (anomaly : Anomaly.t) : JS.obj (list Anomaly.t) :=
  let buildingAnomalies :=
    JS.ensure (Anomaly.buildingId anomaly) [] buildingAnomalies in
  JS.update (Anomaly.buildingId anomaly)
    (fun l => JS.push l anomaly) buildingAnomalies.

(** The rule on the building of highest intensity and its worst device. *)
Definition intensityRule (intensityData : Intensity.t)
  (recommendations : list Recommendation.t) : list Recommendation.t :=
  match Intensity.buildings intensityData with
  | highestIntensity :: _ =>
      if JS.gtb (BuildingIntensity.intensity highestIntensity)
                (Intensity.average intensityData * (15 # 10))
      then
        let name := BuildingIntensity.name highestIntensity in
        let recommendations :=
          JS.push recommendations
            {| Recommendation.type := "efficiency";
               Recommendation.priority := "high";
               Recommendation.target := Some name;
               Recommendation.text :=
                 name ++ " has a carbon intensity " ++
                 JS.showFixedStr
                   (JS.toFixedNum
                      (JS.div (BuildingIntensity.intensity highestIntensity)
                              (Intensity.average intensityData)) 1) ++
                 "x higher than average. Consider energy efficiency improvements."
            |} in
        match BuildingIntensity.devices highestIntensity with
        | worstDevice :: _ =>
            if JS.gtb (Device.intensity worstDevice)
                      (BuildingIntensity.intensity highestIntensity * (13 # 10))
            then
              JS.push recommendations
                {| Recommendation.type := "device";
                   Recommendation.priority := "high";
                   Recommendation.target :=
                     Some (Device.type worstDevice ++ " in " ++ name);
                   Recommendation.text :=
                     "The " ++ Device.type worstDevice ++ " in " ++ name ++
                     " has particularly high carbon intensity. Consider upgrading or optimizing this system."
                |}
            else recommendations
        | [] => recommendations
        end
      else recommendations
  | [] => recommendations
  end.

(** The rule on a significant trend; reading [trends.analysis.slope]
    throws when [analysis] is absent. *)
Definition trendRule (trends : Trends.t)
  (recommendations : list Recommendation.t)
  : JS.completion (list Recommendation.t) :=
  if Trends.hasSignificantTrend trends then
    analysis <- JS.defined (Trends.analysis trends) ;;
    if JS.gtb (TrendAnalysis.slope analysis) 0 then
      JS.Normal
        (JS.push recommendations
           {| Recommendation.type := "trend";
              Recommendation.priority := "high";
              Recommendation.target := None;
              Recommendation.text :=
                "Carbon emissions are " ++ TrendAnalysis.strength analysis ++
                " increasing over time. Review recent operational changes and consider implementing additional reduction measures."
           |})
    else
      JS.Normal
        (JS.push recommendations
           {| Recommendation.type := "trend";
              Recommendation.priority := "low";
              Recommendation.target := None;
              Recommendation.text :=
                "Carbon emissions are " ++ TrendAnalysis.strength analysis ++
                " decreasing over time. Current reduction measures appear to be effective."
           |})
  else JS.Normal recommendations.

(** The rule on buildings with more than two anomalies.  The objects that
    [detectAnomalies] pushes have no [metadata], so the name of a building
    is the key of its group. *)
Definition anomalyRule (anomalies : list Anomaly.t)
  (recommendations : list Recommendation.t) : list Recommendation.t :=
  match anomalies with
  | [] => recommendations
  | _ =>
      let buildingAnomalies := fold_left anomalyStep anomalies [] in
      fold_left
        (fun recommendations entry =>
           let buildingId := fst entry in
           let buildingAnomaliesList := snd entry in
           if (2 <? List.length buildingAnomaliesList)%nat then
             let buildingName := JS.orElse None buildingId in
             JS.push recommendations
               {| Recommendation.type := "anomaly";
                  Recommendation.priority := "medium";
                  Recommendation.target := Some buildingName;
                  Recommendation.text :=
                    buildingName ++ " shows " ++
                    JS.showZ (Z.of_nat (List.length buildingAnomaliesList)) ++
                    " unusual readings. Consider investigating for potential equipment malfunctions or operational issues."
               |}
           else recommendations)
        (JS.entries buildingAnomalies) recommendations
  end.

(** The two general recommendations of the fallback. *)
Definition generalRule (recommendations : list Recommendation.t)
  : list Recommendation.t :=
  if (List.length recommendations <? 2)%nat then
    let recommendations :=
      JS.push recommendations
        {| Recommendation.type := "general";
           Recommendation.priority := "medium";
           Recommendation.target := None;
           Recommendation.text :=
             "Consider implementing a regular energy audit program to identify further efficiency opportunities."
        |} in
    JS.push recommendations
      {| Recommendation.type := "general";
         Recommendation.priority := "medium";
         Recommendation.target := None;
         Recommendation.text :=
           "Develop a carbon reduction roadmap with specific targets and timelines for each building."
      |}
  else recommendations.

(** [generateRecommendations()]. *)
Definition generateRecommendations (data : list Reading.t)
  : JS.completion (list Recommendation.t) :=
  let recommendations := [] in
  if (List.length data <? 10)%nat then
    JS.Normal
      (JS.push recommendations
         {| Recommendation.type := "general";
            Recommendation.priority := "medium";
            Recommendation.target := None;
            Recommendation.text :=
              "Collect more data to enable comprehensive analysis and more specific recommendations."
         |})
  else
    let intensityData := calculateCarbonIntensity data in
    let trends := identifyTrends data "day" in
    let anomalies := detectAnomalies data 2 in
    let recommendations := intensityRule intensityData recommendations in
    recommendations <- trendRule trends recommendations ;;
    let recommendations := anomalyRule anomalies recommendations in
    JS.Normal (generalRule recommendations).

(** ** Forecast *)

(** The label of forecast period [i]. *)
Definition forecastLabel (interval : string) (lastInterval : option string)
  (i : Z) : string :=
  let lastDate :=
    match lastInterval with
    | Some s => Host.parseDate host s
    | None => None
    end in
  if String.eqb interval "day" then
    match lastDate with
    | Some d => ymd (Host.setDate host d (Host.getDate host d + i + 1))
    | None => "NaN-NaN-NaN"
    end
  else if String.eqb interval "week" then
    "Week of " ++
    match lastDate with
    | Some d => ymd (Host.setDate host d (Host.getDate host d + (i + 1) * 7))
    | None => "NaN-NaN-NaN"
    end
  else "Future " ++ interval ++ " " ++ JS.showZ (i + 1).

(** One turn of the forecasting loop: the state is [currentForecast] and the
    points pushed so far. *)
Definition forecastStep (interval : string) (lastInterval : option string)
  (slope : Q) (state : Q * list ForecastPoint.t) (i : nat)
  : Q * list ForecastPoint.t :=
  let forecastDate := forecastLabel interval lastInterval (Z.of_nat i) in
  let currentForecast := fst state + slope in
  let currentForecast := JS.max0 currentForecast in
  (currentForecast,
   JS.push (snd state)
     {| ForecastPoint.interval := forecastDate;
        ForecastPoint.forecast := JS.rounded currentForecast 2 |}).

Definition forecastConfidence (rSquared : Q) (length : nat) : string :=
  if JS.gtb rSquared (7 # 10) && (30 <? length)%nat then "high"
  else if JS.gtb rSquared (4 # 10) && (20 <? length)%nat then "medium"
  else "low".

(** The two bytes of the superscript two in UTF-8. *)
Definition superscript2 : string :=
  String (ascii_of_nat 194) (String (ascii_of_nat 178) EmptyString).

(** [forecast(periods, interval)]. *)
Definition forecast (data : list Reading.t) (periods : Z) (interval : string)
  : JS.completion Forecast.t :=
  if (List.length data <? 10)%nat then
    JS.Normal
      {| Forecast.historical := None;
         Forecast.forecast := [];
         Forecast.confidence := "low";
         Forecast.slope := None;
         Forecast.message :=
           "Insufficient historical data for accurate forecasting" |}
  else
    let trends := identifyTrends data interval in
    let historicalValues :=
      map TrendPoint.averageEmissions (Trends.trends trends) in
    let lastValue := JS.lastOf historicalValues in
    points <-
      (if (0 <? periods)%Z then
         lastTrend <- JS.defined (JS.lastOf (Trends.trends trends)) ;;
         analysis <- JS.defined (Trends.analysis trends) ;;
         currentForecast <- JS.defined lastValue ;;
         JS.Normal
           (snd (fold_left
                   (forecastStep interval (TrendPoint.interval lastTrend)
                                 (TrendAnalysis.slope analysis))
                   (seq 0 (Z.to_nat periods)) (currentForecast, [])))
       else JS.Normal []) ;;
    analysis <- JS.defined (Trends.analysis trends) ;;
    let confidence :=
      forecastConfidence (TrendAnalysis.rSquared analysis) (List.length data) in
    JS.Normal
      {| Forecast.historical := Some (Trends.trends trends);
         Forecast.forecast := points;
         Forecast.confidence := confidence;
         Forecast.slope := Some (TrendAnalysis.slope analysis);
         Forecast.message :=
           "This forecast has " ++ confidence ++ " confidence based on " ++
           JS.showZ (Z.of_nat (List.length data)) ++
           " data points and an R" ++ superscript2 ++ " of " ++
           JS.fixedString (JS.toFixed (TrendAnalysis.rSquared analysis) 2) ++
           "." |}.

End Analyzer.

End CarbonDataAnalyzer.

(* ================================================================== *)
(** * The analyzer in binary64 *)
(* ================================================================== *)

(** [detectAnomalies] and [identifyTrends] compare computed numbers with
    thresholds, so that their outcome depends on how the engine rounds.
    Here they are embedded on binary64: the number of a reading is the
    number nearest to the rational it is written as, and every operation
    rounds as the engine does. *)
Module Binary64.

Module Anomaly.
Record t : Type := {
  id : string;
  timestamp : Z;
  buildingId : string;
  deviceId : string;
  carbonEmissions : F64.t;
  energyConsumption : F64.t;
  emissionsZScore : F64.fixedStr;
  energyZScore : F64.fixedStr;
  reason : string
}.
End Anomaly.

Module Bucket.
Record t : Type := {
  interval : option string;
  totalEmissions : F64.t;
  totalEnergy : F64.t;
  count : Z
}.
End Bucket.

Module TrendPoint.
Record t : Type := {
  interval : option string;
  totalEmissions : F64.t;
  totalEnergy : F64.t;
  averageEmissions : F64.t;
  averageEnergy : F64.t;
  count : Z;
  predicted : F64.t;
  deviation : F64.t
}.
End TrendPoint.

(** The values of the regression before they are rounded for output. *)
Module Regression.
Record t : Type := {
  slope : F64.t;
  yIntercept : F64.t;
  predicted : list F64.t;
  ssResidual : F64.t;
  ssTotal : F64.t;
  rSquared : F64.t
}.
End Regression.

Module TrendAnalysis.
Record t : Type := {
  slope : F64.t;
  yIntercept : F64.t;
  rSquared : F64.t;
  direction : string;
  strength : string;
  interpretation : string
}.
End TrendAnalysis.

Module Trends.
Record t : Type := {
  trends : list TrendPoint.t;
  analysis : option TrendAnalysis.t;
  hasSignificantTrend : bool
}.
End Trends.

Section Analyzer.

Variable host : Host.t.

Local Open Scope string_scope.

(** [item.carbonEmissions] and [item.energyConsumption]. *)
Definition carbonEmissions (item : Reading.t) : F64.t :=
  F64.ofQ (Reading.carbonEmissions item).

Definition energyConsumption (item : Reading.t) : F64.t :=
  F64.ofQ (Reading.energyConsumption item).

(** [`${x}`] for a finite number [x]. *)
Definition show (x : F64.t) : string := Host.numberToString host (F64.value x).

(** [Math.sqrt(values.reduce((sum, val) => sum + Math.pow(val - mean, 2), 0)
    / values.length)]. *)
Definition stdDev (values : list F64.t) (mean : F64.t) : F64.t :=
  F64.sqrt
    (F64.div
       (fold_left (fun sum val => F64.add sum (F64.sq (F64.sub val mean)))
                  values F64.zero)
       (F64.len values)).

(** [(value - mean) / stdDev]. *)
Definition zScore (value mean sd : F64.t) : F64.t :=
  F64.div (F64.sub value mean) sd.

(** The test of [detectAnomalies] on one z-score. *)
Definition exceeds (z threshold : F64.t) : bool :=
  F64.gtb (F64.abs z) threshold.

(** The object pushed for an anomalous reading. *)
Definition anomalyOf (item : Reading.t) (emissionsZScore energyZScore : F64.t)
  : Anomaly.t :=
  {| Anomaly.id := Reading.id item;
     Anomaly.timestamp := Reading.timestamp item;
     Anomaly.buildingId := Reading.buildingId item;
     Anomaly.deviceId := Reading.deviceId item;
     Anomaly.carbonEmissions := carbonEmissions item;
     Anomaly.energyConsumption := energyConsumption item;
     Anomaly.emissionsZScore := F64.toFixed emissionsZScore 2;
     Anomaly.energyZScore := F64.toFixed energyZScore 2;
     Anomaly.reason :=
       if F64.gtb (F64.abs emissionsZScore) (F64.abs energyZScore) then
         "Unusual carbon emissions (" ++ show (carbonEmissions item) ++
         " kg, z-score: " ++
         F64.showFixedStr host (F64.toFixed emissionsZScore 2) ++ ")"
       else
         "Unusual energy consumption (" ++ show (energyConsumption item) ++
         " kWh, z-score: " ++
         F64.showFixedStr host (F64.toFixed energyZScore 2) ++ ")" |}.

(** [detectAnomalies(threshold)]. *)
Definition detectAnomalies (data : list Reading.t) (threshold : F64.t)
  : list Anomaly.t :=
  if (List.length data <? 5)%nat then []
  else
    let emissions := map carbonEmissions data in
    let emissionsMean := F64.div (F64.sum emissions) (F64.len emissions) in
    let emissionsStdDev := stdDev emissions emissionsMean in
    let energy := map energyConsumption data in
    let energyMean := F64.div (F64.sum energy) (F64.len energy) in
    let energyStdDev := stdDev energy energyMean in
    fold_left
      (fun anomalies item =>
         let emissionsZScore :=
           zScore (carbonEmissions item) emissionsMean emissionsStdDev in
         let energyZScore :=
           zScore (energyConsumption item) energyMean energyStdDev in
         if exceeds emissionsZScore threshold || exceeds energyZScore threshold
         then JS.push anomalies (anomalyOf item emissionsZScore energyZScore)
         else anomalies)
      data [].

(** ** Trends *)

Definition bucketStep (interval : string) (groupedData : JS.obj Bucket.t)
  (item : Reading.t) : JS.obj Bucket.t :=
  let key := CarbonDataAnalyzer.bucketKey host interval (Reading.timestamp item) in
  let groupedData :=
    JS.ensure (CarbonDataAnalyzer.propertyName key)
      {| Bucket.interval := key;
         Bucket.totalEmissions := F64.zero;
         Bucket.totalEnergy := F64.zero;
         Bucket.count := 0 |} groupedData in
  JS.update (CarbonDataAnalyzer.propertyName key)
    (fun group =>
       {| Bucket.interval := Bucket.interval group;
          Bucket.totalEmissions :=
            F64.add (Bucket.totalEmissions group) (carbonEmissions item);
          Bucket.totalEnergy :=
            F64.add (Bucket.totalEnergy group) (energyConsumption item);
          Bucket.count := (Bucket.count group + 1)%Z |}) groupedData.

(** The buckets of the readings, oldest reading first. *)
Definition buckets (data : list Reading.t) (interval : string)
  : list Bucket.t :=
  let sortedData :=
    JS.sort (fun a b => (Reading.timestamp a - Reading.timestamp b <? 0)%Z)
            data in
  JS.values (fold_left (bucketStep interval) sortedData []).

(** [averageEmissions] and [averageEnergy] of a bucket. *)
Definition averageEmissions (group : Bucket.t) : F64.t :=
  F64.rounded
    (F64.div (Bucket.totalEmissions group) (F64.ofZ (Bucket.count group))) 2.

Definition averageEnergy (group : Bucket.t) : F64.t :=
  F64.rounded
    (F64.div (Bucket.totalEnergy group) (F64.ofZ (Bucket.count group))) 2.

(** [Array.from({ length: n }, (_, i) => i)]. *)
Definition indices (n : nat) : list F64.t := map F64.ofNat (seq 0 n).

(** The least-squares fit of [yValues] against [0, 1, 2, ...]: the part of
    [identifyTrends] from "Calculate trend" to "Calculate R-squared". *)
Definition regression (yValues : list F64.t) : Regression.t :=
  let n := F64.len yValues in
  let xValues := indices (List.length yValues) in
  let xMean := F64.div (F64.sum xValues) n in
  let yMean := F64.div (F64.sum yValues) n in
  let numerator :=
    fold_left
      (fun acc xy =>
         F64.add acc (F64.mul (F64.sub (fst xy) xMean) (F64.sub (snd xy) yMean)))
      (combine xValues yValues) F64.zero in
  let denominator :=
    fold_left (fun acc xy => F64.add acc (F64.sq (F64.sub (fst xy) xMean)))
              (combine xValues yValues) F64.zero in
  let slope :=
    if F64.neqb denominator F64.zero then F64.div numerator denominator
    else F64.zero in
  let yIntercept := F64.sub yMean (F64.mul slope xMean) in
  let predicted := map (fun x => F64.add (F64.mul slope x) yIntercept) xValues in
  let ssResidual :=
    fold_left (fun acc yp => F64.add acc (F64.sq (F64.sub (fst yp) (snd yp))))
              (combine yValues predicted) F64.zero in
  let ssTotal :=
    fold_left (fun acc yp => F64.add acc (F64.sq (F64.sub (fst yp) yMean)))
              (combine yValues predicted) F64.zero in
  let rSquared :=
    if F64.neqb ssTotal F64.zero
    then F64.sub F64.one (F64.div ssResidual ssTotal)
    else F64.zero in
  {| Regression.slope := slope;
     Regression.yIntercept := yIntercept;
     Regression.predicted := predicted;
     Regression.ssResidual := ssResidual;
     Regression.ssTotal := ssTotal;
     Regression.rSquared := rSquared |}.

Definition trendDirection (slope : F64.t) : string :=
  if F64.gtb slope F64.zero then "increasing"
  else if F64.ltb slope F64.zero then "decreasing" else "stable".

Definition trendStrength (rSquared : F64.t) : string :=
  if F64.gtb rSquared (F64.ofQ (7 # 10)) then "strong"
  else if F64.gtb rSquared (F64.ofQ (3 # 10)) then "moderate" else "weak".

Definition significant (slope rSquared : F64.t) : bool :=
  F64.gtb (F64.abs slope) (F64.ofQ (1 # 10))
  && F64.gtb rSquared (F64.ofQ (3 # 10)).

(** A bucket with its predicted value, as a point of the result. *)
Definition trendPoint (group : Bucket.t) (predicted : F64.t) : TrendPoint.t :=
  {| TrendPoint.interval := Bucket.interval group;
     TrendPoint.totalEmissions := F64.rounded (Bucket.totalEmissions group) 2;
     TrendPoint.totalEnergy := F64.rounded (Bucket.totalEnergy group) 2;
     TrendPoint.averageEmissions := averageEmissions group;
     TrendPoint.averageEnergy := averageEnergy group;
     TrendPoint.count := Bucket.count group;
     TrendPoint.predicted := F64.rounded predicted 2;
     TrendPoint.deviation :=
       F64.rounded (F64.sub (averageEmissions group) predicted) 2 |}.

(** [identifyTrends(interval)]. *)
Definition identifyTrends (data : list Reading.t) (interval : string)
  : Trends.t :=
  match data with
  | [] =>
      {| Trends.trends := [];
         Trends.analysis := None;
         Trends.hasSignificantTrend := false |}
  | _ =>
      let groups := buckets data interval in
      let fit := regression (map averageEmissions groups) in
      let slope := Regression.slope fit in
      let rSquared := Regression.rSquared fit in
      let trends :=
        map (fun gp => trendPoint (fst gp) (snd gp))
            (combine groups (Regression.predicted fit)) in
      let hasSignificantTrend := significant slope rSquared in
      let trendDirection := trendDirection slope in
      let trendStrength := trendStrength rSquared in
      {| Trends.trends := trends;
         Trends.analysis :=
           Some
             {| TrendAnalysis.slope := F64.rounded slope 4;
                TrendAnalysis.yIntercept :=
                  F64.rounded (Regression.yIntercept fit) 4;
                TrendAnalysis.rSquared := F64.rounded rSquared 4;
                TrendAnalysis.direction := trendDirection;
                TrendAnalysis.strength := trendStrength;
                TrendAnalysis.interpretation :=
                  "Carbon emissions show a " ++ trendStrength ++ " " ++
                  trendDirection ++ " trend over the " ++ interval ++
                  "s analyzed." |};
         Trends.hasSignificantTrend := hasSignificantTrend |}
  end.

End Analyzer.

End Binary64.

(* ================================================================== *)
(** * ReportGenerator *)
(* ================================================================== *)

Module ReportDevice.
Record t : Type := {
  id : string;
  type : string;
  totalEmissions : Q;
  totalEnergy : Q;
  readingCount : Z
}.
End ReportDevice.

(** A building while [groupByBuilding] groups the readings. *)
Module ReportGroup.
Record t : Type := {
  id : string;
  name : string;
  totalEmissions : Q;
  totalEnergy : Q;
  readingCount : Z;
  devices : JS.obj ReportDevice.t
}.
End ReportGroup.

Module ReportBuilding.
Record t : Type := {
  id : string;
  name : string;
  totalEmissions : Q;
  totalEnergy : Q;
  readingCount : Z;
  devices : list ReportDevice.t
}.
End ReportBuilding.

Module Hour.
Record t : Type := {
  hour : Z;
  totalEmissions : Q;
  totalEnergy : Q;
  readingCount : Z
}.
End Hour.

(** [dayName] is absent when the day of the week is not one of 0..6. *)
Module Day.
Record t : Type := {
  date : string;
  dayOfWeek : Z;
  dayName : option string;
  totalEmissions : Q;
  totalEnergy : Q;
  readingCount : Z
}.
End Day.

Module Week.
Record t : Type := {
  week : Z;
  startDate : option string;
  endDate : option string;
  totalEmissions : Q;
  totalEnergy : Q;
  readingCount : Z
}.
End Week.

Module PeakHour.
Record t : Type := { hour : Z; emissions : Q }.
End PeakHour.

Module PeakDay.
Record t : Type := { dayName : option string; emissions : Q }.
End PeakDay.

Module Advice.
Record t : Type := {
  priority : string;
  category : string;
  building : option string;
  device : option string;
  text : string
}.
End Advice.

(** The summary of a report; a field that a kind of report does not have
    is [None]. *)
Module Summary.
Record t : Type := {
  totalEmissions : Q;
  totalEnergy : Q;
  readingCount : Z;
  peakHour : option string;
  peakDay : option string;
  peakEmissions : option Q;
  dailyAverage : option JS.num
}.
End Summary.

(** A report; a field that a kind of report does not have is [None]. *)
Module Report.
Record t : Type := {
  reportType : string;
  date : option string;
  startDate : option string;
  endDate : option string;
  year : option Z;
  month : option Z;
  summary : Summary.t;
  buildings : list ReportBuilding.t;
  hourly : option (list Hour.t);
  daily : option (list Day.t);
  weeklyTrend : option (list Week.t);
  recommendations : list Advice.t
}.
End Report.

Module ReportGenerator.

Section Generator.

Variable host : Host.t.

Local Open Scope Q_scope.
Local Open Scope string_scope.

(** [d.toISOString().split('T')[0]]. *)
Definition isoDate (d : Z) : string := JS.beforeT (Host.toISOString host d).

(** The table of [groupByBuilding]. *)
Definition buildingNames : JS.obj string :=
  [("B-101", "City Hall");
   ("B-102", "Community Center");
   ("B-103", "Public Library");
   ("B-104", "Police Station");
   ("B-105", "Fire Station")].

Definition reportDeviceStep (item : Reading.t)
  (devices : JS.obj ReportDevice.t) : JS.obj ReportDevice.t :=
  let devices :=
    JS.ensure (Reading.deviceId item)
      {| ReportDevice.id := Reading.deviceId item;
         ReportDevice.type := JS.orElse (Reading.deviceType item) "unknown";
         ReportDevice.totalEmissions := 0;
         ReportDevice.totalEnergy := 0;
         ReportDevice.readingCount := 0 |} devices in
  JS.update (Reading.deviceId item)
    (fun device =>
       {| ReportDevice.id := ReportDevice.id device;
          ReportDevice.type := ReportDevice.type device;
          ReportDevice.totalEmissions :=
            ReportDevice.totalEmissions device + Reading.carbonEmissions item;
          ReportDevice.totalEnergy :=
            ReportDevice.totalEnergy device + Reading.energyConsumption item;
          ReportDevice.readingCount := ReportDevice.readingCount device + 1 |})
    devices.

Definition reportBuildingStep (buildings : JS.obj ReportGroup.t)
  (item : Reading.t) : JS.obj ReportGroup.t :=
  let buildings :=
    JS.ensure (Reading.buildingId item)
      {| ReportGroup.id := Reading.buildingId item;
         ReportGroup.name :=
           JS.orElse (Reading.buildingName item)
             (JS.orElse (JS.lookup (Reading.buildingId item) buildingNames)
                        (Reading.buildingId item));
         ReportGroup.totalEmissions := 0;
         ReportGroup.totalEnergy := 0;
         ReportGroup.readingCount := 0;
         ReportGroup.devices := [] |} buildings in
  JS.update (Reading.buildingId item)
    (fun building =>
       {| ReportGroup.id := ReportGroup.id building;
          ReportGroup.name := ReportGroup.name building;
          ReportGroup.totalEmissions :=
            ReportGroup.totalEmissions building + Reading.carbonEmissions item;
          ReportGroup.totalEnergy :=
            ReportGroup.totalEnergy building + Reading.energyConsumption item;
          ReportGroup.readingCount := ReportGroup.readingCount building + 1;
          ReportGroup.devices :=
            reportDeviceStep item (ReportGroup.devices building) |})
    buildings.

(** [groupByBuilding(data)]. *)
Definition groupByBuilding (data : list Reading.t) : list ReportBuilding.t :=
  let buildings := fold_left reportBuildingStep data [] in
  JS.sort
    (fun a b =>
       JS.ltb (ReportBuilding.totalEmissions b - ReportBuilding.totalEmissions a) 0)
    (map
       (fun building =>
          let devices :=
            JS.sort
              (fun a b =>
                 JS.ltb (ReportDevice.totalEmissions b
                         - ReportDevice.totalEmissions a) 0)
              (map
                 (fun device =>
                    {| ReportDevice.id := ReportDevice.id device;
                       ReportDevice.type := ReportDevice.type device;
                       ReportDevice.totalEmissions :=
                         JS.rounded (ReportDevice.totalEmissions device) 2;
                       ReportDevice.totalEnergy :=
                         JS.rounded (ReportDevice.totalEnergy device) 2;
                       ReportDevice.readingCount :=
                         ReportDevice.readingCount device |})
                 (JS.values (ReportGroup.devices building))) in
          {| ReportBuilding.id := ReportGroup.id building;
             ReportBuilding.name := ReportGroup.name building;
             ReportBuilding.totalEmissions :=
               JS.rounded (ReportGroup.totalEmissions building) 2;
             ReportBuilding.totalEnergy :=
               JS.rounded (ReportGroup.totalEnergy building) 2;
             ReportBuilding.readingCount := ReportGroup.readingCount building;
             ReportBuilding.devices := devices |})
       (JS.values buildings)).

Definition hourStep (hours : JS.obj Hour.t) (item : Reading.t)
  : JS.obj Hour.t :=
  let hour := Host.getHours host (Reading.timestamp item) in
  let hours :=
    JS.ensure (JS.showZ hour)
      {| Hour.hour := hour;
         Hour.totalEmissions := 0;
         Hour.totalEnergy := 0;
         Hour.readingCount := 0 |} hours in
  JS.update (JS.showZ hour)
    (fun h =>
       {| Hour.hour := Hour.hour h;
          Hour.totalEmissions := Hour.totalEmissions h + Reading.carbonEmissions item;
          Hour.totalEnergy := Hour.totalEnergy h + Reading.energyConsumption item;
          Hour.readingCount := Hour.readingCount h + 1 |}) hours.

(** [groupByHour(data)]. *)
Definition groupByHour (data : list Reading.t) : list Hour.t :=
  let hours := fold_left hourStep data [] in
  JS.sort (fun a b => (Hour.hour a - Hour.hour b <? 0)%Z)
    (map
       (fun hour =>
          {| Hour.hour := Hour.hour hour;
             Hour.totalEmissions := JS.rounded (Hour.totalEmissions hour) 2;
             Hour.totalEnergy := JS.rounded (Hour.totalEnergy hour) 2;
             Hour.readingCount := Hour.readingCount hour |})
       (JS.values hours)).

Definition dayNames : list string :=
  ["Sunday"; "Monday"; "Tuesday"; "Wednesday"; "Thursday"; "Friday";
   "Saturday"].

(** [dayNames[i]]. *)
Definition dayNameOf (i : Z) : option string :=
  if (i <? 0)%Z then None else nth_error dayNames (Z.to_nat i).

Definition msPerDay : Z := 24 * 60 * 60 * 1000.

(** [groupByDay(data, startDate, days)]. *)
Definition groupByDay (data : list Reading.t) (startDate : Z) (days : Z)
  : list Day.t :=
  let dailyData :=
    map
      (fun i =>
         let date :=
           Host.setDate host startDate
             (Host.getDate host startDate + Z.of_nat i) in
         {| Day.date := isoDate date;
            Day.dayOfWeek := Host.getDay host date;
            Day.dayName := dayNameOf (Host.getDay host date);
            Day.totalEmissions := 0;
            Day.totalEnergy := 0;
            Day.readingCount := 0 |})
      (seq 0 (Z.to_nat days)) in
  let dailyData :=
    fold_left
      (fun dailyData item =>
         let date := Reading.timestamp item in
         let dayIndex := ((date - startDate) / msPerDay)%Z in
         if (0 <=? dayIndex)%Z && (dayIndex <? days)%Z then
           JS.updateAt (Z.to_nat dayIndex)
             (fun day =>
                {| Day.date := Day.date day;
                   Day.dayOfWeek := Day.dayOfWeek day;
                   Day.dayName := Day.dayName day;
                   Day.totalEmissions :=
                     Day.totalEmissions day + Reading.carbonEmissions item;
                   Day.totalEnergy :=
                     Day.totalEnergy day + Reading.energyConsumption item;
                   Day.readingCount := Day.readingCount day + 1 |})
             dailyData
         else dailyData)
      data dailyData in
  map
    (fun day =>
       {| Day.date := Day.date day;
          Day.dayOfWeek := Day.dayOfWeek day;
          Day.dayName := Day.dayName day;
          Day.totalEmissions := JS.rounded (Day.totalEmissions day) 2;
          Day.totalEnergy := JS.rounded (Day.totalEnergy day) 2;
          Day.readingCount := Day.readingCount day |})
    dailyData.

(** [calculateWeeklyTrend(data, startDate)]. *)
Definition calculateWeeklyTrend (data : list Reading.t) (startDate : Z)
  : list Week.t :=
  let startDay := Host.getDay host startDate in
  let year := Host.getFullYear host startDate in
  let month := Host.getMonth host startDate in
  let daysInMonth := Host.getDate host (Host.newDate host year (month + 1) 0) in
  let numWeeks := JS.ceilDiv (daysInMonth + startDay) 7 in
  let weeks :=
    map
      (fun i =>
         let i := Z.of_nat i in
         let weekStart := (i * 7 - startDay + 1)%Z in
         let weekEnd := Z.min (weekStart + 6) daysInMonth in
         let dated := (weekStart <=? daysInMonth)%Z in
         {| Week.week := (i + 1)%Z;
            Week.startDate :=
              if dated then
                Some (isoDate (Host.newDate host year month (Z.max 1 weekStart)))
              else None;
            Week.endDate :=
              if dated then Some (isoDate (Host.newDate host year month weekEnd))
              else None;
            Week.totalEmissions := 0;
            Week.totalEnergy := 0;
            Week.readingCount := 0 |})
      (seq 0 (Z.to_nat numWeeks)) in
  let weeks :=
    fold_left
      (fun weeks item =>
         let dayOfMonth := Host.getDate host (Reading.timestamp item) in
         let weekIndex := ((dayOfMonth + startDay - 1) / 7)%Z in
         if (0 <=? weekIndex)%Z && (weekIndex <? Z.of_nat (List.length weeks))%Z
         then
           JS.updateAt (Z.to_nat weekIndex)
             (fun w =>
                {| Week.week := Week.week w;
                   Week.startDate := Week.startDate w;
                   Week.endDate := Week.endDate w;
                   Week.totalEmissions :=
                     Week.totalEmissions w + Reading.carbonEmissions item;
                   Week.totalEnergy :=
                     Week.totalEnergy w + Reading.energyConsumption item;
                   Week.readingCount := Week.readingCount w + 1 |})
             weeks
         else weeks)
      data weeks in
  map
    (fun w =>
       {| Week.week := Week.week w;
          Week.startDate := Week.startDate w;
          Week.endDate := Week.endDate w;
          Week.totalEmissions := JS.rounded (Week.totalEmissions w) 2;
          Week.totalEnergy := JS.rounded (Week.totalEnergy w) 2;
          Week.readingCount := Week.readingCount w |})
    (filter
       (fun w => match Week.startDate w with Some _ => true | None => false end)
       weeks).

(** [findPeakHour(hourlyData)]; [None] is [null]. *)
Definition findPeakHour (hourlyData : list Hour.t) : option PeakHour.t :=
  match hourlyData with
  | [] => None
  | first :: _ =>
      Some
        (fold_left
           (fun peak hour =>
              if JS.gtb (Hour.totalEmissions hour) (PeakHour.emissions peak)
              then {| PeakHour.hour := Hour.hour hour;
                      PeakHour.emissions := Hour.totalEmissions hour |}
              else peak)
           hourlyData
           {| PeakHour.hour := Hour.hour first;
              PeakHour.emissions := Hour.totalEmissions first |})
  end.

(** [findPeakDay(dailyData)]. *)
Definition findPeakDay (dailyData : list Day.t) : option PeakDay.t :=
  match dailyData with
  | [] => None
  | first :: _ =>
      Some
        (fold_left
           (fun peak day =>
              if JS.gtb (Day.totalEmissions day) (PeakDay.emissions peak)
              then {| PeakDay.dayName := Day.dayName day;
                      PeakDay.emissions := Day.totalEmissions day |}
              else peak)
           dailyData
           {| PeakDay.dayName := Day.dayName first;
              PeakDay.emissions := Day.totalEmissions first |})
  end.

(** The recommendations on one building and its devices. *)
Definition buildingAdvice (recommendations : list Advice.t)
  (building : ReportBuilding.t) : list Advice.t :=
  let name := ReportBuilding.name building in
  let recommendations :=
    if JS.gtb (ReportBuilding.totalEmissions building) 100 then
      JS.push recommendations
        {| Advice.priority := "high";
           Advice.category := "building";
           Advice.building := Some name;
           Advice.device := None;
           Advice.text :=
             name ++ " has unusually high emissions (" ++
             Host.numberToString host (ReportBuilding.totalEmissions building) ++
             " kg CO2). Consider an energy audit to identify inefficiencies."
        |}
    else recommendations in
  fold_left
    (fun recommendations device =>
       if JS.gtb (ReportDevice.totalEmissions device)
                 (ReportBuilding.totalEmissions building * (4 # 10))
       then
         JS.push recommendations
           {| Advice.priority := "medium";
              Advice.category := "device";
              Advice.building := Some name;
              Advice.device := Some (ReportDevice.type device);
              Advice.text :=
                ReportDevice.type device ++ " in " ++ name ++
                " accounts for over 40% of the building's emissions. Consider upgrading or optimizing this system."
           |}
       else recommendations)
    (ReportBuilding.devices building) recommendations.

(** The recommendation on the time of the peak. *)
Definition timingAdvice (data : list Reading.t) (reportType : string)
  (recommendations : list Advice.t) : JS.completion (list Advice.t) :=
  if String.eqb reportType "daily" then
    let hourlyData := groupByHour data in
    match findPeakHour hourlyData with
    | Some peakHour =>
        JS.Normal
          (JS.push recommendations
             {| Advice.priority := "medium";
                Advice.category := "timing";
                Advice.building := None;
                Advice.device := None;
                Advice.text :=
                  "Peak emissions occur at " ++
                  JS.showZ (PeakHour.hour peakHour) ++
                  ":00. Consider shifting energy-intensive operations to off-peak hours."
             |})
    | None => JS.Normal recommendations
    end
  else if String.eqb reportType "weekly" then
    match data with
    | [] =>
        (* [new Date(undefined)] is invalid and [toISOString] rejects it *)
        JS.Throw "RangeError"
    | first :: _ =>
        let dailyData := groupByDay data (Reading.timestamp first) 7 in
        match findPeakDay dailyData with
        | Some peakDay =>
            JS.Normal
              (JS.push recommendations
                 {| Advice.priority := "medium";
                    Advice.category := "timing";
                    Advice.building := None;
                    Advice.device := None;
                    Advice.text :=
                      JS.str (PeakDay.dayName peakDay) ++
                      " shows the highest emissions. Review operations on this day to identify reduction opportunities."
                 |})
        | None => JS.Normal recommendations
        end
    end
  else JS.Normal recommendations.

(** The two general recommendations of the fallback. *)
Definition generalAdvice (recommendations : list Advice.t) : list Advice.t :=
  if (List.length recommendations <? 2)%nat then
    let recommendations :=
      JS.push recommendations
        {| Advice.priority := "low";
           Advice.category := "general";
           Advice.building := None;
           Advice.device := None;
           Advice.text :=
             "Consider implementing a regular energy monitoring program to track consumption patterns and identify inefficiencies."
        |} in
    JS.push recommendations
      {| Advice.priority := "low";
         Advice.category := "general";
         Advice.building := None;
         Advice.device := None;
         Advice.text :=
           "Educate staff about energy conservation practices to reduce overall carbon footprint."
      |}
  else recommendations.

(** [generateRecommendations(data, reportType)]. *)
Definition generateRecommendations (data : list Reading.t)
  (reportType : string) : JS.completion (list Advice.t) :=
  let recommendations := [] in
  if (List.length data <? 5)%nat then
    JS.Normal
      (JS.push recommendations
         {| Advice.priority := "low";
            Advice.category := "general";
            Advice.building := None;
            Advice.device := None;
            Advice.text :=
              "Insufficient data to generate meaningful recommendations. Continue collecting data to improve insights."
         |})
  else
    let buildings := groupByBuilding data in
    let recommendations := fold_left buildingAdvice buildings recommendations in
    recommendations <- timingAdvice data reportType recommendations ;;
    JS.Normal (generalAdvice recommendations).

(** The readings with [start <= timestamp < finish]. *)
Definition within (start finish : Z) (carbonData : list Reading.t)
  : list Reading.t :=
  filter
    (fun item =>
       let itemDate := Reading.timestamp item in
       (start <=? itemDate)%Z && (itemDate <? finish)%Z)
    carbonData.

(** [data.reduce((sum, item) => sum + item.carbonEmissions, 0)]. *)
Definition totalOf (field : Reading.t -> Q) (data : list Reading.t) : Q :=
  fold_left (fun sum item => sum + field item) data 0.

(** [generateDailyReport(date)]. *)
Definition generateDailyReport (carbonData : list Reading.t) (date : Z)
  : JS.completion Report.t :=
  let reportDate := Host.setHours0 host date in
  let nextDay := Host.setDate host reportDate (Host.getDate host reportDate + 1) in
  let dailyData := within reportDate nextDay carbonData in
  let totalEmissions := totalOf Reading.carbonEmissions dailyData in
  let totalEnergy := totalOf Reading.energyConsumption dailyData in
  let buildingData := groupByBuilding dailyData in
  let hourlyData := groupByHour dailyData in
  let peakHour := findPeakHour hourlyData in
  recommendations <- generateRecommendations dailyData "daily" ;;
  JS.Normal
    {| Report.reportType := "daily";
       Report.date := Some (isoDate reportDate);
       Report.startDate := None;
       Report.endDate := None;
       Report.year := None;
       Report.month := None;
       Report.summary :=
         {| Summary.totalEmissions := JS.rounded totalEmissions 2;
            Summary.totalEnergy := JS.rounded totalEnergy 2;
            Summary.readingCount := Z.of_nat (List.length dailyData);
            Summary.peakHour :=
              Some match peakHour with
                   | Some p => JS.showZ (PeakHour.hour p) ++ ":00"
                   | None => "N/A"
                   end;
            Summary.peakDay := None;
            Summary.peakEmissions :=
              Some match peakHour with
                   | Some p => JS.rounded (PeakHour.emissions p) 2
                   | None => 0
                   end;
            Summary.dailyAverage := None |};
       Report.buildings := buildingData;
       Report.hourly := Some hourlyData;
       Report.daily := None;
       Report.weeklyTrend := None;
       Report.recommendations := recommendations |}.



(** A number inside a template literal. *)
Definition showNum (x : JS.num) : string :=
  match x with
  | JS.Fin q => Host.numberToString host q
  | JS.PosInf => "Infinity"
  | JS.NegInf => "-Infinity"
  | JS.NaN => "NaN"
  end.

Definition showOptQ (x : option Q) : string :=
  match x with
  | Some q => Host.numberToString host q
  | None => "undefined"
  end.

Definition showOptZ (x : option Z) : string :=
  match x with
  | Some z => JS.showZ z
  | None => "undefined"
  end.

Definition showOptNum (x : option JS.num) : string :=
  match x with
  | Some n => showNum n
  | None => "undefined"
  end.

(** Whether a string that may be absent is truthy. *)
Definition truthy (o : option string) : bool :=
  match o with
  | Some s => negb (String.eqb s EmptyString)
  | None => false
  end.

Definition present {A : Type} (o : option A) : bool :=
  match o with
  | Some _ => true
  | None => false
  end.

(** The elements of an array that is known to be present. *)
Definition elements {A : Type} (o : option (list A)) : list A :=
  match o with
  | Some l => l
  | None => []
  end.

Definition buildingRow (building : ReportBuilding.t) : string :=
  ReportBuilding.name building ++ "," ++
  Host.numberToString host (ReportBuilding.totalEmissions building) ++ "," ++
  Host.numberToString host (ReportBuilding.totalEnergy building) ++ "," ++
  JS.showZ (ReportBuilding.readingCount building) ++ JS.nl.

Definition hourRow (hour : Hour.t) : string :=
  JS.showZ (Hour.hour hour) ++ ":00," ++
  Host.numberToString host (Hour.totalEmissions hour) ++ "," ++
  Host.numberToString host (Hour.totalEnergy hour) ++ "," ++
  JS.showZ (Hour.readingCount hour) ++ JS.nl.

Definition dayRow (day : Day.t) : string :=
  Day.date day ++ "," ++ JS.str (Day.dayName day) ++ "," ++
  Host.numberToString host (Day.totalEmissions day) ++ "," ++
  Host.numberToString host (Day.totalEnergy day) ++ "," ++
  JS.showZ (Day.readingCount day) ++ JS.nl.

Definition adviceRow (rec : Advice.t) : string :=
  Advice.priority rec ++ "," ++ Advice.category rec ++ "," ++
  JS.quote ++ Advice.text rec ++ JS.quote ++ JS.nl.

(** [exportReportAsCsv(report)]. *)
Definition exportReportAsCsv (report : Report.t) : string :=
  let reportType := Report.reportType report in
  let summary := Report.summary report in
  let csv := EmptyString in
  let csv := csv ++ "Report Type," ++ reportType ++ JS.nl in
  let csv :=
    if String.eqb reportType "daily" then
      csv ++ "Date," ++ JS.str (Report.date report) ++ JS.nl
    else if String.eqb reportType "weekly" then
      let csv := csv ++ "Start Date," ++ JS.str (Report.startDate report) ++ JS.nl in
      csv ++ "End Date," ++ JS.str (Report.endDate report) ++ JS.nl
    else if String.eqb reportType "monthly" then
      let csv := csv ++ "Year," ++ showOptZ (Report.year report) ++ JS.nl in
      csv ++ "Month," ++ showOptZ (Report.month report) ++ JS.nl
    else csv in
  let csv := csv ++ JS.nl in
  let csv := csv ++ "SUMMARY" ++ JS.nl in
  let csv :=
    csv ++ "Total Emissions (kg CO2)," ++
    Host.numberToString host (Summary.totalEmissions summary) ++ JS.nl in
  let csv :=
    csv ++ "Total Energy (kWh)," ++
    Host.numberToString host (Summary.totalEnergy summary) ++ JS.nl in
  let csv :=
    csv ++ "Reading Count," ++ JS.showZ (Summary.readingCount summary) ++ JS.nl in
  let csv :=
    if String.eqb reportType "daily" && truthy (Summary.peakHour summary) then
      let csv := csv ++ "Peak Hour," ++ JS.str (Summary.peakHour summary) ++ JS.nl in
      csv ++ "Peak Emissions (kg CO2)," ++
      showOptQ (Summary.peakEmissions summary) ++ JS.nl
    else if String.eqb reportType "weekly" && truthy (Summary.peakDay summary) then
      let csv := csv ++ "Peak Day," ++ JS.str (Summary.peakDay summary) ++ JS.nl in
      csv ++ "Peak Emissions (kg CO2)," ++
      showOptQ (Summary.peakEmissions summary) ++ JS.nl
    else if String.eqb reportType "monthly" then
      csv ++ "Daily Average (kg CO2)," ++
      showOptNum (Summary.dailyAverage summary) ++ JS.nl
    else csv in
  let csv := csv ++ JS.nl in
  let csv := csv ++ "BUILDINGS" ++ JS.nl in
  let csv :=
    csv ++ "Building,Total Emissions (kg CO2),Total Energy (kWh),Reading Count"
        ++ JS.nl in
  let csv :=
    fold_left (fun csv building => csv ++ buildingRow building)
              (Report.buildings report) csv in
  let csv := csv ++ JS.nl in
  let csv :=
    if String.eqb reportType "daily" && present (Report.hourly report) then
      let csv := csv ++ "HOURLY DATA" ++ JS.nl in
      let csv :=
        csv ++ "Hour,Total Emissions (kg CO2),Total Energy (kWh),Reading Count"
            ++ JS.nl in
      fold_left (fun csv hour => csv ++ hourRow hour)
                (elements (Report.hourly report)) csv
    else if (String.eqb reportType "weekly" || String.eqb reportType "monthly")
            && present (Report.daily report) then
      let csv := csv ++ "DAILY DATA" ++ JS.nl in
      let csv :=
        csv ++ "Date,Day,Total Emissions (kg CO2),Total Energy (kWh),Reading Count"
            ++ JS.nl in
      fold_left (fun csv day => csv ++ dayRow day)
                (elements (Report.daily report)) csv
    else csv in
  let csv := csv ++ JS.nl in
  let csv := csv ++ "RECOMMENDATIONS" ++ JS.nl in
  let csv := csv ++ "Priority,Category,Recommendation" ++ JS.nl in
  fold_left (fun csv rec => csv ++ adviceRow rec)
            (Report.recommendations report) csv.

End Generator.

End ReportGenerator.

(* ================================================================== *)
(** * Population statistics, as the specification words them *)
(* ================================================================== *)

(** Mean, variance, standard deviation and z-score of a full set of real
    values, written from the specification and not from the code. *)
Module Population.

Local Open Scope R_scope.

Definition total (l : list R) : R := fold_right Rplus 0 l.

Definition mean (l : list R) : R := total l / INR (List.length l).

Definition variance (l : list R) : R :=
  total (map (fun x => (x - mean l) * (x - mean l)) l) / INR (List.length l).

Definition stdDev (l : list R) : R := sqrt (variance l).

(** [(value - mean) / stdDev]. *)
Definition zScore (l : list R) (x : R) : R := (x - mean l) / stdDev l.

(** [|z| > threshold]. *)
Definition beyond (z threshold : R) : bool :=
  if Rlt_dec threshold (Rabs z) then true else false.

(** The values of a field over the readings, as reals. *)
Definition column (field : Reading.t -> Q) (data : list Reading.t) : list R :=
  map (fun item => Q2R (field item)) data.

End Population.

(* ================================================================== *)
(** * Population statistics in binary64, as the specification words them *)
(* ================================================================== *)

(** Mean, variance, standard deviation and z-score of a population, each
    operation rounded as the engine rounds it, the sums taken from the
    first value to the last. *)
Module Population64.

Definition mean (l : list F64.t) : F64.t := F64.div (F64.sum l) (F64.len l).

Definition variance (l : list F64.t) : F64.t :=
  F64.div (F64.sum (map (fun x => F64.sq (F64.sub x (mean l))) l)) (F64.len l).

Definition stdDev (l : list F64.t) : F64.t := F64.sqrt (variance l).

(** [(value - mean) / stdDev]. *)
Definition zScore (l : list F64.t) (x : F64.t) : F64.t :=
  F64.div (F64.sub x (mean l)) (stdDev l).

(** [|z| > threshold]. *)
Definition beyond (z threshold : F64.t) : bool :=
  F64.gtb (F64.abs z) threshold.

(** The values of a field over the readings. *)
Definition column (field : Reading.t -> Q) (data : list Reading.t)
  : list F64.t :=
  map (fun item => F64.ofQ (field item)) data.

(** The anomaly expected for a reading: its two z-scores are those of the
    population statistics. *)
Definition expectedAnomaly (host : Host.t) (data : list Reading.t)
  (item : Reading.t) : Binary64.Anomaly.t :=
  Binary64.anomalyOf host item
    (zScore (column Reading.carbonEmissions data)
            (F64.ofQ (Reading.carbonEmissions item)))
    (zScore (column Reading.energyConsumption data)
            (F64.ofQ (Reading.energyConsumption item))).

(** Whether a reading is expected to be flagged: one of its two z-scores is
    beyond the threshold. *)
Definition expectedFlag (data : list Reading.t) (threshold : F64.t)
  (item : Reading.t) : bool :=
  beyond (zScore (column Reading.carbonEmissions data)
                 (F64.ofQ (Reading.carbonEmissions item))) threshold
  || beyond (zScore (column Reading.energyConsumption data)
                    (F64.ofQ (Reading.energyConsumption item))) threshold.

End Population64.

(* ================================================================== *)
(** * Totals of the groups, as the specification words them *)
(* ================================================================== *)

Module Totals.



(** The sum of a field over the readings that satisfy [p]. *)
Definition over (field : Reading.t -> Q) (p : Reading.t -> bool)
  (data : list Reading.t) : Q :=
  JS.sum (map field (filter p data)).

Definition emissions := over Reading.carbonEmissions.
Definition energy := over Reading.energyConsumption.



End Totals.

(* ================================================================== *)
(** * Rounding for output, as the specification words it *)
(* ================================================================== *)

(** [x] is [v] rounded to [d] decimals, whichever way a tie goes: a decimal
    of [d] digits within half a unit of the last digit of [v]. *)
Module Rounding.


End Rounding.

Module IntensitySpec.
End IntensitySpec.

(* ================================================================== *)
(** * Least squares, as the specification words it *)
(* ================================================================== *)

(** Ordinary least squares of a series against its index 0, 1, 2, ..., and
    the coefficient of determination, written from the specification. *)
Module LeastSquares.

Local Open Scope Q_scope.

Definition total (l : list Q) : Q := fold_right Qplus 0 l.

Definition mean (l : list Q) : Q := total l / inject_Z (Z.of_nat (List.length l)).

(** The indices [0, 1, ..., n - 1]. *)
Definition xs (n : nat) : list Q :=
  map (fun i => inject_Z (Z.of_nat i)) (seq 0 n).

(** The points [(i, y_i)]. *)
Definition points (ys : list Q) : list (Q * Q) := combine (xs (List.length ys)) ys.

Definition xMean (ys : list Q) : Q := mean (xs (List.length ys)).

Definition sxy (ys : list Q) : Q :=
  total (map (fun p => (fst p - xMean ys) * (snd p - mean ys)) (points ys)).

Definition sxx (ys : list Q) : Q :=
  total (map (fun p => (fst p - xMean ys) * (fst p - xMean ys)) (points ys)).

(** The slope; 0 when the indices have no spread. *)
Definition slope (ys : list Q) : Q :=
  if Qeq_bool (sxx ys) 0 then 0 else sxy ys / sxx ys.

Definition intercept (ys : list Q) : Q := mean ys - slope ys * xMean ys.

Definition fitted (ys : list Q) (x : Q) : Q := slope ys * x + intercept ys.

Definition ssResidual (ys : list Q) : Q :=
  total (map (fun p => (snd p - fitted ys (fst p)) * (snd p - fitted ys (fst p)))
             (points ys)).

Definition ssTotal (ys : list Q) : Q :=
  total (map (fun y => (y - mean ys) * (y - mean ys)) ys).

(** R squared: [1 - SS_residual / SS_total], and 0 when [SS_total] is 0. *)
Definition rSquared (ys : list Q) : Q :=
  if Qeq_bool (ssTotal ys) 0 then 0 else 1 - ssResidual ys / ssTotal ys.

End LeastSquares.

(* ================================================================== *)
(** * Least squares in binary64, as the specification words it *)
(* ================================================================== *)

(** Ordinary least squares of a series against its index 0, 1, 2, ..., and
    the coefficient of determination, each operation rounded as the engine
    rounds it, the sums taken from the first point to the last. *)
Module LeastSquares64.

Definition mean (l : list F64.t) : F64.t := F64.div (F64.sum l) (F64.len l).

(** The indices [0, 1, ..., n - 1], their mean and their spread. *)
Definition xs (n : nat) : list F64.t := map F64.ofNat (seq 0 n).

Definition xMean (n : nat) : F64.t := F64.div (F64.sum (xs n)) (F64.ofNat n).

Definition sxx (n : nat) : F64.t :=
  F64.sum (map (fun x => F64.sq (F64.sub x (xMean n))) (xs n)).

(** The points [(i, y_i)]. *)
Definition points (ys : list F64.t) : list (F64.t * F64.t) :=
  combine (xs (List.length ys)) ys.

Definition sxy (ys : list F64.t) : F64.t :=
  F64.sum
    (map (fun p =>
            F64.mul (F64.sub (fst p) (xMean (List.length ys)))
                    (F64.sub (snd p) (mean ys)))
         (points ys)).

(** The slope; 0 when the indices have no spread. *)
Definition slope (ys : list F64.t) : F64.t :=
  if F64.neqb (sxx (List.length ys)) F64.zero
  then F64.div (sxy ys) (sxx (List.length ys))
  else F64.zero.

Definition intercept (ys : list F64.t) : F64.t :=
  F64.sub (mean ys) (F64.mul (slope ys) (xMean (List.length ys))).

Definition fitted (ys : list F64.t) (x : F64.t) : F64.t :=
  F64.add (F64.mul (slope ys) x) (intercept ys).

Definition ssResidual (ys : list F64.t) : F64.t :=
  F64.sum
    (map (fun p => F64.sq (F64.sub (snd p) (fitted ys (fst p)))) (points ys)).

Definition ssTotal (ys : list F64.t) : F64.t :=
  F64.sum (map (fun y => F64.sq (F64.sub y (mean ys))) ys).

(** R squared: [1 - SS_residual / SS_total], and 0 when [SS_total] is 0. *)
Definition rSquared (ys : list F64.t) : F64.t :=
  if F64.neqb (ssTotal ys) F64.zero
  then F64.sub F64.one (F64.div (ssResidual ys) (ssTotal ys))
  else F64.zero.


End LeastSquares64.

(* ================================================================== *)
(** * The buckets of the trend, as the specification words them *)
(* ================================================================== *)

(** The readings in chronological order, grouped by the key of their
    interval; the buckets stand in the order in which their first reading
    comes, and the average of a bucket is the sum of the emissions of its
    readings divided by their number, rounded to two decimals. *)
Module Buckets64.

Section Buckets.

Variable host : Host.t.
Variable interval : string.

Definition keyOf (item : Reading.t) : string :=
  CarbonDataAnalyzer.propertyName
    (CarbonDataAnalyzer.bucketKey host interval (Reading.timestamp item)).

Definition chronological (data : list Reading.t) : list Reading.t :=
  JS.sort (fun a b => (Reading.timestamp a - Reading.timestamp b <? 0)%Z) data.

(** The keys of a list, each at its first occurrence. *)
Fixpoint distinct (keys : list string) : list string :=
  match keys with
  | [] => []
  | k :: rest => k :: filter (fun k' => negb (String.eqb k' k)) (distinct rest)
  end.

(** The readings of a bucket, oldest first. *)
Definition members (k : string) (data : list Reading.t) : list Reading.t :=
  filter (fun item => String.eqb (keyOf item) k) (chronological data).

Definition average (k : string) (data : list Reading.t) : F64.t :=
  F64.rounded
    (F64.div
       (F64.sum (map (fun item => F64.ofQ (Reading.carbonEmissions item))
                     (members k data)))
       (F64.len (members k data))) 2.

Definition averages (data : list Reading.t) : list F64.t :=
  map (fun k => average k data) (distinct (map keyOf (chronological data))).

End Buckets.

End Buckets64.

(* ================================================================== *)
(** * The forecast, as the specification words it *)
(* ================================================================== *)

(** The recurrence of the forecast, written from the specification: each
    value is the previous one plus the slope, clamped at 0. *)
Module Projection.

Local Open Scope Q_scope.

Fixpoint values (previous slope : Q) (periods : nat) : list Q :=
  match periods with
  | O => []
  | S periods' =>
      let next := Qmax 0 (previous + slope) in
      next :: values next slope periods'
  end.

End Projection.

(* ================================================================== *)
(** * The window of a daily report, as the specification words it *)
(* ================================================================== *)

(** The readings of the day of [date]: those from the start of the day up
    to, and not including, the start of the next day. *)
Definition dayWindow (host : Host.t) (carbonData : list Reading.t) (date : Z)
  : list Reading.t :=
  let reportDate := Host.setHours0 host date in
  let nextDay :=
    Host.setDate host reportDate (Host.getDate host reportDate + 1) in
  filter
    (fun item =>
       (reportDate <=? Reading.timestamp item)%Z
       && (Reading.timestamp item <? nextDay)%Z)
    carbonData.

(* ================================================================== *)
(** * The CSV layout, as the specification words it *)
(* ================================================================== *)

(** The layout of the CSV export, written from the specification: sections
    of lines, every line ended by a line feed, an empty line between two
    sections. *)
Module CsvLayout.

Local Open Scope string_scope.

(** The lines of a section, each followed by a line feed. *)
Definition block (lines : list string) : string :=
  fold_right (fun line rest => line ++ JS.nl ++ rest) EmptyString lines.

(** Sections separated by an empty line. *)
Fixpoint sections (blocks : list (list string)) : string :=
  match blocks with
  | [] => EmptyString
  | [b] => block b
  | b :: rest => block b ++ JS.nl ++ sections rest
  end.

Definition buildingsHeader : string :=
  "Building,Total Emissions (kg CO2),Total Energy (kWh),Reading Count".



Definition adviceHeader : string := "Priority,Category,Recommendation".

Section Lines.

Variable host : Host.t.

Definition buildingLine (building : ReportBuilding.t) : string :=
  ReportBuilding.name building ++ "," ++
  Host.numberToString host (ReportBuilding.totalEmissions building) ++ "," ++
  Host.numberToString host (ReportBuilding.totalEnergy building) ++ "," ++
  JS.showZ (ReportBuilding.readingCount building).



(** The text of a recommendation stands between double quotes. *)
Definition adviceLine (rec : Advice.t) : string :=
  Advice.priority rec ++ "," ++ Advice.category rec ++ "," ++
  JS.quote ++ Advice.text rec ++ JS.quote.

(** The three lines every summary starts with. *)
Definition totalsLines (summary : Summary.t) : list string :=
  ["Total Emissions (kg CO2)," ++
   Host.numberToString host (Summary.totalEmissions summary);
   "Total Energy (kWh)," ++
   Host.numberToString host (Summary.totalEnergy summary);
   "Reading Count," ++ JS.showZ (Summary.readingCount summary)].


End Lines.

End CsvLayout.

(* ================================================================== *)
(** * Sample data *)
(* ================================================================== *)

(** The emissions of the example of the specification. *)
Definition nineTensAndAHundred : list Q :=
  [10; 10; 10; 10; 10; 10; 10; 10; 10; 100]%Q.

Module Samples.

Local Open Scope string_scope.

(** 2024-01-07T00:00:00Z, a Sunday. *)
Definition sunday : Z := 1704585600000.

Definition hourMs : Z := 3600000.

Definition reading (id : string) (timestamp : Z) (buildingId deviceId : string)
  (energyConsumption carbonEmissions : Q) : Reading.t :=
  {| Reading.id := id;
     Reading.timestamp := timestamp;
     Reading.buildingId := buildingId;
     Reading.deviceId := deviceId;
     Reading.energyConsumption := energyConsumption;
     Reading.carbonEmissions := carbonEmissions;
     Reading.temperature := None;
     Reading.humidity := None;
     Reading.metadata := None |}.

(** Ten hourly readings of one device: emissions nine times 10 and once
    100, energy alternating between 1 and 2. *)
Definition spike : list Reading.t :=
  [reading "r0" sunday "B-101" "D-001" 1 10;
   reading "r1" (sunday + 1 * hourMs) "B-101" "D-001" 2 10;
   reading "r2" (sunday + 2 * hourMs) "B-101" "D-001" 1 10;
   reading "r3" (sunday + 3 * hourMs) "B-101" "D-001" 2 10;
   reading "r4" (sunday + 4 * hourMs) "B-101" "D-001" 1 10;
   reading "r5" (sunday + 5 * hourMs) "B-101" "D-001" 2 10;
   reading "r6" (sunday + 6 * hourMs) "B-101" "D-001" 1 10;
   reading "r7" (sunday + 7 * hourMs) "B-101" "D-001" 2 10;
   reading "r8" (sunday + 8 * hourMs) "B-101" "D-001" 1 10;
   reading "r9" (sunday + 9 * hourMs) "B-101" "D-001" 2 100].

(** The same emissions with a constant energy of 5. *)
Definition flatEnergy : list Reading.t :=
  [reading "r0" sunday "B-101" "D-001" 5 10;
   reading "r1" (sunday + 1 * hourMs) "B-101" "D-001" 5 10;
   reading "r2" (sunday + 2 * hourMs) "B-101" "D-001" 5 10;
   reading "r3" (sunday + 3 * hourMs) "B-101" "D-001" 5 10;
   reading "r4" (sunday + 4 * hourMs) "B-101" "D-001" 5 10;
   reading "r5" (sunday + 5 * hourMs) "B-101" "D-001" 5 10;
   reading "r6" (sunday + 6 * hourMs) "B-101" "D-001" 5 10;
   reading "r7" (sunday + 7 * hourMs) "B-101" "D-001" 5 10;
   reading "r8" (sunday + 8 * hourMs) "B-101" "D-001" 5 10;
   reading "r9" (sunday + 9 * hourMs) "B-101" "D-001" 5 100].

(** A building with emissions 50 and energy 100 over two devices, and a
    building whose energy is 0. *)
Definition halfAndZero : list Reading.t :=
  [reading "a" sunday "B-101" "D-001" 60 30;
   reading "b" (sunday + hourMs) "B-101" "D-002" 40 20;
   reading "c" (sunday + 2 * hourMs) "B-102" "D-001" 0 7].

(** One reading a day over three days, with the same emissions. *)
Definition steady : list Reading.t :=
  [reading "s0" sunday "B-101" "D-001" 8 20;
   reading "s1" (sunday + 24 * hourMs) "B-101" "D-001" 9 20;
   reading "s2" (sunday + 48 * hourMs) "B-101" "D-001" 7 20].

End Samples.

(** * The loops by parts, and what they keep *)

Module Counts.
(** The sum of a list of counts. *)
Definition total (l : list Z) : Z := fold_right Z.add 0%Z l.
End Counts.

(** What the grouping loop of [groupByHour] keeps after the readings
    [seen]: the keys are distinct, an entry is kept under the decimal
    spelling of its hour, which is the hour of a reading, and no entry is
    empty. *)
Definition hoursInv (host : Host.t) (seen : list Reading.t)
  (hours : JS.obj Hour.t) : Prop :=
  NoDup (map fst hours) /\
  forall k h, JS.lookup k hours = Some h ->
    k = JS.showZ (Hour.hour h)
    /\ (1 <= Hour.readingCount h)%Z
    /\ exists item, In item seen
                    /\ Hour.hour h = Host.getHours host (Reading.timestamp item).





(** The index of the day of a reading, counted from [startDate], as
    [groupByDay] computes it, and whether it falls within the days. *)
Definition dayIndex (startDate : Z) (item : Reading.t) : Z :=
  ((Reading.timestamp item - startDate) / ReportGenerator.msPerDay)%Z.

Definition inDays (startDate days : Z) (item : Reading.t) : bool :=
  (0 <=? dayIndex startDate item)%Z && (dayIndex startDate item <? days)%Z.

(** The week of the month of a reading, as [calculateWeeklyTrend] computes
    it for a month whose first day falls on [startDay], and whether it is
    one of the [numWeeks] weeks. *)
Definition weekIndex (host : Host.t) (startDay : Z) (item : Reading.t) : Z :=
  ((Host.getDate host (Reading.timestamp item) + startDay - 1) / 7)%Z.

Definition inWeeks (host : Host.t) (startDay numWeeks : Z) (item : Reading.t)
  : bool :=
  (0 <=? weekIndex host startDay item)%Z
  && (weekIndex host startDay item <? numWeeks)%Z.

(** What the grouping loop of [identifyTrends] keeps: the keys are
    distinct and no bucket is empty. *)
Definition bucketsInv (o : JS.obj Bucket.t) : Prop :=
  NoDup (map fst o) /\
  forall k b, JS.lookup k o = Some b -> (1 <= Bucket.count b)%Z.


(** The points that the loop of [forecast] makes from the last point of
    the trend and its analysis. *)
Definition forecastPoints (host : Host.t) (interval : string)
  (lastTrend : TrendPoint.t) (analysis : TrendAnalysis.t) (periods : Z)
  : list ForecastPoint.t :=
  if (0 <? periods)%Z then
    snd (fold_left
           (CarbonDataAnalyzer.forecastStep host interval
              (TrendPoint.interval lastTrend) (TrendAnalysis.slope analysis))
           (seq 0 (Z.to_nat periods))
           (TrendPoint.averageEmissions lastTrend, []))
  else [].


(** The two loops of [groupByDay]. *)
Module DayLoop.

Local Open Scope Q_scope.

(** The rows of [groupByDay] before any reading is added. *)
Definition emptyDays (host : Host.t) (startDate days : Z) : list Day.t :=
  map
    (fun i =>
       let date :=
         Host.setDate host startDate
           (Host.getDate host startDate + Z.of_nat i) in
       {| Day.date := ReportGenerator.isoDate host date;
          Day.dayOfWeek := Host.getDay host date;
          Day.dayName := ReportGenerator.dayNameOf (Host.getDay host date);
          Day.totalEmissions := 0;
          Day.totalEnergy := 0;
          Day.readingCount := 0 |})
    (seq 0 (Z.to_nat days)).

(** The step of the loop of [groupByDay] over the readings. *)
Definition addToDay (startDate days : Z) (dailyData : list Day.t)
  (item : Reading.t) : list Day.t :=
  let date := Reading.timestamp item in
  let dayIndex := ((date - startDate) / ReportGenerator.msPerDay)%Z in
  if (0 <=? dayIndex)%Z && (dayIndex <? days)%Z then
    JS.updateAt (Z.to_nat dayIndex)
      (fun day =>
         {| Day.date := Day.date day;
            Day.dayOfWeek := Day.dayOfWeek day;
            Day.dayName := Day.dayName day;
            Day.totalEmissions :=
              Day.totalEmissions day + Reading.carbonEmissions item;
            Day.totalEnergy :=
              Day.totalEnergy day + Reading.energyConsumption item;
            Day.readingCount := (Day.readingCount day + 1)%Z |})
      dailyData
  else dailyData.

End DayLoop.

(** The two loops of [calculateWeeklyTrend]. *)
Module WeekLoop.

Local Open Scope Q_scope.

(** The weeks of [calculateWeeklyTrend] before any reading is added. *)
Definition newWeeks (host : Host.t) (startDate : Z) : list Week.t :=
  let startDay := Host.getDay host startDate in
  let year := Host.getFullYear host startDate in
  let month := Host.getMonth host startDate in
  let daysInMonth := Host.getDate host (Host.newDate host year (month + 1) 0) in
  let numWeeks := JS.ceilDiv (daysInMonth + startDay) 7 in
  map
    (fun i =>
       let i := Z.of_nat i in
       let weekStart := (i * 7 - startDay + 1)%Z in
       let weekEnd := Z.min (weekStart + 6) daysInMonth in
       let dated := (weekStart <=? daysInMonth)%Z in
       {| Week.week := (i + 1)%Z;
          Week.startDate :=
            if dated then
              Some (ReportGenerator.isoDate host
                      (Host.newDate host year month (Z.max 1 weekStart)))
            else None;
          Week.endDate :=
            if dated then
              Some (ReportGenerator.isoDate host
                      (Host.newDate host year month weekEnd))
            else None;
          Week.totalEmissions := 0;
          Week.totalEnergy := 0;
          Week.readingCount := 0 |})
    (seq 0 (Z.to_nat numWeeks)).

(** The step of the loop of [calculateWeeklyTrend] over the readings. *)
Definition addToWeek (host : Host.t) (startDate : Z) (weeks : list Week.t)
  (item : Reading.t) : list Week.t :=
  let startDay := Host.getDay host startDate in
  let dayOfMonth := Host.getDate host (Reading.timestamp item) in
  let weekIndex := ((dayOfMonth + startDay - 1) / 7)%Z in
  if (0 <=? weekIndex)%Z && (weekIndex <? Z.of_nat (List.length weeks))%Z
  then
    JS.updateAt (Z.to_nat weekIndex)
      (fun w =>
         {| Week.week := Week.week w;
            Week.startDate := Week.startDate w;
            Week.endDate := Week.endDate w;
            Week.totalEmissions :=
              Week.totalEmissions w + Reading.carbonEmissions item;
            Week.totalEnergy :=
              Week.totalEnergy w + Reading.energyConsumption item;
            Week.readingCount := (Week.readingCount w + 1)%Z |})
      weeks
  else weeks.

End WeekLoop.

(** Six readings of one device with the same emissions and the same
    energy, and a report of a type that no builder makes. *)
Module Cases.

Local Open Scope string_scope.

Definition level : list Reading.t :=
  [Samples.reading "l0" Samples.sunday "B-101" "D-001" 5 10;
   Samples.reading "l1" (Samples.sunday + Samples.hourMs) "B-101" "D-001" 5 10;
   Samples.reading "l2" (Samples.sunday + 2 * Samples.hourMs) "B-101" "D-001" 5 10;
   Samples.reading "l3" (Samples.sunday + 3 * Samples.hourMs) "B-101" "D-001" 5 10;
   Samples.reading "l4" (Samples.sunday + 4 * Samples.hourMs) "B-101" "D-001" 5 10;
   Samples.reading "l5" (Samples.sunday + 5 * Samples.hourMs) "B-101" "D-001" 5 10].

Definition yearly : Report.t :=
  {| Report.reportType := "yearly";
     Report.date := None;
     Report.startDate := None;
     Report.endDate := None;
     Report.year := Some 2024%Z;
     Report.month := None;
     Report.summary :=
       {| Summary.totalEmissions := 57;
          Summary.totalEnergy := 100;
          Summary.readingCount := 3;
          Summary.peakHour := None;
          Summary.peakDay := None;
          Summary.peakEmissions := None;
          Summary.dailyAverage := None |};
     Report.buildings := ReportGenerator.groupByBuilding Samples.halfAndZero;
     Report.hourly := None;
     Report.daily := None;
     Report.weeklyTrend := None;
     Report.recommendations := [] |}.

(** Ten readings of much energy: one of building B-101 with emissions 1,
    nine of building B-102 with none. *)
Definition diluted : list Reading.t :=
  [Samples.reading "d0" Samples.sunday "B-101" "D-001" 10000 1;
   Samples.reading "d1" (Samples.sunday + Samples.hourMs) "B-102" "D-002" 10000 0;
   Samples.reading "d2" (Samples.sunday + 2 * Samples.hourMs) "B-102" "D-002" 10000 0;
   Samples.reading "d3" (Samples.sunday + 3 * Samples.hourMs) "B-102" "D-002" 10000 0;
   Samples.reading "d4" (Samples.sunday + 4 * Samples.hourMs) "B-102" "D-002" 10000 0;
   Samples.reading "d5" (Samples.sunday + 5 * Samples.hourMs) "B-102" "D-002" 10000 0;
   Samples.reading "d6" (Samples.sunday + 6 * Samples.hourMs) "B-102" "D-002" 10000 0;
   Samples.reading "d7" (Samples.sunday + 7 * Samples.hourMs) "B-102" "D-002" 10000 0;
   Samples.reading "d8" (Samples.sunday + 8 * Samples.hourMs) "B-102" "D-002" 10000 0;
   Samples.reading "d9" (Samples.sunday + 9 * Samples.hourMs) "B-102" "D-002" 10000 0].

End Cases.

(** Readings on which the rounding of binary64 decides. *)
Module Rounded.

Local Open Scope string_scope.

(** Five readings whose first has an emissions z-score of exactly -2 in
    exact arithmetic. *)
Definition borderline : list Reading.t :=
  [Samples.reading "b0" Samples.sunday "B-101" "D-001" 13 2;
   Samples.reading "b1" (Samples.sunday + Samples.hourMs) "B-101" "D-001" 7 5;
   Samples.reading "b2" (Samples.sunday + 2 * Samples.hourMs) "B-101" "D-001" 11 5;
   Samples.reading "b3" (Samples.sunday + 3 * Samples.hourMs) "B-101" "D-001" 9 5;
   Samples.reading "b4" (Samples.sunday + 4 * Samples.hourMs) "B-101" "D-001" 10 5].

(** Six readings with emissions and energy 0.1. *)
Definition tenths : list Reading.t :=
  [Samples.reading "t0" Samples.sunday "B-101" "D-001" 0.1 0.1;
   Samples.reading "t1" (Samples.sunday + Samples.hourMs) "B-101" "D-001" 0.1 0.1;
   Samples.reading "t2" (Samples.sunday + 2 * Samples.hourMs) "B-101" "D-001" 0.1 0.1;
   Samples.reading "t3" (Samples.sunday + 3 * Samples.hourMs) "B-101" "D-001" 0.1 0.1;
   Samples.reading "t4" (Samples.sunday + 4 * Samples.hourMs) "B-101" "D-001" 0.1 0.1;
   Samples.reading "t5" (Samples.sunday + 5 * Samples.hourMs) "B-101" "D-001" 0.1 0.1].

(** One reading a day over three days, with emissions 0.35, 0.45 and
    0.55: a slope of exactly 0.1 in exact arithmetic. *)
Definition climbing : list Reading.t :=
  [Samples.reading "c0" Samples.sunday "B-101" "D-001" 1 0.35;
   Samples.reading "c1" (Samples.sunday + 24 * Samples.hourMs) "B-101" "D-001" 1 0.45;
   Samples.reading "c2" (Samples.sunday + 48 * Samples.hourMs) "B-101" "D-001" 1 0.55].

(** One reading a day over six days, each with emissions 0.1. *)
Definition flat : list Reading.t :=
  [Samples.reading "f0" Samples.sunday "B-101" "D-001" 1 0.1;
   Samples.reading "f1" (Samples.sunday + 24 * Samples.hourMs) "B-101" "D-001" 1 0.1;
   Samples.reading "f2" (Samples.sunday + 48 * Samples.hourMs) "B-101" "D-001" 1 0.1;
   Samples.reading "f3" (Samples.sunday + 72 * Samples.hourMs) "B-101" "D-001" 1 0.1;
   Samples.reading "f4" (Samples.sunday + 96 * Samples.hourMs) "B-101" "D-001" 1 0.1;
   Samples.reading "f5" (Samples.sunday + 120 * Samples.hourMs) "B-101" "D-001" 1 0.1].

End Rounded.

(* ================================================================== *)
(** * Properties *)
(* ================================================================== *)

(** ** Sums and lengths *)

Lemma sum_fold_acc (l : list Q) (a : Q) :
  Q2R (fold_left Qplus l a) = (Q2R a + Population.total (map Q2R l))%R.
Proof.
  revert a; induction l as [|x l IH]; intros a; cbn [fold_left map].
  - unfold Population.total; cbn [fold_right]; lra.
  - rewrite IH, Q2R_plus. unfold Population.total; cbn [fold_right]. lra.
Qed.

Lemma sum_total (l : list Q) : Q2R (JS.sum l) = Population.total (map Q2R l).
Proof. unfold JS.sum. rewrite sum_fold_acc, RMicromega.Q2R_0. lra. Qed.

Lemma len_INR {A : Type} (l : list A) : Q2R (JS.len l) = INR (List.length l).
Proof.
  unfold JS.len, Q2R; simpl. rewrite <- INR_IZR_INZ. lra.
Qed.

Lemma len_nonzero {A : Type} (l : list A) :
  (0 < List.length l)%nat -> ~ JS.len l == 0.
Proof.
  intros H E. apply Qeq_eqR in E. rewrite len_INR, RMicromega.Q2R_0 in E.
  apply (lt_INR 0) in H. simpl in H. lra.
Qed.

Lemma mean_refines (l : list Q) :
  (0 < List.length l)%nat ->
  Q2R (JS.sum l / JS.len l) = Population.mean (map Q2R l).
Proof.
  intros H. rewrite Q2R_div by (apply len_nonzero; exact H).
  unfold Population.mean. rewrite sum_total, len_INR, length_map. reflexivity.
Qed.

Lemma squares_fold_acc (l : list Q) (m a : Q) :
  Q2R (fold_left (fun sum val => sum + CarbonDataAnalyzer.sq (val - m)) l a) =
  (Q2R a +
   Population.total
     (map (fun x => (x - Q2R m) * (x - Q2R m)) (map Q2R l)))%R.
Proof.
  revert a; induction l as [|x l IH]; intros a; cbn [fold_left map].
  - unfold Population.total; cbn [fold_right]; lra.
  - rewrite IH. unfold CarbonDataAnalyzer.sq.
    rewrite Q2R_plus, Q2R_mult, Q2R_minus.
    unfold Population.total; cbn [fold_right]. lra.
Qed.

Lemma stdDev_refines (l : list Q) :
  (0 < List.length l)%nat ->
  CarbonDataAnalyzer.stdDev l (JS.sum l / JS.len l) =
  Population.stdDev (map Q2R l).
Proof.
  intros H. unfold CarbonDataAnalyzer.stdDev, Population.stdDev,
    Population.variance.
  rewrite Q2R_div by (apply len_nonzero; exact H).
  rewrite squares_fold_acc, RMicromega.Q2R_0, len_INR, length_map.
  rewrite (mean_refines l H). f_equal. lra.
Qed.

(** ** The arithmetic of the z-score test *)

Lemma divR_nonzero (a b : R) : b <> 0%R -> JS.divR a b = JS.Fin (a / b)%R.
Proof.
  intros H. unfold JS.divR. destruct (Req_dec_T b 0); [contradiction|reflexivity].
Qed.

Lemma divR_zero_zero : JS.divR 0 0 = JS.NaN.
Proof.
  unfold JS.divR. destruct (Req_dec_T 0 0) as [_|H]; [reflexivity|].
  exfalso; apply H; reflexivity.
Qed.

Lemma exceeds_Fin (z : R) (t : Q) :
  CarbonDataAnalyzer.exceeds (JS.Fin z) t = Population.beyond z (Q2R t).
Proof. reflexivity. Qed.

Lemma exceeds_NaN (t : Q) : CarbonDataAnalyzer.exceeds JS.NaN t = false.
Proof. reflexivity. Qed.

Lemma zScore_refines (l : list Q) (v : Q) :
  (0 < List.length l)%nat ->
  Population.stdDev (map Q2R l) <> 0%R ->
  CarbonDataAnalyzer.zScore v (JS.sum l / JS.len l)
    (CarbonDataAnalyzer.stdDev l (JS.sum l / JS.len l)) =
  JS.Fin (Population.zScore (map Q2R l) (Q2R v)).
Proof.
  intros H Hsd. unfold CarbonDataAnalyzer.zScore.
  rewrite (stdDev_refines l H), (divR_nonzero _ _ Hsd).
  unfold Population.zScore. rewrite Q2R_minus, (mean_refines l H). reflexivity.
Qed.

(** ** Loops that push *)

Lemma fold_push_filter {A B : Type} (p : A -> bool) (f : A -> B)
  (l : list A) (acc : list B) :
  fold_left (fun acc x => if p x then JS.push acc (f x) else acc) l acc =
  (acc ++ map f (filter p l))%list.
Proof.
  revert acc; induction l as [|x l IH]; intros acc; simpl.
  - now rewrite app_nil_r.
  - rewrite IH. destruct (p x); simpl; [|reflexivity].
    unfold JS.push. now rewrite <- app_assoc.
Qed.

Lemma map_filter_ext_in {A B : Type} (p q : A -> bool) (f g : A -> B)
  (l : list A) :
  (forall x, In x l -> p x = q x) ->
  (forall x, In x l -> f x = g x) ->
  map f (filter p l) = map g (filter q l).
Proof.
  induction l as [|x l IH]; intros Hp Hf; simpl; [reflexivity|].
  rewrite <- (Hp x (or_introl eq_refl)).
  destruct (p x); simpl.
  - rewrite (Hf x (or_introl eq_refl)). f_equal.
    apply IH; intros; [apply Hp | apply Hf]; now right.
  - apply IH; intros; [apply Hp | apply Hf]; now right.
Qed.

(** ** Anomaly detection against the population statistics *)

Section AnomalyProperties.

Variable host : Host.t.

Lemma column_map (field : Reading.t -> Q) (data : list Reading.t) :
  Population.column field data = map Q2R (map field data).
Proof. unfold Population.column. now rewrite map_map. Qed.

Lemma detectAnomalies_unfold (data : list Reading.t) (threshold : Q) :
  (5 <= List.length data)%nat ->
  CarbonDataAnalyzer.detectAnomalies host data threshold =
  let emissions := map Reading.carbonEmissions data in
  let emissionsMean := JS.sum emissions / JS.len emissions in
  let emissionsStdDev := CarbonDataAnalyzer.stdDev emissions emissionsMean in
  let energy := map Reading.energyConsumption data in
  let energyMean := JS.sum energy / JS.len energy in
  let energyStdDev := CarbonDataAnalyzer.stdDev energy energyMean in
  map
    (fun item =>
       CarbonDataAnalyzer.anomalyOf host item
         (CarbonDataAnalyzer.zScore (Reading.carbonEmissions item)
            emissionsMean emissionsStdDev)
         (CarbonDataAnalyzer.zScore (Reading.energyConsumption item)
            energyMean energyStdDev))
    (filter
       (fun item =>
          CarbonDataAnalyzer.exceeds
            (CarbonDataAnalyzer.zScore (Reading.carbonEmissions item)
               emissionsMean emissionsStdDev) threshold
          || CarbonDataAnalyzer.exceeds
               (CarbonDataAnalyzer.zScore (Reading.energyConsumption item)
                  energyMean energyStdDev) threshold)
       data).
Proof.
  intros H. unfold CarbonDataAnalyzer.detectAnomalies.
  destruct (Nat.ltb_spec (List.length data) 5) as [Hlt|_]; [lia|].
  cbv zeta.
  exact (fold_push_filter _ _ data []).
Qed.

End AnomalyProperties.

(** ** The example of the specification: nine readings at 10, one at 100 *)

Lemma Q2R_int (z : Z) : Q2R (z # 1) = IZR z.
Proof. unfold Q2R; simpl. field. Qed.

Lemma stdDev_of (l : list R) (s : R) :
  (0 <= s)%R -> Population.variance l = (s * s)%R -> Population.stdDev l = s.
Proof.
  intros Hs Hv. unfold Population.stdDev. rewrite Hv. now apply sqrt_square.
Qed.

Lemma example_mean :
  Population.mean (map Q2R nineTensAndAHundred) = 19%R.
Proof.
  unfold Population.mean, Population.total, nineTensAndAHundred.
  cbn [map fold_right List.length]. rewrite !Q2R_int, INR_IZR_INZ.
  cbn [Z.of_nat Pos.of_succ_nat Pos.succ]. lra.
Qed.

Lemma example_stdDev :
  Population.stdDev (map Q2R nineTensAndAHundred) = 27%R.
Proof.
  apply stdDev_of; [lra|].
  unfold Population.variance. rewrite example_mean.
  unfold Population.total, nineTensAndAHundred.
  cbn [map fold_right List.length]. rewrite !Q2R_int, INR_IZR_INZ.
  cbn [Z.of_nat Pos.of_succ_nat Pos.succ]. lra.
Qed.

Lemma example_zScore_10 :
  Population.zScore (map Q2R nineTensAndAHundred) (Q2R 10) = (- (1 / 3))%R.
Proof.
  unfold Population.zScore. rewrite example_mean, example_stdDev, Q2R_int. lra.
Qed.

Lemma example_zScore_100 :
  Population.zScore (map Q2R nineTensAndAHundred) (Q2R 100) = 3%R.
Proof.
  unfold Population.zScore. rewrite example_mean, example_stdDev, Q2R_int. lra.
Qed.

Lemma beyond_true (z t : R) : (t < Rabs z)%R -> Population.beyond z t = true.
Proof.
  intros H. unfold Population.beyond. destruct (Rlt_dec t (Rabs z)); tauto.
Qed.

Lemma beyond_false (z t : R) : (Rabs z <= t)%R -> Population.beyond z t = false.
Proof.
  intros H. unfold Population.beyond.
  destruct (Rlt_dec t (Rabs z)); [lra|reflexivity].
Qed.

Lemma map_filter_comm {A B : Type} (f : A -> B) (p : B -> bool) (l : list A) :
  map f (filter (fun x => p (f x)) l) = filter p (map f l).
Proof.
  induction l as [|x l IH]; simpl; [reflexivity|].
  destruct (p (f x)); simpl; now rewrite IH.
Qed.

(** ** A metric of zero variance *)

Lemma squares_total_nonneg (l : list R) (m : R) :
  (0 <= Population.total (map (fun x => ((x - m) * (x - m))%R) l))%R.
Proof.
  unfold Population.total.
  induction l as [|z k IHk]; cbn [map fold_right]; [lra|].
  pose proof (Rle_0_sqr (z - m)) as Hz. unfold Rsqr in Hz. lra.
Qed.

Lemma total_squares_zero (l : list R) (m : R) :
  Population.total (map (fun x => ((x - m) * (x - m))%R) l) = 0%R ->
  forall x, In x l -> x = m.
Proof.
  induction l as [|y l IH]; intros H x Hin.
  - destruct Hin.
  - pose proof (squares_total_nonneg l m) as Hnn.
    unfold Population.total in *. cbn [map fold_right] in H.
    pose proof (Rle_0_sqr (y - m)) as Hy. unfold Rsqr in Hy.
    destruct Hin as [<-|Hin].
    + assert (Hz : ((y - m) * (y - m) = 0)%R) by lra.
      apply Rmult_integral in Hz. lra.
    + apply IH; [lra|exact Hin].
Qed.

Lemma variance_nonneg (l : list R) :
  (0 < List.length l)%nat -> (0 <= Population.variance l)%R.
Proof.
  intros H. unfold Population.variance.
  apply (lt_INR 0) in H. cbn [INR] in H.
  apply Rmult_le_pos; [|left; now apply Rinv_0_lt_compat].
  apply squares_total_nonneg.
Qed.

Lemma stdDev_zero_all_mean (l : list R) :
  (0 < List.length l)%nat -> Population.stdDev l = 0%R ->
  forall x, In x l -> x = Population.mean l.
Proof.
  intros H Hsd. unfold Population.stdDev in Hsd.
  apply sqrt_eq_0 in Hsd; [|now apply variance_nonneg].
  apply total_squares_zero. unfold Population.variance in Hsd.
  apply (lt_INR 0) in H. cbn [INR] in H.
  apply (Rmult_eq_compat_r (INR (List.length l))) in Hsd.
  unfold Rdiv in Hsd. rewrite Rmult_assoc, Rinv_l, Rmult_1_r, Rmult_0_l in Hsd;
    [exact Hsd | lra].
Qed.

(** A metric whose standard deviation is zero flags no reading: the z-score
    of every value is [0 / 0]. *)
Lemma zero_variance_zScore (l : list Q) (v : Q) :
  (0 < List.length l)%nat -> In v l ->
  CarbonDataAnalyzer.stdDev l (JS.sum l / JS.len l) = 0%R ->
  CarbonDataAnalyzer.zScore v (JS.sum l / JS.len l)
    (CarbonDataAnalyzer.stdDev l (JS.sum l / JS.len l)) = JS.NaN.
Proof.
  intros H Hin Hsd. unfold CarbonDataAnalyzer.zScore. rewrite Hsd.
  rewrite (stdDev_refines l H) in Hsd.
  assert (E : Q2R v = Population.mean (map Q2R l)).
  { apply stdDev_zero_all_mean; [now rewrite length_map| exact Hsd |].
    now apply in_map. }
  rewrite Q2R_minus, (mean_refines l H), E, Rminus_diag.
  apply divR_zero_zero.
Qed.

Lemma toFixedR_eval (x : R) (d : nat) (n : Z) :
  (IZR n <= Rabs x * IZR (JS.pow10 d) + / 2 < IZR n + 1)%R ->
  JS.toFixedR x d =
  JS.mkFixed (if Rlt_dec x 0 then true else false) n d.
Proof.
  intros H. unfold JS.toFixedR. f_equal.
  symmetry. apply Int_part_spec. lra.
Qed.

Lemma detectAnomalies_with (host : Host.t) (data : list Reading.t) (threshold : Q)
  (ez nz : Reading.t -> JS.real) :
  (5 <= List.length data)%nat ->
  (forall item, In item data ->
     CarbonDataAnalyzer.zScore (Reading.carbonEmissions item)
       (JS.sum (map Reading.carbonEmissions data)
        / JS.len (map Reading.carbonEmissions data))
       (CarbonDataAnalyzer.stdDev (map Reading.carbonEmissions data)
          (JS.sum (map Reading.carbonEmissions data)
           / JS.len (map Reading.carbonEmissions data))) = ez item) ->
  (forall item, In item data ->
     CarbonDataAnalyzer.zScore (Reading.energyConsumption item)
       (JS.sum (map Reading.energyConsumption data)
        / JS.len (map Reading.energyConsumption data))
       (CarbonDataAnalyzer.stdDev (map Reading.energyConsumption data)
          (JS.sum (map Reading.energyConsumption data)
           / JS.len (map Reading.energyConsumption data))) = nz item) ->
  CarbonDataAnalyzer.detectAnomalies host data threshold =
  map (fun item => CarbonDataAnalyzer.anomalyOf host item (ez item) (nz item))
      (filter (fun item =>
                 CarbonDataAnalyzer.exceeds (ez item) threshold
                 || CarbonDataAnalyzer.exceeds (nz item) threshold) data).
Proof.
  intros Hlen He Hn.
  rewrite (detectAnomalies_unfold host data threshold Hlen). cbv zeta.
  apply map_filter_ext_in; intros item Hin;
    now rewrite (He item Hin), (Hn item Hin).
Qed.

Lemma example_beyond_10 : Population.beyond (- (1 / 3)) (Q2R 2) = false.
Proof. apply beyond_false. rewrite Q2R_int, Rabs_Ropp, Rabs_pos_eq; lra. Qed.

Lemma example_beyond_100 : Population.beyond 3 (Q2R 2) = true.
Proof. apply beyond_true. rewrite Q2R_int, Rabs_pos_eq; lra. Qed.

Lemma flatEnergy_stdDev :
  Population.stdDev (map Q2R (map Reading.energyConsumption Samples.flatEnergy)) = 0%R.
Proof.
  apply stdDev_of; [lra|].
  unfold Population.variance, Population.mean, Population.total.
  cbn [map fold_right List.length Samples.flatEnergy Samples.reading
       Reading.energyConsumption].
  rewrite !Q2R_int, INR_IZR_INZ.
  cbn [Z.of_nat Pos.of_succ_nat Pos.succ]. lra.
Qed.

(** C3.  On the ten readings with emissions 10 (nine times) and 100 and a
    constant energy of 5, at threshold 2, [detectAnomalies] returns one
    anomaly whose [energyZScore] is the string NaN and whose reason cites
    the energy with a z-score of NaN: the zero variance of the energy is
    not resolved, the division [0 / 0] reaches the output. *)
Theorem zero_variance_energy_prints_NaN :
  CarbonDataAnalyzer.detectAnomalies UTC.host Samples.flatEnergy 2 =
  [{| Anomaly.id := "r9"%string;
      Anomaly.timestamp := 1704618000000;
      Anomaly.buildingId := "B-101"%string;
      Anomaly.deviceId := "D-001"%string;
      Anomaly.carbonEmissions := 100;
      Anomaly.energyConsumption := 5;
      Anomaly.emissionsZScore := JS.Digits (JS.mkFixed false 300 2);
      Anomaly.energyZScore := JS.StrNaN;
      Anomaly.reason :=
        "Unusual energy consumption (5 kWh, z-score: NaN)"%string |}].
Proof.
  rewrite (detectAnomalies_with UTC.host Samples.flatEnergy 2
             (fun item => JS.Fin (Population.zScore (map Q2R nineTensAndAHundred)
                                    (Q2R (Reading.carbonEmissions item))))
             (fun _ => JS.NaN)).
  - unfold Samples.flatEnergy.
    cbn [filter map Samples.reading Reading.carbonEmissions].
    rewrite !exceeds_Fin, !exceeds_NaN, !orb_false_r.
    rewrite example_zScore_10, example_zScore_100.
    rewrite example_beyond_10, example_beyond_100.
    cbn [filter map].
    unfold CarbonDataAnalyzer.anomalyOf.
    cbn [Reading.id Reading.timestamp Reading.buildingId Reading.deviceId
         Reading.carbonEmissions Reading.energyConsumption JS.toFixedReal
         JS.absR JS.gtR JS.showFixedStr Samples.reading].
    rewrite example_zScore_100, (toFixedR_eval 3 2 300).
    2:{ change (JS.pow10 2) with 100%Z. rewrite Rabs_pos_eq; lra. }
    destruct (Rlt_dec 3 0) as [H|_]; [lra|].
    reflexivity.
  - simpl; lia.
  - intros item _.
    apply (zScore_refines (map Reading.carbonEmissions Samples.flatEnergy)).
    + simpl; lia.
    + change (map Reading.carbonEmissions Samples.flatEnergy)
        with nineTensAndAHundred.
      rewrite example_stdDev. lra.
  - intros item Hin.
    apply zero_variance_zScore.
    + simpl; lia.
    + now apply in_map.
    + rewrite stdDev_refines by (simpl; lia). apply flatEnergy_stdDev.
Qed.

(** Whenever the energy has zero variance, every anomaly that is returned
    (flagged, then, by its emissions) carries NaN as its energy z-score. *)
Lemma zero_variance_energy_zScore_NaN (host : Host.t) (data : list Reading.t)
  (threshold : Q) :
  (5 <= List.length data)%nat ->
  Population.stdDev (Population.column Reading.energyConsumption data) = 0%R ->
  forall a, In a (CarbonDataAnalyzer.detectAnomalies host data threshold) ->
            Anomaly.energyZScore a = JS.StrNaN.
Proof.
  intros Hlen Hsd a Hin.
  assert (HlN : (0 < List.length (map Reading.energyConsumption data))%nat)
    by (rewrite length_map; lia).
  rewrite column_map, <- (stdDev_refines _ HlN) in Hsd.
  rewrite (detectAnomalies_with host data threshold
             (fun item =>
                CarbonDataAnalyzer.zScore (Reading.carbonEmissions item)
                  (JS.sum (map Reading.carbonEmissions data)
                   / JS.len (map Reading.carbonEmissions data))
                  (CarbonDataAnalyzer.stdDev (map Reading.carbonEmissions data)
                     (JS.sum (map Reading.carbonEmissions data)
                      / JS.len (map Reading.carbonEmissions data))))
             (fun _ => JS.NaN) Hlen) in Hin.
  - apply in_map_iff in Hin. destruct Hin as [item [<- _]]. reflexivity.
  - reflexivity.
  - intros item Hitem. apply zero_variance_zScore; trivial. now apply in_map.
Qed.

(** ** The sample with alternating energy *)

(** ** Objects used as dictionaries *)

Section ObjectProperties.

Context {V : Type}.
Implicit Types (o : JS.obj V) (k : string) (v : V).

Lemma lookup_app o k k0 v0 :
  JS.lookup k (o ++ [(k0, v0)]) =
  match JS.lookup k o with
  | Some v => Some v
  | None => if String.eqb k k0 then Some v0 else None
  end.
Proof.
  induction o as [|[k' v'] o IH]; simpl; [reflexivity|].
  destruct (String.eqb k k'); [reflexivity|exact IH].
Qed.

Lemma lookup_ensure_same o k v0 :
  JS.lookup k (JS.ensure k v0 o) =
  Some match JS.lookup k o with Some v => v | None => v0 end.
Proof.
  unfold JS.ensure. destruct (JS.lookup k o) eqn:E; [exact E|].
  now rewrite lookup_app, E, String.eqb_refl.
Qed.

Lemma lookup_ensure_other o k k' v0 :
  k' <> k -> JS.lookup k' (JS.ensure k v0 o) = JS.lookup k' o.
Proof.
  intros H. unfold JS.ensure. destruct (JS.lookup k o); [reflexivity|].
  rewrite lookup_app. destruct (JS.lookup k' o); [reflexivity|].
  apply String.eqb_neq in H. now rewrite H.
Qed.

Lemma lookup_update_same o k (f : V -> V) :
  JS.lookup k (JS.update k f o) = option_map f (JS.lookup k o).
Proof.
  induction o as [|[k' v'] o IH]; simpl; [reflexivity|].
  destruct (String.eqb k k') eqn:E; simpl; rewrite E; [reflexivity|exact IH].
Qed.

Lemma lookup_update_other o k k' (f : V -> V) :
  k' <> k -> JS.lookup k' (JS.update k f o) = JS.lookup k' o.
Proof.
  intros H. induction o as [|[k0 v0] o IH]; simpl; [reflexivity|].
  destruct (String.eqb k k0) eqn:E; simpl.
  - apply String.eqb_eq in E. subst k0.
    apply String.eqb_neq in H. now rewrite H.
  - now rewrite IH.
Qed.

Lemma keys_update o k (f : V -> V) :
  map fst (JS.update k f o) = map fst o.
Proof.
  induction o as [|[k0 v0] o IH]; simpl; [reflexivity|].
  destruct (String.eqb k k0); simpl; [reflexivity|now rewrite IH].
Qed.

Lemma lookup_None_keys o k : JS.lookup k o = None -> ~ In k (map fst o).
Proof.
  induction o as [|[k0 v0] o IH]; simpl; [tauto|].
  destruct (String.eqb_spec k k0); [discriminate|].
  intros H [E|Hin]; [congruence|now apply IH].
Qed.

Lemma lookup_In o k v : JS.lookup k o = Some v -> In (k, v) o.
Proof.
  induction o as [|[k0 v0] o IH]; simpl; [discriminate|].
  destruct (String.eqb_spec k k0).
  - intros [= <-]. subst. now left.
  - intros H. right. now apply IH.
Qed.

Lemma In_lookup o k v :
  NoDup (map fst o) -> In (k, v) o -> JS.lookup k o = Some v.
Proof.
  induction o as [|[k0 v0] o IH]; simpl; [tauto|].
  intros Hnd [E|Hin].
  - injection E as -> ->. now rewrite String.eqb_refl.
  - inversion Hnd as [|? ? Hn Hnd']; subst.
    destruct (String.eqb_spec k k0) as [->|_].
    + exfalso. apply Hn. change k0 with (fst (k0, v)). now apply in_map.
    + now apply IH.
Qed.

Lemma NoDup_keys_ensure o k v0 :
  NoDup (map fst o) -> NoDup (map fst (JS.ensure k v0 o)).
Proof.
  intros H. unfold JS.ensure. destruct (JS.lookup k o) eqn:E; [exact H|].
  rewrite map_app. simpl.
  apply NoDup_app; [exact H | repeat constructor; simpl; tauto |].
  intros x Hin [<-|[]]. now apply (lookup_None_keys o k).
Qed.

Lemma NoDup_keys_update o k (f : V -> V) :
  NoDup (map fst o) -> NoDup (map fst (JS.update k f o)).
Proof. now rewrite keys_update. Qed.

Lemma insertIndex_perm (n : N) (e : string * V) l :
  Permutation (JS.insertIndex n e l) ((n, e) :: l).
Proof.
  induction l as [|[m e'] l IH]; simpl; [reflexivity|].
  destruct (n <? m)%N; [reflexivity|].
  rewrite IH. apply perm_swap.
Qed.

Lemma entries_perm o : Permutation (JS.entries o) o.
Proof.
  unfold JS.entries. induction o as [|[k v] o IH]; simpl; [reflexivity|].
  destruct (JS.arrayIndex k).
  - rewrite insertIndex_perm. simpl. now constructor.
  - rewrite <- Permutation_middle. now constructor.
Qed.

Lemma values_perm o : Permutation (JS.values o) (map snd o).
Proof. unfold JS.values. apply Permutation_map, entries_perm. Qed.

Lemma In_values o v : In v (JS.values o) <-> exists k, In (k, v) o.
Proof.
  split.
  - intros H. apply (Permutation_in _ (values_perm o)) in H.
    apply in_map_iff in H. destruct H as [[k v'] [<- H]]. now exists k.
  - intros [k H]. apply (Permutation_in _ (Permutation_sym (values_perm o))).
    change v with (snd (k, v)). now apply in_map.
Qed.

End ObjectProperties.

Lemma insertSorted_perm {A : Type} (before : A -> A -> bool) (x : A) l :
  Permutation (JS.insertSorted before x l) (x :: l).
Proof.
  induction l as [|y l IH]; simpl; [reflexivity|].
  destruct (before y x); [|reflexivity].
  rewrite IH. apply perm_swap.
Qed.

Lemma sort_perm {A : Type} (before : A -> A -> bool) (l : list A) :
  Permutation (JS.sort before l) l.
Proof.
  unfold JS.sort. induction l as [|x l IH]; simpl; [reflexivity|].
  rewrite insertSorted_perm. now constructor.
Qed.

Lemma In_sort {A : Type} (before : A -> A -> bool) (l : list A) (x : A) :
  In x (JS.sort before l) <-> In x l.
Proof.
  split; apply Permutation_in; [|symmetry]; apply sort_perm.
Qed.










(** ** Rounding and comparison respect the equality of rationals *)

Lemma ltb_compat (a a' b b' : Q) : a == a' -> b == b' -> JS.ltb a b = JS.ltb a' b'.
Proof. intros Ha Hb. unfold JS.ltb. now rewrite Ha, Hb. Qed.

Lemma ltb_lt (a b : Q) : JS.ltb a b = true <-> a < b.
Proof.
  unfold JS.ltb. rewrite negb_true_iff, <- not_true_iff_false, Qle_bool_iff.
  split; [apply Qnot_le_lt | apply Qlt_not_le].
Qed.

Lemma ltb_ge (a b : Q) : JS.ltb a b = false <-> b <= a.
Proof.
  unfold JS.ltb. rewrite negb_false_iff. apply Qle_bool_iff.
Qed.

Lemma toFixed_compat (x y : Q) (d : nat) : x == y -> JS.toFixed x d = JS.toFixed y d.
Proof.
  intros H. unfold JS.toFixed. f_equal.
  - now apply ltb_compat.
  - apply Qfloor_comp. now rewrite H.
Qed.

Lemma rounded_compat (x y : Q) (d : nat) : x == y -> JS.rounded x d = JS.rounded y d.
Proof. intros H. unfold JS.rounded. now rewrite (toFixed_compat x y d H). Qed.


(** ** Rounding to a number of decimals *)

Lemma pow10_pos (d : nat) : (0 < JS.pow10 d)%Z.
Proof. unfold JS.pow10. apply Z.pow_pos_nonneg; lia. Qed.

Lemma mant_nonneg (x : Q) (d : nat) : (0 <= JS.fmant (JS.toFixed x d))%Z.
Proof.
  cbn [JS.toFixed JS.fmant].
  change 0%Z with (Qfloor 0). apply Qfloor_resp_le.
  pose proof (Qabs_nonneg x) as Hx. pose proof (pow10_pos d) as Hp.
  assert (Hq : 0 <= inject_Z (JS.pow10 d))
    by (rewrite <- (Zle_Qle 0); lia).
  pose proof (Qmult_le_0_compat _ _ Hx Hq). lra.
Qed.

(** The value of [parseFloat(x.toFixed(d))] as a fraction. *)
Lemma rounded_value (x : Q) (d : nat) :
  JS.rounded x d ==
  (if JS.ltb x 0 then - (1) else 1)
  * (inject_Z (Qfloor (Qabs x * inject_Z (JS.pow10 d) + (1 # 2)))
     / inject_Z (JS.pow10 d)).
Proof.
  unfold JS.rounded, JS.parseFloat. cbn [JS.toFixed JS.fneg JS.fmant JS.fdigits].
  pose proof (pow10_pos d) as Hp.
  apply Qmult_comp; [reflexivity|].
  rewrite (Qmake_Qdiv _ (Z.to_pos (JS.pow10 d))).
  rewrite Z2Pos.id by exact Hp. reflexivity.
Qed.

Lemma rounded_le_mono (x y : Q) (d : nat) :
  x <= y -> JS.rounded x d <= JS.rounded y d.
Proof.
  intros Hxy. rewrite !rounded_value.
  pose proof (pow10_pos d) as Hp.
  assert (Hq : 0 < inject_Z (JS.pow10 d)) by (rewrite <- (Zlt_Qlt 0); lia).
  set (P := inject_Z (JS.pow10 d)) in *.
  set (n := fun v => Qfloor (Qabs v * P + (1 # 2))).
  assert (Hn : forall v, 0 <= inject_Z (n v) / P).
  { intros v. apply Qle_shift_div_l; [exact Hq|]. rewrite Qmult_0_l.
    rewrite <- (Zle_Qle 0). exact (mant_nonneg v d). }
  assert (Hmono : forall u v, Qabs u <= Qabs v ->
                              inject_Z (n u) / P <= inject_Z (n v) / P).
  { intros u v Huv. apply Qmult_le_compat_r; [|apply Qlt_le_weak, Qinv_lt_0_compat, Hq].
    rewrite <- Zle_Qle. apply Qfloor_resp_le.
    apply Qplus_le_l. apply Qmult_le_compat_r; [exact Huv|now apply Qlt_le_weak]. }
  fold (n x) (n y).
  destruct (JS.ltb x 0) eqn:Hx, (JS.ltb y 0) eqn:Hy.
  - apply ltb_lt in Hx, Hy.
    assert (H : Qabs y <= Qabs x).
    { rewrite (Qabs_neg x), (Qabs_neg y) by lra. lra. }
    specialize (Hmono _ _ H). lra.
  - pose proof (Hn x). pose proof (Hn y). lra.
  - apply ltb_ge in Hx. apply ltb_lt in Hy. lra.
  - apply ltb_ge in Hx, Hy.
    assert (H : Qabs x <= Qabs y).
    { rewrite (Qabs_pos x), (Qabs_pos y) by lra. lra. }
    specialize (Hmono _ _ H). lra.
Qed.









(** ** Sums over the groups *)











(** ** Carbon intensity *)









(** ** The regression against least squares *)








Section RegressionProperties.

Variable ys : list Q.

Let fit := CarbonDataAnalyzer.regression ys.








End RegressionProperties.

(** ** Classification *)

Lemma gtb_lt (a b : Q) : JS.gtb a b = true <-> b < a.
Proof. unfold JS.gtb. apply ltb_lt. Qed.

Lemma gtb_le (a b : Q) : JS.gtb a b = false <-> a <= b.
Proof. unfold JS.gtb. apply ltb_ge. Qed.




(** ** A constant series *)









(** ** [identifyTrends] *)

Lemma map_fst_combine {A B C : Type} (f : A -> C) (l : list A) (l' : list B) :
  List.length l = List.length l' ->
  map (fun p => f (fst p)) (combine l l') = map f l.
Proof.
  revert l'. induction l as [|x l IH]; intros [|y l'] H; simpl in *;
    try congruence.
  f_equal. apply IH. congruence.
Qed.

Lemma regression_predicted_length (ys : list Q) :
  List.length (Regression.predicted (CarbonDataAnalyzer.regression ys))
  = List.length ys.
Proof.
  unfold CarbonDataAnalyzer.regression. cbv zeta. cbn [Regression.predicted].
  unfold CarbonDataAnalyzer.indices. now rewrite !length_map, length_seq.
Qed.

Section TrendProperties.

Variable host : Host.t.

Lemma identifyTrends_nonempty (data : list Reading.t) (interval : string) :
  data <> [] ->
  let groups := CarbonDataAnalyzer.buckets host data interval in
  let fit := CarbonDataAnalyzer.regression
               (map CarbonDataAnalyzer.averageEmissions groups) in
  CarbonDataAnalyzer.identifyTrends host data interval =
  {| Trends.trends :=
       map (fun gp => CarbonDataAnalyzer.trendPoint (fst gp) (snd gp))
           (combine groups (Regression.predicted fit));
     Trends.analysis :=
       Some
         {| TrendAnalysis.slope := JS.rounded (Regression.slope fit) 4;
            TrendAnalysis.yIntercept := JS.rounded (Regression.yIntercept fit) 4;
            TrendAnalysis.rSquared := JS.rounded (Regression.rSquared fit) 4;
            TrendAnalysis.direction :=
              CarbonDataAnalyzer.trendDirection (Regression.slope fit);
            TrendAnalysis.strength :=
              CarbonDataAnalyzer.trendStrength (Regression.rSquared fit);
            TrendAnalysis.interpretation :=
              ("Carbon emissions show a "
               ++ CarbonDataAnalyzer.trendStrength (Regression.rSquared fit)
               ++ " "
               ++ CarbonDataAnalyzer.trendDirection (Regression.slope fit)
               ++ " trend over the " ++ interval ++ "s analyzed.")%string |};
     Trends.hasSignificantTrend :=
       CarbonDataAnalyzer.significant (Regression.slope fit)
                                      (Regression.rSquared fit) |}.
Proof.
  intros Hne. destruct data as [|r0 data']; [congruence|]. reflexivity.
Qed.

Lemma identifyTrends_averages (data : list Reading.t) (interval : string) :
  map TrendPoint.averageEmissions
      (Trends.trends (CarbonDataAnalyzer.identifyTrends host data interval)) =
  map CarbonDataAnalyzer.averageEmissions
      (CarbonDataAnalyzer.buckets host data interval).
Proof.
  destruct data as [|r0 data'].
  - reflexivity.
  - rewrite identifyTrends_nonempty by discriminate. cbv zeta.
    cbn [Trends.trends]. rewrite map_map.
    cbn [CarbonDataAnalyzer.trendPoint TrendPoint.averageEmissions].
    apply map_fst_combine.
    now rewrite regression_predicted_length, length_map.
Qed.

Lemma identifyTrends_analysis (data : list Reading.t) (interval : string) :
  data <> [] ->
  exists analysis,
    Trends.analysis (CarbonDataAnalyzer.identifyTrends host data interval)
    = Some analysis.
Proof.
  intros Hne. rewrite (identifyTrends_nonempty data interval Hne). cbv zeta.
  cbn [Trends.analysis]. eauto.
Qed.

End TrendProperties.

(** ** Buckets of non-empty data *)

Lemma update_nonempty {V : Type} (k : string) (f : V -> V) (o : JS.obj V) :
  o <> [] -> JS.update k f o <> [].
Proof.
  destruct o as [|[k' v] o]; [congruence|]. intros _. simpl.
  destruct (String.eqb k k'); discriminate.
Qed.

Lemma ensure_nonempty {V : Type} (k : string) (v0 : V) (o : JS.obj V) :
  JS.ensure k v0 o <> [].
Proof.
  unfold JS.ensure. destruct (JS.lookup k o) eqn:E.
  - destruct o; [discriminate|discriminate].
  - destruct o; discriminate.
Qed.

Lemma fold_left_last {A B : Type} (f : A -> B -> A) (l : list B) (a : A) :
  l <> [] -> exists a' x, fold_left f l a = f a' x.
Proof.
  intros H. destruct (exists_last H) as (l' & x & ->).
  rewrite fold_left_app. simpl. eauto.
Qed.

Lemma values_nonempty {V : Type} (o : JS.obj V) : o <> [] -> JS.values o <> [].
Proof.
  intros H E. apply H.
  pose proof (Permutation_length (values_perm o)) as Hl.
  rewrite E, length_map in Hl. destruct o; [reflexivity|discriminate].
Qed.

Lemma sort_nonempty {A : Type} (before : A -> A -> bool) (l : list A) :
  l <> [] -> JS.sort before l <> [].
Proof.
  intros H E. apply H.
  pose proof (Permutation_length (sort_perm before l)) as Hl.
  rewrite E in Hl. destruct l; [reflexivity|discriminate].
Qed.

Lemma buckets_nonempty (host : Host.t) (data : list Reading.t) (interval : string) :
  data <> [] -> CarbonDataAnalyzer.buckets host data interval <> [].
Proof.
  intros H. unfold CarbonDataAnalyzer.buckets.
  apply values_nonempty.
  destruct (fold_left_last (CarbonDataAnalyzer.bucketStep host interval)
              (JS.sort (fun a b => (Reading.timestamp a - Reading.timestamp b <? 0)%Z) data)
              [] (sort_nonempty _ data H)) as (o & x & ->).
  unfold CarbonDataAnalyzer.bucketStep.
  apply update_nonempty, ensure_nonempty.
Qed.

Lemma lastOf_nonempty {A : Type} (l : list A) : l <> [] -> exists x, JS.lastOf l = Some x.
Proof.
  induction l as [|x l IH]; [congruence|]. intros _.
  destruct l as [|y l]; [now exists x|].
  destruct IH as [z Hz]; [discriminate|]. exists z. exact Hz.
Qed.

Lemma lastOf_map {A B : Type} (f : A -> B) (l : list A) :
  JS.lastOf (map f l) = option_map f (JS.lastOf l).
Proof.
  induction l as [|x l IH]; [reflexivity|].
  destruct l as [|y l]; [reflexivity|]. exact IH.
Qed.

Lemma identifyTrends_trends_nonempty (host : Host.t) (data : list Reading.t)
  (interval : string) :
  data <> [] ->
  Trends.trends (CarbonDataAnalyzer.identifyTrends host data interval) <> [].
Proof.
  intros H E.
  apply (buckets_nonempty host data interval H).
  apply (f_equal (map TrendPoint.averageEmissions)) in E.
  rewrite identifyTrends_averages in E.
  destruct (CarbonDataAnalyzer.buckets host data interval); [reflexivity|discriminate].
Qed.

(** ** Rounding keeps a value non-negative *)


Lemma max0_Qmax (x x' : Q) : x == x' -> JS.max0 x == Qmax 0 x'.
Proof.
  intros H. unfold JS.max0.
  destruct (JS.ltb x 0) eqn:E.
  - apply ltb_lt in E. rewrite Q.max_l; [reflexivity|]. rewrite <- H. lra.
  - apply ltb_ge in E. rewrite Q.max_r; [exact H|]. rewrite <- H. exact E.
Qed.


(** ** The forecasting loop *)

Section ForecastProperties.

Variable host : Host.t.

Lemma forecast_loop (interval : string) (lastInterval : option string)
  (slope : Q) (n s : nat) (f f' : Q) (acc : list ForecastPoint.t) :
  f == f' ->
  map ForecastPoint.forecast
    (snd (fold_left
            (CarbonDataAnalyzer.forecastStep host interval lastInterval slope)
            (seq s n) (f, acc))) =
  (map ForecastPoint.forecast acc
   ++ map (fun v => JS.rounded v 2) (Projection.values f' slope n))%list.
Proof.
  revert s f f' acc. induction n as [|n IH]; intros s f f' acc Hf.
  - simpl. now rewrite app_nil_r.
  - cbn [seq fold_left Projection.values map].
    unfold CarbonDataAnalyzer.forecastStep at 2. cbn [fst snd].
    assert (Hnext : JS.max0 (f + slope) == Qmax 0 (f' + slope))
      by (apply max0_Qmax; now rewrite Hf).
    rewrite (IH _ _ _ _ Hnext). unfold JS.push.
    rewrite map_app. cbn [map ForecastPoint.forecast].
    rewrite (rounded_compat _ _ 2 Hnext), <- app_assoc. reflexivity.
Qed.

(** C7, as the code has it.  With fewer than ten readings [forecast]
    returns, without throwing, the object with an empty forecast, low
    confidence and the message on insufficient data; that object has no
    [historical] and no [slope]. *)
Theorem forecast_insufficient_data (data : list Reading.t) (periods : Z)
  (interval : string) :
  (List.length data < 10)%nat ->
  CarbonDataAnalyzer.forecast host data periods interval =
  JS.Normal
    {| Forecast.historical := None;
       Forecast.forecast := [];
       Forecast.confidence := "low";
       Forecast.slope := None;
       Forecast.message :=
         "Insufficient historical data for accurate forecasting" |}.
Proof.
  intros H. unfold CarbonDataAnalyzer.forecast.
  destruct (Nat.ltb_spec (List.length data) 10); [reflexivity|lia].
Qed.


End ForecastProperties.


Lemma forecast_insufficient_data_witness :
  CarbonDataAnalyzer.forecast UTC.host Samples.steady 7 "day" =
  JS.Normal
    {| Forecast.historical := None;
       Forecast.forecast := [];
       Forecast.confidence := "low";
       Forecast.slope := None;
       Forecast.message :=
         "Insufficient historical data for accurate forecasting" |}.
Proof.
  apply (forecast_insufficient_data UTC.host Samples.steady 7 "day").
  simpl; lia.
Defined.

(** With three readings the object returned by [forecast] has neither
    [historical] nor [slope]: it is not of the five-field shape. *)
Lemma forecast_short_lacks_fields :
  ~ (exists result historical slope,
        CarbonDataAnalyzer.forecast UTC.host Samples.steady 7 "day"
        = JS.Normal result
        /\ Forecast.historical result = Some historical
        /\ Forecast.slope result = Some slope).
Proof.
  intros (result & historical & slope & Hr & Hh & _).
  vm_compute in Hr. injection Hr as <-. discriminate Hh.
Qed.

(** ** Recommendations of the analyzer *)

Section RecommendationProperties.

Variable host : Host.t.




End RecommendationProperties.


(** ** Daily reports *)

Section ReportProperties.

Variable host : Host.t.

Lemma totalOf_sum (field : Reading.t -> Q) (data : list Reading.t) :
  ReportGenerator.totalOf field data = JS.sum (map field data).
Proof.
  unfold ReportGenerator.totalOf, JS.sum. generalize 0.
  induction data as [|item data IH]; intros a; simpl; [reflexivity|apply IH].
Qed.

Lemma timingAdvice_daily (data : list Reading.t)
  (recommendations : list Advice.t) :
  exists recs,
    ReportGenerator.timingAdvice host data "daily" recommendations
    = JS.Normal recs.
Proof.
  unfold ReportGenerator.timingAdvice. cbn [String.eqb Ascii.eqb Bool.eqb].
  destruct (ReportGenerator.findPeakHour _); eauto.
Qed.

Lemma generateRecommendations_daily (data : list Reading.t) :
  exists recs,
    ReportGenerator.generateRecommendations host data "daily" = JS.Normal recs.
Proof.
  unfold ReportGenerator.generateRecommendations.
  destruct (List.length data <? 5)%nat; [eauto|].
  cbv zeta.
  destruct (timingAdvice_daily data
              (fold_left (ReportGenerator.buildingAdvice host)
                         (ReportGenerator.groupByBuilding data) []))
    as (recs & ->).
  cbn [JS.bind]. eauto.
Qed.

Lemma generateDailyReport_normal (carbonData : list Reading.t) (date : Z) :
  exists recs,
    ReportGenerator.generateRecommendations host (dayWindow host carbonData date)
      "daily" = JS.Normal recs
    /\ ReportGenerator.generateDailyReport host carbonData date =
       let reportDate := Host.setHours0 host date in
       let dailyData := dayWindow host carbonData date in
       let hourlyData := ReportGenerator.groupByHour host dailyData in
       let peakHour := ReportGenerator.findPeakHour hourlyData in
       JS.Normal
         {| Report.reportType := "daily";
            Report.date := Some (ReportGenerator.isoDate host reportDate);
            Report.startDate := None;
            Report.endDate := None;
            Report.year := None;
            Report.month := None;
            Report.summary :=
              {| Summary.totalEmissions :=
                   JS.rounded (JS.sum (map Reading.carbonEmissions dailyData)) 2;
                 Summary.totalEnergy :=
                   JS.rounded (JS.sum (map Reading.energyConsumption dailyData)) 2;
                 Summary.readingCount := Z.of_nat (List.length dailyData);
                 Summary.peakHour :=
                   Some match peakHour with
                        | Some p => (JS.showZ (PeakHour.hour p) ++ ":00")%string
                        | None => "N/A"%string
                        end;
                 Summary.peakDay := None;
                 Summary.peakEmissions :=
                   Some match peakHour with
                        | Some p => JS.rounded (PeakHour.emissions p) 2
                        | None => 0
                        end;
                 Summary.dailyAverage := None |};
            Report.buildings := ReportGenerator.groupByBuilding dailyData;
            Report.hourly := Some hourlyData;
            Report.daily := None;
            Report.weeklyTrend := None;
            Report.recommendations := recs |}.
Proof.
  destruct (generateRecommendations_daily (dayWindow host carbonData date))
    as (recs & Hr).
  exists recs. split; [exact Hr|].
  unfold ReportGenerator.generateDailyReport. cbv zeta.
  change (ReportGenerator.within (Host.setHours0 host date)
            (Host.setDate host (Host.setHours0 host date)
               (Host.getDate host (Host.setHours0 host date) + 1)) carbonData)
    with (dayWindow host carbonData date).
  rewrite Hr. cbn [JS.bind]. now rewrite !totalOf_sum.
Qed.


End ReportProperties.

(** C10.  When no reading falls in the day of [date], [generateDailyReport]
    returns, without throwing, a report whose summary has totals 0, reading
    count 0, peak hour N/A and peak emissions 0, whose buildings and hourly
    arrays are empty, and whose only recommendation is the low-priority
    general one on insufficient data. *)
Theorem daily_report_without_readings (host : Host.t)
  (carbonData : list Reading.t) (date : Z) :
  dayWindow host carbonData date = [] ->
  exists report,
    ReportGenerator.generateDailyReport host carbonData date = JS.Normal report
    /\ Report.reportType report = "daily"%string
    /\ Summary.totalEmissions (Report.summary report) == 0
    /\ Summary.totalEnergy (Report.summary report) == 0
    /\ Summary.readingCount (Report.summary report) = 0%Z
    /\ Summary.peakHour (Report.summary report) = Some "N/A"%string
    /\ Summary.peakEmissions (Report.summary report) = Some 0
    /\ Report.buildings report = []
    /\ Report.hourly report = Some []
    /\ Report.recommendations report =
       [{| Advice.priority := "low";
           Advice.category := "general";
           Advice.building := None;
           Advice.device := None;
           Advice.text :=
             "Insufficient data to generate meaningful recommendations. Continue collecting data to improve insights."
        |}].
Proof.
  intros Hw.
  destruct (generateDailyReport_normal host carbonData date)
    as (recs & Hrecs & Hreport).
  cbv zeta in Hreport. rewrite Hw in Hreport, Hrecs.
  eexists. split; [exact Hreport|].
  cbn in Hrecs. injection Hrecs as <-.
  cbn. repeat split; reflexivity.
Qed.

Lemma daily_report_without_readings_witness :
  exists report,
    ReportGenerator.generateDailyReport UTC.host Samples.steady
      (Samples.sunday + 240 * Samples.hourMs) = JS.Normal report
    /\ Summary.peakHour (Report.summary report) = Some "N/A"%string
    /\ Report.buildings report = []
    /\ Report.hourly report = Some [].
Proof.
  destruct (daily_report_without_readings UTC.host Samples.steady
              (Samples.sunday + 240 * Samples.hourMs))
    as (report & Hr & _ & _ & _ & _ & Hp & _ & Hb & Hh & _).
  - reflexivity.
  - exists report. auto.
Defined.

(** ** Strings *)

Lemma append_assoc (a b c : string) : ((a ++ b) ++ c = a ++ (b ++ c))%string.
Proof. induction a as [|x a IH]; simpl; [reflexivity|now rewrite IH]. Qed.

Lemma append_nil_r (a : string) : (a ++ EmptyString)%string = a.
Proof. induction a as [|x a IH]; simpl; [reflexivity|now rewrite IH]. Qed.



Lemma fold_rows {A : Type} (row line : A -> string) (l : list A) (csv : string) :
  (forall x, row x = (line x ++ JS.nl)%string) ->
  fold_left (fun csv x => (csv ++ row x)%string) l csv =
  (csv ++ CsvLayout.block (map line l))%string.
Proof.
  intros Hrow. revert csv. induction l as [|x l IH]; intros csv; simpl.
  - now rewrite append_nil_r.
  - rewrite IH, Hrow, !append_assoc. reflexivity.
Qed.

Section ExportProperties.

Variable host : Host.t.

Lemma buildingRow_line (b : ReportBuilding.t) :
  ReportGenerator.buildingRow host b =
  (CsvLayout.buildingLine host b ++ JS.nl)%string.
Proof.
  unfold ReportGenerator.buildingRow, CsvLayout.buildingLine.
  now rewrite !append_assoc.
Qed.



Lemma adviceRow_line (r : Advice.t) :
  ReportGenerator.adviceRow r = (CsvLayout.adviceLine r ++ JS.nl)%string.
Proof.
  unfold ReportGenerator.adviceRow, CsvLayout.adviceLine.
  now rewrite !append_assoc.
Qed.




(** ** Lines are not empty *)






End ExportProperties.



(* ================================================================== *)
(** * Properties of the analyzer in binary64 *)
(* ================================================================== *)

Lemma fold_left_map_acc {A B C : Type} (f : C -> B -> C) (g : A -> B)
  (l : list A) (acc : C) :
  fold_left (fun a x => f a (g x)) l acc = fold_left f (map g l) acc.
Proof.
  revert acc. induction l as [|x l IH]; intros acc; cbn [fold_left map];
    [reflexivity|apply IH].
Qed.

(** ** Anomaly detection against the population statistics *)

Section Anomaly64Properties.

Variable host : Host.t.

Lemma stdDev64_refines (values : list F64.t) :
  Binary64.stdDev values (Population64.mean values) = Population64.stdDev values.
Proof.
  unfold Binary64.stdDev, Population64.stdDev, Population64.variance, F64.sum.
  now rewrite (fold_left_map_acc F64.add
                 (fun x => F64.sq (F64.sub x (Population64.mean values)))).
Qed.

Lemma detectAnomalies64_expected (data : list Reading.t) (threshold : F64.t) :
  (5 <= List.length data)%nat ->
  Binary64.detectAnomalies host data threshold =
  map (Population64.expectedAnomaly host data)
      (filter (Population64.expectedFlag data threshold) data).
Proof.
  intros Hlen. unfold Binary64.detectAnomalies.
  destruct (Nat.ltb_spec (List.length data) 5) as [Hlt|_]; [lia|].
  cbv zeta.
  change (F64.div (F64.sum (map Binary64.carbonEmissions data))
                  (F64.len (map Binary64.carbonEmissions data)))
    with (Population64.mean (Population64.column Reading.carbonEmissions data)).
  change (F64.div (F64.sum (map Binary64.energyConsumption data))
                  (F64.len (map Binary64.energyConsumption data)))
    with (Population64.mean (Population64.column Reading.energyConsumption data)).
  change (map Binary64.carbonEmissions data)
    with (Population64.column Reading.carbonEmissions data).
  change (map Binary64.energyConsumption data)
    with (Population64.column Reading.energyConsumption data).
  rewrite !stdDev64_refines.
  exact (fold_push_filter _ _ data []).
Qed.

End Anomaly64Properties.

(** The statistics of the example: mean 19 and standard deviation 27, so
    that the z-score of 10 is a third below the mean and that of 100 is
    3. *)
Lemma example64_beyond :
  filter
    (fun q =>
       Population64.beyond
         (Population64.zScore (map F64.ofQ nineTensAndAHundred) (F64.ofQ q))
         (F64.ofZ 2))
    nineTensAndAHundred = [100%Q].
Proof. vm_compute. reflexivity. Qed.

(** C1.  On at least five readings [detectAnomalies] returns, in order,
    exactly the readings one of whose z-scores is beyond the threshold in
    absolute value, the z-scores being those of the population mean and
    standard deviation of the full set, every operation rounded as the
    engine rounds it.  In particular, for ten readings with emissions 10
    (nine times) and 100 and threshold 2, whose energy z-scores stay within
    the band, only the reading at 100 is flagged. *)
Theorem detectAnomalies_flags_beyond_threshold (host : Host.t) :
  (forall (data : list Reading.t) (threshold : F64.t),
      (5 <= List.length data)%nat ->
      Binary64.detectAnomalies host data threshold =
      map (Population64.expectedAnomaly host data)
          (filter (Population64.expectedFlag data threshold) data))
  /\
  (forall data : list Reading.t,
      map Reading.carbonEmissions data = nineTensAndAHundred ->
      (forall item, In item data ->
         Population64.beyond
           (Population64.zScore
              (Population64.column Reading.energyConsumption data)
              (F64.ofQ (Reading.energyConsumption item)))
           (F64.ofZ 2) = false) ->
      map Binary64.Anomaly.carbonEmissions
          (Binary64.detectAnomalies host data (F64.ofZ 2))
      = [F64.ofZ 100]).
Proof.
  split.
  - intros data threshold Hlen. now apply detectAnomalies64_expected.
  - intros data Hem Hband.
    assert (Hcol : Population64.column Reading.carbonEmissions data =
                   map F64.ofQ nineTensAndAHundred).
    { unfold Population64.column. now rewrite <- Hem, map_map. }
    assert (Hlen : (5 <= List.length data)%nat).
    { rewrite <- (length_map Reading.carbonEmissions), Hem. simpl. lia. }
    rewrite detectAnomalies64_expected by exact Hlen.
    rewrite map_map.
    change (fun x => Binary64.Anomaly.carbonEmissions
                       (Population64.expectedAnomaly host data x))
      with (fun x => F64.ofQ (Reading.carbonEmissions x)).
    rewrite <- (map_map Reading.carbonEmissions F64.ofQ).
    transitivity
      (map F64.ofQ
         (map Reading.carbonEmissions
            (filter
               (fun item =>
                  Population64.beyond
                    (Population64.zScore (map F64.ofQ nineTensAndAHundred)
                       (F64.ofQ (Reading.carbonEmissions item)))
                    (F64.ofZ 2)) data))).
    + f_equal. apply map_filter_ext_in; [|reflexivity].
      intros item Hin. unfold Population64.expectedFlag.
      now rewrite (Hband item Hin), orb_false_r, Hcol.
    + rewrite (map_filter_comm Reading.carbonEmissions
                 (fun q =>
                    Population64.beyond
                      (Population64.zScore (map F64.ofQ nineTensAndAHundred)
                         (F64.ofQ q)) (F64.ofZ 2))).
      rewrite Hem, example64_beyond. vm_compute. reflexivity.
Qed.

Lemma spike64_energy_within_band :
  forall item, In item Samples.spike ->
    Population64.beyond
      (Population64.zScore
         (Population64.column Reading.energyConsumption Samples.spike)
         (F64.ofQ (Reading.energyConsumption item)))
      (F64.ofZ 2) = false.
Proof.
  intros item Hin. unfold Samples.spike in Hin. cbn [In] in Hin.
  repeat (destruct Hin as [<-|Hin]; [vm_compute; reflexivity|]).
  destruct Hin.
Qed.

Lemma detectAnomalies_flags_beyond_threshold_witness :
  Binary64.detectAnomalies UTC.host Samples.spike (F64.ofZ 2) =
  map (Population64.expectedAnomaly UTC.host Samples.spike)
      (filter (Population64.expectedFlag Samples.spike (F64.ofZ 2)) Samples.spike)
  /\ map Binary64.Anomaly.carbonEmissions
       (Binary64.detectAnomalies UTC.host Samples.spike (F64.ofZ 2))
     = [F64.ofZ 100].
Proof.
  split.
  - apply (proj1 (detectAnomalies_flags_beyond_threshold UTC.host)).
    simpl; lia.
  - apply (proj2 (detectAnomalies_flags_beyond_threshold UTC.host)).
    + reflexivity.
    + exact spike64_energy_within_band.
Defined.

(** ** The regression against least squares *)



Section Regression64Properties.

Variable ys : list F64.t.

Let fit := Binary64.regression ys.








End Regression64Properties.

(** ** The buckets of the trend against their specification *)




Section Bucket64Properties.

Variable host : Host.t.
Variable interval : string.

Let keyOf := Buckets64.keyOf host interval.















End Bucket64Properties.

(** ** Zeros in binary64 *)

Lemma sub64_diag (c : F64.t) : F64.finite c = true -> F64.sub c c = F64.zero.
Proof.
  destruct c as [s|s| |s m e]; try discriminate; intros _.
  - now destruct s.
  - assert (Hd : forall a : Z, IntDef.Z.sub a a = Z0)
      by (intros a; exact (Z.sub_diag a)).
    unfold F64.sub, SFsub. cbv zeta. rewrite Z.min_id.
    unfold shl_align. now rewrite !Hd.
Qed.




Lemma sum64_plain_zeros (l : list F64.t) :
  (forall x, In x l -> x = F64.zero) -> F64.sum l = F64.zero.
Proof.
  unfold F64.sum. induction l as [|x l IH]; intros H; cbn [fold_left];
    [reflexivity|].
  rewrite (H x (or_introl eq_refl)).
  change (F64.add F64.zero F64.zero) with F64.zero.
  apply IH. intros y Hy. apply H. now right.
Qed.





(** ** Classification *)






(** ** A constant series *)

Section Constant64.

Variable ys : list F64.t.
Variable c : F64.t.
Hypothesis Hconst : forall y, In y ys -> y = c.
Hypothesis Hfinite : F64.finite c = true.
Hypothesis Hmean : LeastSquares64.mean ys = c.




End Constant64.

(** ** [identifyTrends] in binary64 *)

Section Trend64Properties.

Variable host : Host.t.



End Trend64Properties.



(** * Further properties *)

(** ** Sorted output *)

Lemma insertSorted_In {A : Type} (before : A -> A -> bool) (x z : A) (l : list A) :
  In z (JS.insertSorted before x l) -> z = x \/ In z l.
Proof.
  intros H. apply (Permutation_in _ (insertSorted_perm before x l)) in H.
  destruct H as [<-|H]; auto.
Qed.

Lemma insertSorted_sorted {A : Type} (before : A -> A -> bool)
  (le : A -> A -> Prop) (x : A) (l : list A) :
  (forall a b c, le a b -> le b c -> le a c) ->
  (forall a b, before a b = true -> le a b) ->
  (forall a b, before a b = false -> le b a) ->
  StronglySorted le l -> StronglySorted le (JS.insertSorted before x l).
Proof.
  intros Htrans Hyes Hno Hl. induction Hl as [|y l Hl IH Hy]; cbn [JS.insertSorted].
  - constructor; [constructor|constructor].
  - destruct (before y x) eqn:Hb.
    + constructor; [exact IH|].
      apply Forall_forall. intros z Hz.
      apply insertSorted_In in Hz. destruct Hz as [->|Hz].
      * now apply Hyes.
      * rewrite Forall_forall in Hy. now apply Hy.
    + constructor; [now constructor|].
      constructor; [now apply Hno|].
      apply Forall_forall. intros z Hz. rewrite Forall_forall in Hy.
      apply (Htrans _ y); [now apply Hno|now apply Hy].
Qed.

Lemma sort_sorted {A : Type} (before : A -> A -> bool) (le : A -> A -> Prop)
  (l : list A) :
  (forall a b c, le a b -> le b c -> le a c) ->
  (forall a b, before a b = true -> le a b) ->
  (forall a b, before a b = false -> le b a) ->
  StronglySorted le (JS.sort before l).
Proof.
  intros Htrans Hyes Hno. unfold JS.sort.
  induction l as [|x l IH]; cbn [fold_right]; [constructor|].
  now apply insertSorted_sorted.
Qed.


(** ** Sums of counts *)

Lemma total_app (l l' : list Z) :
  Counts.total (l ++ l') = (Counts.total l + Counts.total l')%Z.
Proof.
  unfold Counts.total. induction l as [|x l IH]; cbn [app fold_right]; lia.
Qed.

Lemma total_perm (l l' : list Z) :
  Permutation l l' -> Counts.total l = Counts.total l'.
Proof.
  unfold Counts.total. induction 1; cbn [fold_right]; lia.
Qed.

Lemma total_update {V : Type} (f : V -> Z) (g : V -> V) (k : string) (x : Z)
  (o : JS.obj V) :
  JS.lookup k o <> None ->
  (forall v, f (g v) = (f v + x)%Z) ->
  Counts.total (map (fun kv => f (snd kv)) (JS.update k g o)) =
  (Counts.total (map (fun kv => f (snd kv)) o) + x)%Z.
Proof.
  intros Hk Hg. unfold Counts.total.
  induction o as [|[k' v'] o IH];
    cbn [JS.lookup JS.update map] in *; [congruence|].
  destruct (String.eqb k k'); cbn [map snd fold_right].
  - rewrite Hg. lia.
  - rewrite IH by exact Hk. lia.
Qed.

Lemma total_ensure {V : Type} (f : V -> Z) (k : string) (v0 : V) (o : JS.obj V) :
  f v0 = 0%Z ->
  Counts.total (map (fun kv => f (snd kv)) (JS.ensure k v0 o)) =
  Counts.total (map (fun kv => f (snd kv)) o).
Proof.
  intros H. unfold JS.ensure. destruct (JS.lookup k o); [reflexivity|].
  rewrite map_app, total_app. cbn [map snd Counts.total fold_right]. lia.
Qed.

Lemma total_values {V : Type} (f : V -> Z) (o : JS.obj V) :
  Counts.total (map f (JS.values o)) =
  Counts.total (map (fun kv => f (snd kv)) o).
Proof.
  rewrite (total_perm _ _ (Permutation_map f (values_perm o))).
  now rewrite map_map.
Qed.

(** A loop that counts every item into one group keeps the sum of the
    counts equal to the number of items seen. *)
Lemma total_fold {V : Type} (f : V -> Z) (step : JS.obj V -> Reading.t -> JS.obj V)
  (l : list Reading.t) (o : JS.obj V) :
  (forall o item,
      Counts.total (map (fun kv => f (snd kv)) (step o item)) =
      (Counts.total (map (fun kv => f (snd kv)) o) + 1)%Z) ->
  Counts.total (map (fun kv => f (snd kv)) (fold_left step l o)) =
  (Counts.total (map (fun kv => f (snd kv)) o) + Z.of_nat (List.length l))%Z.
Proof.
  intros Hstep. revert o. induction l as [|item l IH]; intros o.
  - cbn [fold_left List.length]. lia.
  - cbn [fold_left]. rewrite IH, Hstep. cbn [List.length]. lia.
Qed.

(** ** Statistics *)






Section StatisticsProperties.

Variable host : Host.t.



Lemma fold_Zmin_spec (l : list Z) (x : Z) :
  (fold_left Z.min l x = x \/ In (fold_left Z.min l x) l)
  /\ (fold_left Z.min l x <= x)%Z
  /\ forall y, In y l -> (fold_left Z.min l x <= y)%Z.
Proof.
  revert x. induction l as [|y l IH]; intros x; cbn [fold_left In].
  - split; [now left|split; [lia|intros y []]].
  - destruct (IH (Z.min x y)) as (Hin & Hle & Hall).
    split; [|split].
    + destruct Hin as [E|Hin]; [|now right; right].
      rewrite E. destruct (Z.min_spec x y) as [[_ ->]|[_ ->]];
        [now left|now right; left].
    + lia.
    + intros z [<-|Hz]; [lia|now apply Hall].
Qed.

Lemma fold_Zmax_spec (l : list Z) (x : Z) :
  (fold_left Z.max l x = x \/ In (fold_left Z.max l x) l)
  /\ (x <= fold_left Z.max l x)%Z
  /\ forall y, In y l -> (y <= fold_left Z.max l x)%Z.
Proof.
  revert x. induction l as [|y l IH]; intros x; cbn [fold_left In].
  - split; [now left|split; [lia|intros y []]].
  - destruct (IH (Z.max x y)) as (Hin & Hle & Hall).
    split; [|split].
    + destruct Hin as [E|Hin]; [|now right; right].
      rewrite E. destruct (Z.max_spec x y) as [[_ ->]|[_ ->]];
        [now right; left|now left].
    + lia.
    + intros z [<-|Hz]; [lia|now apply Hall].
Qed.

(** The date range of [getStatistics] on readings runs from the timestamp
    of the earliest reading to that of the latest. *)
Theorem getStatistics_dateRange (data : list Reading.t) :
  data <> [] ->
  let s := CarbonDataAnalyzer.getStatistics host data in
  exists earliest latest,
    In earliest data /\ In latest data
    /\ Statistics.dateRangeStart s =
       Some (Host.toISOString host (Reading.timestamp earliest))
    /\ Statistics.dateRangeEnd s =
       Some (Host.toISOString host (Reading.timestamp latest))
    /\ forall r, In r data ->
         (Reading.timestamp earliest <= Reading.timestamp r
          <= Reading.timestamp latest)%Z.
Proof.
  intros Hne s. destruct data as [|first rest]; [congruence|].
  destruct (fold_Zmin_spec (map Reading.timestamp rest) (Reading.timestamp first))
    as (Hmin & Hminx & Hminl).
  destruct (fold_Zmax_spec (map Reading.timestamp rest) (Reading.timestamp first))
    as (Hmax & Hmaxx & Hmaxl).
  assert (Hearliest : exists earliest,
    In earliest (first :: rest) /\
    Reading.timestamp earliest =
    fold_left Z.min (map Reading.timestamp rest) (Reading.timestamp first)).
  { destruct Hmin as [E|Hin].
    - exists first. split; [now left|now rewrite E].
    - apply in_map_iff in Hin. destruct Hin as (r & E & Hr).
      exists r. split; [now right|exact E]. }
  assert (Hlatest : exists latest,
    In latest (first :: rest) /\
    Reading.timestamp latest =
    fold_left Z.max (map Reading.timestamp rest) (Reading.timestamp first)).
  { destruct Hmax as [E|Hin].
    - exists first. split; [now left|now rewrite E].
    - apply in_map_iff in Hin. destruct Hin as (r & E & Hr).
      exists r. split; [now right|exact E]. }
  destruct Hearliest as (earliest & He & Ee).
  destruct Hlatest as (latest & Hl & El).
  exists earliest, latest.
  split; [exact He|split; [exact Hl|]].
  unfold s. cbn [CarbonDataAnalyzer.getStatistics Statistics.dateRangeStart
                 Statistics.dateRangeEnd].
  unfold CarbonDataAnalyzer.Zmin_list, CarbonDataAnalyzer.Zmax_list.
  rewrite Ee, El. split; [reflexivity|split; [reflexivity|]].
  intros r [<-|Hr]; [lia|].
  pose proof (Hminl _ (in_map Reading.timestamp rest r Hr)).
  pose proof (Hmaxl _ (in_map Reading.timestamp rest r Hr)). lia.
Qed.

End StatisticsProperties.

(** ** What anomaly detection keeps of the readings *)

Lemma gtR_threshold_mono (z : JS.real) (t t' : Q) :
  t <= t' ->
  CarbonDataAnalyzer.exceeds z t' = true -> CarbonDataAnalyzer.exceeds z t = true.
Proof.
  intros Ht. unfold CarbonDataAnalyzer.exceeds.
  apply Qle_Rle in Ht.
  destruct z as [r| | |]; cbn [JS.absR JS.gtR]; try (intros H; exact H).
  destruct (Rlt_dec (Q2R t') (Rabs r)) as [H'|H']; [|discriminate].
  intros _. destruct (Rlt_dec (Q2R t) (Rabs r)) as [H|H]; [reflexivity|lra].
Qed.

Lemma filter_length_le {A : Type} (p : A -> bool) (l : list A) :
  (List.length (filter p l) <= List.length l)%nat.
Proof.
  induction l as [|x l IH]; cbn [filter List.length]; [lia|].
  destruct (p x); cbn [List.length]; lia.
Qed.

Lemma filter_none {A : Type} (p : A -> bool) (l : list A) :
  (forall x, In x l -> p x = false) -> filter p l = [].
Proof.
  induction l as [|x l IH]; intros H; cbn [filter]; [reflexivity|].
  rewrite (H x (or_introl eq_refl)). apply IH. intros y Hy. apply H. now right.
Qed.

Section DetectionProperties.

Variable host : Host.t.

(** The z-scores and the test of [detectAnomalies] on one reading of
    [data]. *)
Let emissionsZ (data : list Reading.t) (item : Reading.t) : JS.real :=
  let emissions := map Reading.carbonEmissions data in
  let emissionsMean := JS.sum emissions / JS.len emissions in
  CarbonDataAnalyzer.zScore (Reading.carbonEmissions item) emissionsMean
    (CarbonDataAnalyzer.stdDev emissions emissionsMean).

Let energyZ (data : list Reading.t) (item : Reading.t) : JS.real :=
  let energy := map Reading.energyConsumption data in
  let energyMean := JS.sum energy / JS.len energy in
  CarbonDataAnalyzer.zScore (Reading.energyConsumption item) energyMean
    (CarbonDataAnalyzer.stdDev energy energyMean).

Let flagged (data : list Reading.t) (threshold : Q) (item : Reading.t) : bool :=
  CarbonDataAnalyzer.exceeds (emissionsZ data item) threshold
  || CarbonDataAnalyzer.exceeds (energyZ data item) threshold.

Lemma detectAnomalies_filter (data : list Reading.t) (threshold : Q) :
  CarbonDataAnalyzer.detectAnomalies host data threshold =
  map (fun item =>
         CarbonDataAnalyzer.anomalyOf host item (emissionsZ data item)
                                      (energyZ data item))
      (filter (fun item => (5 <=? List.length data)%nat
                           && flagged data threshold item) data).
Proof.
  destruct (Nat.leb_spec 5 (List.length data)) as [Hlen|Hlen].
  - rewrite (detectAnomalies_unfold host data threshold Hlen). reflexivity.
  - unfold CarbonDataAnalyzer.detectAnomalies.
    destruct (Nat.ltb_spec (List.length data) 5) as [_|H]; [|lia].
    cbn [andb].
    assert (E : forall l : list Reading.t, filter (fun _ => false) l = [])
      by (induction l; auto).
    now rewrite E.
Qed.

(** [detectAnomalies] never invents, repeats or reorders a reading: the
    anomalies are some of the readings, in the order of the readings, each
    with the identity and the measurements of its reading; with fewer than
    five readings there is none. *)
Theorem detectAnomalies_keeps_readings (data : list Reading.t) (threshold : Q) :
  let anomalies := CarbonDataAnalyzer.detectAnomalies host data threshold in
  (exists keep : Reading.t -> bool,
      map (fun a => (Anomaly.id a, Anomaly.timestamp a, Anomaly.buildingId a,
                     Anomaly.deviceId a, Anomaly.carbonEmissions a,
                     Anomaly.energyConsumption a)) anomalies
      = map (fun r => (Reading.id r, Reading.timestamp r, Reading.buildingId r,
                       Reading.deviceId r, Reading.carbonEmissions r,
                       Reading.energyConsumption r)) (filter keep data))
  /\ (List.length anomalies <= List.length data)%nat
  /\ ((List.length data < 5)%nat -> anomalies = []).
Proof.
  intros anomalies. unfold anomalies. split; [|split].
  - eexists. rewrite detectAnomalies_filter, map_map. reflexivity.
  - rewrite detectAnomalies_filter, length_map. apply filter_length_le.
  - intros Hlen. unfold CarbonDataAnalyzer.detectAnomalies.
    destruct (Nat.ltb_spec (List.length data) 5) as [_|H]; [reflexivity|lia].
Qed.

(** Raising the threshold only removes anomalies: every anomaly reported
    at a threshold is reported, unchanged, at every lower threshold. *)
Theorem detectAnomalies_threshold_monotone (data : list Reading.t)
  (low high : Q) :
  low <= high ->
  incl (CarbonDataAnalyzer.detectAnomalies host data high)
       (CarbonDataAnalyzer.detectAnomalies host data low).
Proof.
  intros Hle a Ha. rewrite detectAnomalies_filter in Ha |- *.
  apply in_map_iff in Ha. destruct Ha as (item & <- & Hitem).
  apply in_map_iff. exists item. split; [reflexivity|].
  apply filter_In in Hitem. destruct Hitem as [Hin Hflag].
  apply filter_In. split; [exact Hin|].
  apply andb_true_iff in Hflag. destruct Hflag as [Hlen Hflag].
  rewrite Hlen. cbn [andb]. unfold flagged in *.
  apply orb_true_iff in Hflag. apply orb_true_iff.
  destruct Hflag as [H|H]; [left|right];
    now apply (gtR_threshold_mono _ low high Hle).
Qed.

End DetectionProperties.

(** ** Constant readings *)

Lemma beyond64_nan (threshold : F64.t) :
  Population64.beyond F64.nan threshold = false.
Proof. now destruct threshold. Qed.

Lemma zero_over_spread (n : F64.t) :
  F64.div F64.zero (F64.sqrt (F64.div F64.zero n)) = F64.nan.
Proof. destruct n as [s|s| |s m e]; try reflexivity; now destruct s. Qed.

Lemma zScore64_const (l : list F64.t) (c x : F64.t) :
  (forall y, In y l -> y = c) -> F64.finite c = true ->
  Population64.mean l = c -> In x l ->
  Population64.zScore l x = F64.nan.
Proof.
  intros Hconst Hfin Hmean Hx.
  unfold Population64.zScore, Population64.stdDev, Population64.variance.
  rewrite Hmean, (Hconst x Hx), (sub64_diag c Hfin).
  rewrite (sum64_plain_zeros (map (fun y => F64.sq (F64.sub y c)) l)).
  - apply zero_over_spread.
  - intros v Hv. apply in_map_iff in Hv. destruct Hv as (y & <- & Hy).
    now rewrite (Hconst y Hy), (sub64_diag c Hfin).
Qed.

Section Constant64Readings.

Variable host : Host.t.

(** Readings that all have the same emissions and all have the same
    energy, and whose two means are computed exactly, give no anomaly,
    whatever the threshold: both z-scores of every reading are [0 / 0],
    which no comparison finds beyond the threshold. *)
Theorem detectAnomalies_constant_readings (data : list Reading.t)
  (threshold emissions energy : F64.t) :
  (forall r, In r data -> F64.ofQ (Reading.carbonEmissions r) = emissions) ->
  (forall r, In r data -> F64.ofQ (Reading.energyConsumption r) = energy) ->
  F64.finite emissions = true -> F64.finite energy = true ->
  Population64.mean (Population64.column Reading.carbonEmissions data)
  = emissions ->
  Population64.mean (Population64.column Reading.energyConsumption data)
  = energy ->
  Binary64.detectAnomalies host data threshold = [].
Proof.
  intros He Hn Hfe Hfn Hme Hmn.
  destruct (Nat.lt_ge_cases (List.length data) 5) as [Hlt|Hge].
  - unfold Binary64.detectAnomalies.
    destruct (Nat.ltb_spec (List.length data) 5); [reflexivity|lia].
  - rewrite (detectAnomalies64_expected host data threshold Hge).
    rewrite (filter_none _ data); [reflexivity|].
    intros item Hitem. unfold Population64.expectedFlag.
    rewrite (zScore64_const _ emissions), (zScore64_const _ energy);
      try assumption.
    + now rewrite beyond64_nan.
    + intros y Hy. apply in_map_iff in Hy. destruct Hy as (r & <- & Hr).
      now apply Hn.
    + unfold Population64.column.
      exact (in_map (fun r => F64.ofQ (Reading.energyConsumption r)) data item Hitem).
    + intros y Hy. apply in_map_iff in Hy. destruct Hy as (r & <- & Hr).
      now apply He.
    + unfold Population64.column.
      exact (in_map (fun r => F64.ofQ (Reading.carbonEmissions r)) data item Hitem).
Qed.

End Constant64Readings.

Lemma detectAnomalies_constant_readings_witness :
  Binary64.detectAnomalies UTC.host Cases.level (F64.ofZ 2) = [].
Proof.
  apply (detectAnomalies_constant_readings UTC.host Cases.level (F64.ofZ 2)
           (F64.ofZ 10) (F64.ofZ 5));
    try (vm_compute; reflexivity);
    intros r Hr; cbn [Cases.level In] in Hr;
    repeat (destruct Hr as [<-|Hr]; [vm_compute; reflexivity|]); destruct Hr.
Defined.

(** ** Where the rounding decides *)

(** The mean of six readings at 0.1 is the number just below 0.1: every
    deviation is one unit in the last place, as is the standard deviation,
    every z-score is 1 and a threshold of 0.5 flags all six readings. *)
Lemma detectAnomalies_inexact_mean :
  Population64.mean (Population64.column Reading.carbonEmissions Rounded.tenths)
  <> F64.ofQ 0.1
  /\ map Binary64.Anomaly.id
       (Binary64.detectAnomalies UTC.host Rounded.tenths (F64.ofQ 0.5))
     = map Reading.id Rounded.tenths.
Proof. split; [vm_compute; discriminate|vm_compute; reflexivity]. Qed.

(** The first of the five readings has an emissions z-score that exact
    arithmetic puts at -2; binary64 puts it one unit in the last place
    beyond, and a threshold of 2 flags the reading. *)
Lemma detectAnomalies_rounds_past_threshold :
  map (fun a => (Binary64.Anomaly.id a,
                 F64.showFixedStr UTC.host (Binary64.Anomaly.emissionsZScore a)))
      (Binary64.detectAnomalies UTC.host Rounded.borderline (F64.ofZ 2))
  = [("b0"%string, "-2.00"%string)]
  /\ F64.ltb (Population64.zScore
                (Population64.column Reading.carbonEmissions Rounded.borderline)
                (F64.ofZ 2))
             (F64.ofZ (-2)) = true.
Proof. split; vm_compute; reflexivity. Qed.

(** Averages of 0.35, 0.45 and 0.55 have a slope that exact arithmetic
    puts at 0.1; binary64 puts it two units in the last place above, and
    the trend is significant. *)
Lemma identifyTrends_rounds_past_threshold :
  F64.gtb (LeastSquares64.slope
             (Buckets64.averages UTC.host "day" Rounded.climbing))
          (F64.ofQ 0.1) = true
  /\ Binary64.Trends.hasSignificantTrend
       (Binary64.identifyTrends UTC.host Rounded.climbing "day") = true.
Proof. split; vm_compute; reflexivity. Qed.

(** Six daily averages of 0.1 have a mean just below 0.1, so that the
    total sum of squares is not 0; the slope is 0 all the same, the
    residuals are the deviations, and R squared is 1 - 1 = 0: no trend. *)
Lemma identifyTrends_constant_inexact_mean :
  let ys := Buckets64.averages UTC.host "day" Rounded.flat in
  ys = repeat (F64.ofQ 0.1) 6
  /\ LeastSquares64.mean ys <> F64.ofQ 0.1
  /\ F64.eqb (LeastSquares64.ssTotal ys) F64.zero = false
  /\ LeastSquares64.slope ys = F64.zero
  /\ LeastSquares64.rSquared ys = F64.zero
  /\ option_map (fun a => (Binary64.TrendAnalysis.direction a,
                           Binary64.TrendAnalysis.strength a))
       (Binary64.Trends.analysis
          (Binary64.identifyTrends UTC.host Rounded.flat "day"))
     = Some ("stable"%string, "weak"%string)
  /\ Binary64.Trends.hasSignificantTrend
       (Binary64.identifyTrends UTC.host Rounded.flat "day") = false.
Proof.
  cbv zeta. split; [vm_compute; reflexivity|].
  split; [vm_compute; discriminate|].
  repeat split; vm_compute; reflexivity.
Qed.

(** ** The order and the identity of the intensity groups *)

(** The values of a dictionary whose values carry their own key. *)
Lemma keyed_values_NoDup {V : Type} (key : V -> string) (o : JS.obj V) :
  NoDup (map fst o) ->
  (forall k v, JS.lookup k o = Some v -> key v = k) ->
  NoDup (map key (JS.values o)).
Proof.
  intros Hnd Hkey.
  apply (Permutation_NoDup (l := map fst o)); [|exact Hnd].
  symmetry.
  rewrite (Permutation_map key (values_perm o)), map_map.
  replace (map (fun x => key (snd x)) o) with (map fst o); [reflexivity|].
  apply map_ext_in. intros [k v] Hin. cbn [fst snd].
  symmetry. apply Hkey. now apply In_lookup.
Qed.



(** ** The buckets of the trend analysis *)

Section BucketProperties.

Variable host : Host.t.

(** A field of the points that is copied from the buckets. *)
Lemma trends_project {A : Type} (f : TrendPoint.t -> A) (g : Bucket.t -> A)
  (data : list Reading.t) (interval : string) :
  (forall b p, f (CarbonDataAnalyzer.trendPoint b p) = g b) ->
  map f (Trends.trends (CarbonDataAnalyzer.identifyTrends host data interval)) =
  map g (CarbonDataAnalyzer.buckets host data interval).
Proof.
  intros Hfg. destruct data as [|r0 data'].
  - reflexivity.
  - rewrite identifyTrends_nonempty by discriminate. cbv zeta.
    cbn [Trends.trends]. rewrite map_map.
    rewrite (map_ext _ (fun gp => g (fst gp))) by (intros [b p]; apply Hfg).
    apply map_fst_combine.
    now rewrite regression_predicted_length, length_map.
Qed.

Lemma bucketStep_count (interval : string) (o : JS.obj Bucket.t)
  (item : Reading.t) :
  Counts.total (map (fun kv => Bucket.count (snd kv))
                    (CarbonDataAnalyzer.bucketStep host interval o item)) =
  (Counts.total (map (fun kv => Bucket.count (snd kv)) o) + 1)%Z.
Proof.
  unfold CarbonDataAnalyzer.bucketStep. cbv zeta.
  rewrite (total_update Bucket.count _ _ 1%Z).
  - now rewrite total_ensure.
  - rewrite lookup_ensure_same. discriminate.
  - intros v. reflexivity.
Qed.

Lemma bucketsInv_step (interval : string) (o : JS.obj Bucket.t)
  (item : Reading.t) :
  bucketsInv o -> bucketsInv (CarbonDataAnalyzer.bucketStep host interval o item).
Proof.
  intros [Hnd Hpos]. unfold CarbonDataAnalyzer.bucketStep. cbv zeta.
  set (key := CarbonDataAnalyzer.propertyName
                (CarbonDataAnalyzer.bucketKey host interval (Reading.timestamp item))).
  split.
  - now apply NoDup_keys_update, NoDup_keys_ensure.
  - intros k b Hb. destruct (String.eqb_spec k key) as [->|Hk].
    + rewrite lookup_update_same, lookup_ensure_same in Hb.
      cbn [option_map] in Hb. injection Hb as <-. cbn [Bucket.count].
      destruct (JS.lookup key o) as [b0|] eqn:E.
      * specialize (Hpos key b0 E). lia.
      * cbn [Bucket.count]. lia.
    + rewrite lookup_update_other, lookup_ensure_other in Hb by exact Hk.
      exact (Hpos k b Hb).
Qed.

Lemma bucketsInv_fold (interval : string) (l : list Reading.t)
  (o : JS.obj Bucket.t) :
  bucketsInv o ->
  bucketsInv (fold_left (CarbonDataAnalyzer.bucketStep host interval) l o).
Proof.
  revert o. induction l as [|item l IH]; intros o H; cbn [fold_left].
  - exact H.
  - apply IH. now apply bucketsInv_step.
Qed.

(** [identifyTrends] puts every reading in exactly one bucket and reports
    no empty bucket: the counts of the points add up to the number of
    readings and each is at least 1. *)
Theorem identifyTrends_partition (data : list Reading.t) (interval : string) :
  let trends :=
    Trends.trends (CarbonDataAnalyzer.identifyTrends host data interval) in
  Counts.total (map TrendPoint.count trends) = Z.of_nat (List.length data)
  /\ forall point, In point trends -> (1 <= TrendPoint.count point)%Z.
Proof.
  intros trends.
  assert (E : map TrendPoint.count trends =
              map Bucket.count (CarbonDataAnalyzer.buckets host data interval))
    by (apply trends_project; reflexivity).
  split.
  - rewrite E. unfold CarbonDataAnalyzer.buckets. cbv zeta.
    rewrite total_values.
    rewrite (total_fold Bucket.count (CarbonDataAnalyzer.bucketStep host interval))
      by apply bucketStep_count.
    cbn [map Counts.total fold_right].
    now rewrite (Permutation_length (sort_perm _ data)).
  - intros point Hpoint.
    apply (in_map TrendPoint.count) in Hpoint. rewrite E in Hpoint.
    apply in_map_iff in Hpoint. destruct Hpoint as (b & <- & Hb).
    unfold CarbonDataAnalyzer.buckets in Hb. cbv zeta in Hb.
    destruct (bucketsInv_fold interval
                (JS.sort (fun a b => (Reading.timestamp a - Reading.timestamp b <? 0)%Z)
                         data) [])
      as [Hnd Hpos].
    { split; [constructor|intros k b0 H; discriminate H]. }
    apply In_values in Hb. destruct Hb as (k & Hb).
    apply (Hpos k). now apply In_lookup.
Qed.

(** ** An interval that is none of hour, day and week *)








End BucketProperties.

(** ** The forecast on enough readings *)

(** With a slope that is not negative the values never fall, with a slope
    that is not positive they never rise. *)
Lemma projection_rising (f slope : Q) (n : nat) :
  0 <= slope -> 0 <= f -> Sorted Qle (f :: Projection.values f slope n).
Proof.
  intros Hs. revert f. induction n as [|n IH]; intros f Hf;
    cbn [Projection.values].
  - repeat constructor.
  - pose proof (Q.le_max_l 0 (f + slope)) as H0.
    pose proof (Q.le_max_r 0 (f + slope)) as H1.
    constructor; [apply IH; exact H0|]. constructor. lra.
Qed.

Lemma projection_falling (f slope : Q) (n : nat) :
  slope <= 0 -> 0 <= f ->
  Sorted (fun a b => b <= a) (f :: Projection.values f slope n).
Proof.
  intros Hs. revert f. induction n as [|n IH]; intros f Hf;
    cbn [Projection.values].
  - repeat constructor.
  - pose proof (Q.le_max_l 0 (f + slope)) as H0.
    constructor; [apply IH; exact H0|]. constructor.
    apply Q.max_lub; lra.
Qed.

Lemma Sorted_map {A B : Type} (R : A -> A -> Prop) (R' : B -> B -> Prop)
  (f : A -> B) (l : list A) :
  (forall a b, R a b -> R' (f a) (f b)) -> Sorted R l -> Sorted R' (map f l).
Proof.
  intros Hf Hl. induction Hl as [|x l Hl IH Hx]; cbn [map]; constructor.
  - exact IH.
  - destruct Hx; cbn [map]; constructor. now apply Hf.
Qed.


Section ForecastShape.

Variable host : Host.t.


Lemma forecastPoints_values (interval : string) (lastTrend : TrendPoint.t)
  (analysis : TrendAnalysis.t) (periods : Z) :
  map ForecastPoint.forecast (forecastPoints host interval lastTrend analysis periods)
  = map (fun v => JS.rounded v 2)
        (Projection.values (TrendPoint.averageEmissions lastTrend)
                           (TrendAnalysis.slope analysis) (Z.to_nat periods)).
Proof.
  unfold forecastPoints. destruct (Z.ltb_spec 0 periods) as [H|H].
  - now rewrite (forecast_loop host interval _ _ _ 0 _ _ [] (Qeq_refl _)).
  - replace (Z.to_nat periods) with 0%nat by lia. reflexivity.
Qed.


(** [forecast] on at least ten readings. *)
Lemma forecast_sufficient (data : list Reading.t) (periods : Z)
  (interval : string) :
  (10 <= List.length data)%nat ->
  let trends := CarbonDataAnalyzer.identifyTrends host data interval in
  exists analysis lastTrend,
    Trends.analysis trends = Some analysis
    /\ JS.lastOf (Trends.trends trends) = Some lastTrend
    /\ CarbonDataAnalyzer.forecast host data periods interval =
       JS.Normal
         {| Forecast.historical := Some (Trends.trends trends);
            Forecast.forecast := forecastPoints host interval lastTrend analysis periods;
            Forecast.confidence :=
              CarbonDataAnalyzer.forecastConfidence
                (TrendAnalysis.rSquared analysis) (List.length data);
            Forecast.slope := Some (TrendAnalysis.slope analysis);
            Forecast.message :=
              ("This forecast has "
               ++ CarbonDataAnalyzer.forecastConfidence
                    (TrendAnalysis.rSquared analysis) (List.length data)
               ++ " confidence based on "
               ++ JS.showZ (Z.of_nat (List.length data))
               ++ " data points and an R" ++ CarbonDataAnalyzer.superscript2
               ++ " of "
               ++ JS.fixedString (JS.toFixed (TrendAnalysis.rSquared analysis) 2)
               ++ ".")%string |}.
Proof.
  intros Hlen trends.
  assert (Hne : data <> []) by (intros ->; simpl in Hlen; lia).
  destruct (identifyTrends_analysis host data interval Hne) as (analysis & Ha).
  fold trends in Ha.
  destruct (lastOf_nonempty (Trends.trends trends)
              (identifyTrends_trends_nonempty host data interval Hne))
    as (lastTrend & Hlast).
  exists analysis, lastTrend. split; [exact Ha|split; [exact Hlast|]].
  unfold CarbonDataAnalyzer.forecast.
  destruct (Nat.ltb_spec (List.length data) 10) as [Hlt|_]; [lia|].
  cbv zeta. fold trends. rewrite lastOf_map, Hlast, Ha.
  cbn [option_map JS.defined JS.bind]. unfold forecastPoints.
  destruct (0 <? periods)%Z; reflexivity.
Qed.

(** On at least ten readings [forecast] returns for every number of
    periods and every interval: a number of periods that is zero or
    negative gives no point.  The confidence is low, medium or high; it is
    low on twenty readings or fewer and high only on more than thirty. *)
Theorem forecast_confidence (data : list Reading.t) (periods : Z)
  (interval : string) :
  (10 <= List.length data)%nat ->
  exists result,
    CarbonDataAnalyzer.forecast host data periods interval = JS.Normal result
    /\ ((periods <= 0)%Z -> Forecast.forecast result = [])
    /\ (Forecast.confidence result = "low"%string
        \/ Forecast.confidence result = "medium"%string
        \/ Forecast.confidence result = "high"%string)
    /\ ((List.length data <= 20)%nat ->
        Forecast.confidence result = "low"%string)
    /\ (Forecast.confidence result = "high"%string ->
        (30 < List.length data)%nat).
Proof.
  intros Hlen.
  destruct (forecast_sufficient data periods interval Hlen)
    as (analysis & lastTrend & _ & _ & Hf).
  eexists. split; [exact Hf|].
  cbn [Forecast.forecast Forecast.confidence].
  unfold CarbonDataAnalyzer.forecastConfidence.
  split.
  - intros Hp. unfold forecastPoints.
    destruct (Z.ltb_spec 0 periods); [lia|reflexivity].
  - destruct (JS.gtb (TrendAnalysis.rSquared analysis) (7 # 10));
      destruct (JS.gtb (TrendAnalysis.rSquared analysis) (4 # 10));
      destruct (Nat.ltb_spec 30 (List.length data));
      destruct (Nat.ltb_spec 20 (List.length data));
      cbn [andb];
      (split; [auto|split; [intros; first [reflexivity|lia]
                           |intros; first [assumption|discriminate|lia]]]).
Qed.

(** The forecast never changes direction: when the slope reported is not
    negative each point is at least the one before, and when it is not
    positive each point is at most the one before. *)
Theorem forecast_monotone (data : list Reading.t) (periods : Z)
  (interval : string) :
  (10 <= List.length data)%nat ->
  exists result slope,
    CarbonDataAnalyzer.forecast host data periods interval = JS.Normal result
    /\ Forecast.slope result = Some slope
    /\ (0 <= slope ->
        Sorted Qle (map ForecastPoint.forecast (Forecast.forecast result)))
    /\ (slope <= 0 ->
        Sorted (fun a b => b <= a)
               (map ForecastPoint.forecast (Forecast.forecast result))).
Proof.
  intros Hlen.
  destruct (forecast_sufficient data periods interval Hlen)
    as (analysis & lastTrend & _ & _ & Hf).
  eexists. exists (TrendAnalysis.slope analysis).
  split; [exact Hf|]. cbn [Forecast.forecast Forecast.slope].
  split; [reflexivity|].
  rewrite forecastPoints_values.
  set (f := TrendPoint.averageEmissions lastTrend).
  set (m := TrendAnalysis.slope analysis).
  destruct (Z.to_nat periods) as [|n]; [split; intros _; constructor|].
  cbn [Projection.values].
  pose proof (Q.le_max_l 0 (f + m)) as H0.
  split; intros Hm.
  - apply (Sorted_map Qle); [intros a b; apply rounded_le_mono|].
    now apply projection_rising.
  - apply (Sorted_map (fun a b => b <= a));
      [intros a b; apply rounded_le_mono|].
    now apply projection_falling.
Qed.




End ForecastShape.

(** ** The spelling of an integer *)

Lemma showZ_inj (a b : Z) : JS.showZ a = JS.showZ b -> a = b.
Proof.
  unfold JS.showZ. intros H.
  assert (Hnn : forall z, Z.to_int z <> Decimal.Pos Decimal.Nil
                          /\ Z.to_int z <> Decimal.Neg Decimal.Nil).
  { intros [|p|p]; cbn; split; try discriminate; intros E; injection E as E;
      now apply Unsigned.to_uint_nonnil in E. }
  apply (f_equal NilZero.int_of_string) in H.
  rewrite !NilZero.isi in H by apply Hnn.
  injection H as H. now apply to_int_inj.
Qed.

(** ** Grouping by hour *)

Section HourProperties.

Variable host : Host.t.

Lemma hourStep_count (o : JS.obj Hour.t) (item : Reading.t) :
  Counts.total (map (fun kv => Hour.readingCount (snd kv))
                    (ReportGenerator.hourStep host o item)) =
  (Counts.total (map (fun kv => Hour.readingCount (snd kv)) o) + 1)%Z.
Proof.
  unfold ReportGenerator.hourStep. cbv zeta.
  rewrite (total_update Hour.readingCount _ _ 1%Z).
  - now rewrite total_ensure.
  - rewrite lookup_ensure_same. discriminate.
  - intros v. reflexivity.
Qed.

Lemma hoursInv_step (seen : list Reading.t) (o : JS.obj Hour.t)
  (item : Reading.t) :
  hoursInv host seen o ->
  hoursInv host (seen ++ [item]) (ReportGenerator.hourStep host o item).
Proof.
  intros [Hnd Hinv]. unfold ReportGenerator.hourStep. cbv zeta.
  set (hour := Host.getHours host (Reading.timestamp item)).
  split.
  - now apply NoDup_keys_update, NoDup_keys_ensure.
  - intros k h Hh. destruct (String.eqb_spec k (JS.showZ hour)) as [->|Hk].
    + rewrite lookup_update_same, lookup_ensure_same in Hh.
      cbn [option_map] in Hh. injection Hh as <-. cbn [Hour.hour Hour.readingCount].
      destruct (JS.lookup (JS.showZ hour) o) as [h0|] eqn:E.
      * destruct (Hinv _ h0 E) as (Hkey & Hpos & r & Hr & Hhour).
        split; [exact Hkey|split; [lia|]].
        exists r. split; [apply in_or_app; now left|exact Hhour].
      * cbn [Hour.hour Hour.readingCount].
        split; [reflexivity|split; [lia|]].
        exists item. split; [apply in_or_app; right; now left|reflexivity].
    + rewrite lookup_update_other, lookup_ensure_other in Hh by exact Hk.
      destruct (Hinv k h Hh) as (Hkey & Hpos & r & Hr & Hhour).
      split; [exact Hkey|split; [exact Hpos|]].
      exists r. split; [apply in_or_app; now left|exact Hhour].
Qed.

Lemma hoursInv_fold (l seen : list Reading.t) (o : JS.obj Hour.t) :
  hoursInv host seen o ->
  hoursInv host (seen ++ l) (fold_left (ReportGenerator.hourStep host) l o).
Proof.
  revert seen o. induction l as [|item l IH]; intros seen o H; cbn [fold_left].
  - now rewrite app_nil_r.
  - replace (seen ++ item :: l)%list with ((seen ++ [item]) ++ l)%list
      by (now rewrite <- app_assoc).
    apply IH. now apply hoursInv_step.
Qed.

Lemma hoursInv_data (data : list Reading.t) :
  hoursInv host data (fold_left (ReportGenerator.hourStep host) data []).
Proof.
  apply (hoursInv_fold data [] []).
  split; [constructor|intros k h H; discriminate H].
Qed.

(** The hours of [groupByHour] come from the entries of the loop. *)
Lemma groupByHour_origin (data : list Reading.t) (h : Hour.t) :
  In h (ReportGenerator.groupByHour host data) ->
  exists h0,
    JS.lookup (JS.showZ (Hour.hour h0))
              (fold_left (ReportGenerator.hourStep host) data []) = Some h0
    /\ Hour.hour h = Hour.hour h0
    /\ Hour.readingCount h = Hour.readingCount h0
    /\ Hour.totalEmissions h = JS.rounded (Hour.totalEmissions h0) 2
    /\ Hour.totalEnergy h = JS.rounded (Hour.totalEnergy h0) 2.
Proof.
  intros Hh. unfold ReportGenerator.groupByHour in Hh. cbv zeta in Hh.
  apply In_sort in Hh. apply in_map_iff in Hh. destruct Hh as (h0 & <- & Hh0).
  destruct (hoursInv_data data) as [Hnd Hinv].
  apply In_values in Hh0. destruct Hh0 as (k & Hk).
  apply (In_lookup _ _ _ Hnd) in Hk.
  destruct (Hinv k h0 Hk) as (-> & _).
  exists h0. repeat split; [exact Hk].
Qed.

(** [groupByHour] gives one entry for each hour of the day that has a
    reading, in ascending order of the hour; every reading is counted in
    exactly one entry, and no entry is empty. *)
Theorem groupByHour_partition (data : list Reading.t) :
  let hourly := ReportGenerator.groupByHour host data in
  StronglySorted (fun a b => (Hour.hour a <= Hour.hour b)%Z) hourly
  /\ NoDup (map Hour.hour hourly)
  /\ Counts.total (map Hour.readingCount hourly) = Z.of_nat (List.length data)
  /\ (forall h, In h hourly ->
        (1 <= Hour.readingCount h)%Z
        /\ exists item, In item data
                        /\ Hour.hour h = Host.getHours host (Reading.timestamp item))
  /\ (forall item, In item data ->
        exists h, In h hourly
                  /\ Hour.hour h = Host.getHours host (Reading.timestamp item)).
Proof.
  intros hourly.
  destruct (hoursInv_data data) as [Hnd Hinv].
  set (o := fold_left (ReportGenerator.hourStep host) data []) in *.
  split; [|split; [|split; [|split]]].
  - unfold hourly, ReportGenerator.groupByHour. cbv zeta.
    apply sort_sorted.
    + intros a b c; lia.
    + intros a b H. apply Z.ltb_lt in H. lia.
    + intros a b H. apply Z.ltb_ge in H. lia.
  - unfold hourly, ReportGenerator.groupByHour. cbv zeta. fold o.
    apply (Permutation_NoDup (l := map Hour.hour (JS.values o))).
    + rewrite (Permutation_map Hour.hour (sort_perm _ _)), map_map.
      reflexivity.
    + apply (NoDup_map_inv JS.showZ). rewrite map_map.
      apply (keyed_values_NoDup (fun h => JS.showZ (Hour.hour h))); [exact Hnd|].
      intros k h Hh. symmetry. now destruct (Hinv k h Hh).
  - unfold hourly, ReportGenerator.groupByHour. cbv zeta. fold o.
    rewrite (total_perm _ _ (Permutation_map Hour.readingCount (sort_perm _ _))).
    rewrite map_map. cbn [Hour.readingCount].
    rewrite (total_values Hour.readingCount).
    unfold o.
    rewrite (total_fold Hour.readingCount (ReportGenerator.hourStep host))
      by apply hourStep_count.
    reflexivity.
  - intros h Hh. destruct (groupByHour_origin data h Hh)
      as (h0 & Hh0 & -> & -> & _).
    destruct (Hinv _ h0 Hh0) as (_ & Hpos & Hitem).
    split; assumption.
  - intros item Hitem.
    assert (Hkey : JS.lookup (JS.showZ (Host.getHours host (Reading.timestamp item)))
                     o <> None).
    { unfold o. clear - Hitem. generalize (@nil (string * Hour.t)).
      induction data as [|x l IH]; intros acc; [destruct Hitem|].
      cbn [fold_left]. destruct Hitem as [->|Hitem].
      - assert (Hstep : JS.lookup
                          (JS.showZ (Host.getHours host (Reading.timestamp item)))
                          (ReportGenerator.hourStep host acc item) <> None).
        { unfold ReportGenerator.hourStep. cbv zeta.
          rewrite lookup_update_same, lookup_ensure_same. discriminate. }
        revert Hstep. generalize (ReportGenerator.hourStep host acc item).
        clear. induction l as [|y l IHl]; intros o Ho; cbn [fold_left]; [exact Ho|].
        apply IHl. unfold ReportGenerator.hourStep. cbv zeta.
        destruct (String.eqb_spec
                    (JS.showZ (Host.getHours host (Reading.timestamp item)))
                    (JS.showZ (Host.getHours host (Reading.timestamp y))))
          as [E|E].
        + rewrite E, lookup_update_same, lookup_ensure_same. discriminate.
        + now rewrite lookup_update_other, lookup_ensure_other by exact E.
      - now apply IH. }
    destruct (JS.lookup _ o) as [h0|] eqn:Hh0; [|congruence].
    destruct (Hinv _ h0 Hh0) as (Hk & _).
    exists {| Hour.hour := Hour.hour h0;
              Hour.totalEmissions := JS.rounded (Hour.totalEmissions h0) 2;
              Hour.totalEnergy := JS.rounded (Hour.totalEnergy h0) 2;
              Hour.readingCount := Hour.readingCount h0 |}.
    split.
    + unfold hourly, ReportGenerator.groupByHour. cbv zeta. fold o.
      apply In_sort.
      apply (in_map (fun hour =>
               {| Hour.hour := Hour.hour hour;
                  Hour.totalEmissions := JS.rounded (Hour.totalEmissions hour) 2;
                  Hour.totalEnergy := JS.rounded (Hour.totalEnergy hour) 2;
                  Hour.readingCount := Hour.readingCount hour |})).
      apply In_values. eexists. apply lookup_In. exact Hh0.
    + cbn [Hour.hour]. now apply showZ_inj.
Qed.

End HourProperties.

(** ** Grouping by building *)









(** ** Dictionaries that are alike *)

Section Alike.

Context {V W : Type}.
Variable R : V -> W -> Prop.






End Alike.

(** ** The groups of a report and the groups of the intensity analysis *)






(** ** Updating an array in place *)

Lemma updateAt_length {A : Type} (i : nat) (f : A -> A) (l : list A) :
  List.length (JS.updateAt i f l) = List.length l.
Proof.
  revert i. induction l as [|x l IH]; intros [|i]; cbn [JS.updateAt List.length];
    try reflexivity.
  now rewrite IH.
Qed.

Lemma updateAt_map {A B : Type} (g : A -> B) (i : nat) (f : A -> A) (l : list A) :
  (forall x, g (f x) = g x) -> map g (JS.updateAt i f l) = map g l.
Proof.
  intros H. revert i. induction l as [|x l IH]; intros [|i];
    cbn [JS.updateAt map]; try reflexivity.
  - now rewrite H.
  - now rewrite IH.
Qed.

Lemma updateAt_total {A : Type} (count : A -> Z) (i : nat) (f : A -> A)
  (l : list A) :
  (i < List.length l)%nat -> (forall x, count (f x) = (count x + 1)%Z) ->
  Counts.total (map count (JS.updateAt i f l)) =
  (Counts.total (map count l) + 1)%Z.
Proof.
  intros Hi Hf. revert i Hi. unfold Counts.total.
  induction l as [|x l IH]; intros [|i] Hi; cbn [List.length] in Hi; try lia;
    cbn [JS.updateAt map fold_right].
  - rewrite Hf. lia.
  - rewrite IH by lia. lia.
Qed.

(** ** Grouping by day *)

Section DayProperties.

Variable host : Host.t.

Let calendar (day : Day.t) : string * Z * option string :=
  (Day.date day, Day.dayOfWeek day, Day.dayName day).

Lemma addToDay_fold (startDate days : Z) (data : list Reading.t)
  (rows : list Day.t) :
  List.length rows = Z.to_nat days ->
  let result := fold_left (DayLoop.addToDay startDate days) data rows in
  List.length result = Z.to_nat days
  /\ map calendar result = map calendar rows
  /\ Counts.total (map Day.readingCount result) =
     (Counts.total (map Day.readingCount rows)
      + Z.of_nat (List.length (filter (inDays startDate days) data)))%Z.
Proof.
  revert rows. induction data as [|item data IH]; intros rows Hlen;
    cbn [fold_left filter].
  - cbn [List.length]. split; [exact Hlen|split; [reflexivity|lia]].
  - unfold DayLoop.addToDay at 2 4 6. cbv zeta.
    change (inDays startDate days item)
      with ((0 <=? (Reading.timestamp item - startDate) / ReportGenerator.msPerDay)%Z
            && ((Reading.timestamp item - startDate) / ReportGenerator.msPerDay
                <? days)%Z).
    set (idx := ((Reading.timestamp item - startDate) / ReportGenerator.msPerDay)%Z).
    destruct ((0 <=? idx)%Z && (idx <? days)%Z) eqn:Hin.
    + apply andb_true_iff in Hin. destruct Hin as [H0 H1].
      apply Z.leb_le in H0. apply Z.ltb_lt in H1.
      match goal with |- context [JS.updateAt ?i ?f rows] =>
        set (rows' := JS.updateAt i f rows) end.
      assert (Hlen' : List.length rows' = Z.to_nat days)
        by (unfold rows'; now rewrite updateAt_length).
      destruct (IH rows' Hlen') as (Hl & Hc & Ht).
      split; [exact Hl|split].
      * rewrite Hc. unfold rows'. now apply updateAt_map.
      * rewrite Ht. unfold rows'.
        rewrite updateAt_total; [cbn [List.length]; lia| |reflexivity].
        rewrite Hlen. lia.
    + exact (IH rows Hlen).
Qed.

Lemma groupByDay_unfold (data : list Reading.t) (startDate days : Z) :
  ReportGenerator.groupByDay host data startDate days =
  map
    (fun day =>
       {| Day.date := Day.date day;
          Day.dayOfWeek := Day.dayOfWeek day;
          Day.dayName := Day.dayName day;
          Day.totalEmissions := JS.rounded (Day.totalEmissions day) 2;
          Day.totalEnergy := JS.rounded (Day.totalEnergy day) 2;
          Day.readingCount := Day.readingCount day |})
    (fold_left (DayLoop.addToDay startDate days) data (DayLoop.emptyDays host startDate days)).
Proof. reflexivity. Qed.

Lemma emptyDays_total (startDate days : Z) :
  Counts.total (map Day.readingCount (DayLoop.emptyDays host startDate days)) = 0%Z.
Proof.
  unfold DayLoop.emptyDays. rewrite map_map. cbn [Day.readingCount].
  induction (seq 0 (Z.to_nat days)) as [|i l IH]; [reflexivity|].
  cbn [map Counts.total fold_right]. unfold Counts.total in IH. now rewrite IH.
Qed.

Lemma groupByDay_shape (data : list Reading.t) (startDate days : Z) :
  let daily := ReportGenerator.groupByDay host data startDate days in
  List.length daily = Z.to_nat days
  /\ map calendar daily = map calendar (DayLoop.emptyDays host startDate days)
  /\ Counts.total (map Day.readingCount daily) =
     Z.of_nat (List.length (filter (inDays startDate days) data)).
Proof.
  intros daily. unfold daily. rewrite groupByDay_unfold.
  destruct (addToDay_fold startDate days data (DayLoop.emptyDays host startDate days))
    as (Hl & Hc & Ht).
  { unfold DayLoop.emptyDays. now rewrite length_map, length_seq. }
  rewrite length_map, !map_map. cbn [calendar Day.date Day.dayOfWeek Day.dayName
                                     Day.readingCount].
  split; [exact Hl|split].
  - exact Hc.
  - change (fun x => Day.readingCount x) with Day.readingCount.
    rewrite Ht, emptyDays_total. lia.
Qed.

(** [groupByDay] gives a row for each of the days asked for, whatever the
    readings: the date, the day of the week and its name in a row do not
    depend on the readings; a reading is counted, once, when its whole
    number of days from the start date is at least 0 and below the number
    of days, and is left out otherwise. *)
Theorem groupByDay_rows (data : list Reading.t) (startDate days : Z) :
  let daily := ReportGenerator.groupByDay host data startDate days in
  List.length daily = Z.to_nat days
  /\ map (fun day => (Day.date day, Day.dayOfWeek day, Day.dayName day)) daily =
     map (fun day => (Day.date day, Day.dayOfWeek day, Day.dayName day))
         (ReportGenerator.groupByDay host [] startDate days)
  /\ Counts.total (map Day.readingCount daily) =
     Z.of_nat (List.length (filter (inDays startDate days) data))
  /\ ((forall item, In item data -> inDays startDate days item = false) ->
      daily = ReportGenerator.groupByDay host [] startDate days).
Proof.
  intros daily.
  destruct (groupByDay_shape data startDate days) as (Hl & Hc & Ht).
  destruct (groupByDay_shape [] startDate days) as (_ & Hc0 & _).
  split; [exact Hl|split; [|split; [exact Ht|]]].
  - fold calendar. fold daily in Hc. now rewrite Hc, Hc0.
  - intros Hout. unfold daily. rewrite !groupByDay_unfold. f_equal.
    cbn [fold_left]. clear - Hout.
    generalize (DayLoop.emptyDays host startDate days).
    induction data as [|item data IH]; intros rows; [reflexivity|].
    cbn [fold_left]. unfold DayLoop.addToDay at 2. cbv zeta.
    pose proof (Hout item (or_introl eq_refl)) as Hitem.
    unfold inDays, dayIndex in Hitem. rewrite Hitem.
    apply IH. intros r Hr. apply Hout. now right.
Qed.

End DayProperties.

(** ** The peak *)

(** The state of the loop of [findPeakHour] is the first entry that no
    earlier entry equals or exceeds and no later entry of those seen
    exceeds. *)
Lemma peakHour_fold (l : list Hour.t) (peak : PeakHour.t) :
  let result :=
    fold_left
      (fun peak hour =>
         if JS.gtb (Hour.totalEmissions hour) (PeakHour.emissions peak)
         then {| PeakHour.hour := Hour.hour hour;
                 PeakHour.emissions := Hour.totalEmissions hour |}
         else peak) l peak in
  PeakHour.emissions peak <= PeakHour.emissions result
  /\ (forall h, In h l -> Hour.totalEmissions h <= PeakHour.emissions result)
  /\ (result = peak
      \/ exists before h after,
           l = (before ++ h :: after)%list
           /\ result = {| PeakHour.hour := Hour.hour h;
                          PeakHour.emissions := Hour.totalEmissions h |}
           /\ PeakHour.emissions peak < Hour.totalEmissions h
           /\ (forall x, In x before ->
                 Hour.totalEmissions x < Hour.totalEmissions h)).
Proof.
  revert peak. induction l as [|x l IH]; intros peak; cbn [fold_left].
  - split; [apply Qle_refl|split; [intros h []|now left]].
  - destruct (JS.gtb (Hour.totalEmissions x) (PeakHour.emissions peak)) eqn:Hx.
    + apply gtb_lt in Hx.
      destruct (IH {| PeakHour.hour := Hour.hour x;
                      PeakHour.emissions := Hour.totalEmissions x |})
        as (Hle & Hall & Hor).
      cbn [PeakHour.emissions] in Hle, Hor.
      split; [lra|split].
      * intros h [<-|Hh]; [exact Hle|now apply Hall].
      * right. destruct Hor as [->|(before & h & after & -> & Hr & Hlt & Hb)].
        -- exists [], x, l. split; [reflexivity|split; [reflexivity|]].
           split; [exact Hx|intros y []].
        -- exists (x :: before), h, after.
           split; [reflexivity|split; [exact Hr|]].
           split; [lra|]. intros y [<-|Hy]; [exact Hlt|now apply Hb].
    + apply gtb_le in Hx.
      destruct (IH peak) as (Hle & Hall & Hor).
      split; [exact Hle|split].
      * intros h [<-|Hh]; [lra|now apply Hall].
      * destruct Hor as [Hr|(before & h & after & -> & Hr & Hlt & Hb)];
          [now left|right].
        exists (x :: before), h, after.
        split; [reflexivity|split; [exact Hr|]].
        split; [exact Hlt|]. intros y [<-|Hy]; [lra|now apply Hb].
Qed.

Lemma findPeakHour_some (hourlyData : list Hour.t) (peak : PeakHour.t) :
  ReportGenerator.findPeakHour hourlyData = Some peak ->
  exists before h after,
    hourlyData = (before ++ h :: after)%list
    /\ peak = {| PeakHour.hour := Hour.hour h;
                 PeakHour.emissions := Hour.totalEmissions h |}
    /\ (forall x, In x before ->
          Hour.totalEmissions x < Hour.totalEmissions h)
    /\ (forall x, In x hourlyData ->
          Hour.totalEmissions x <= Hour.totalEmissions h).
Proof.
  intros Hp. destruct hourlyData as [|first rest]; [discriminate|].
  cbn [ReportGenerator.findPeakHour] in Hp. injection Hp as <-.
  destruct (peakHour_fold (first :: rest)
              {| PeakHour.hour := Hour.hour first;
                 PeakHour.emissions := Hour.totalEmissions first |})
    as (Hle & Hall & Hor).
  destruct Hor as [Hr|(before & h & after & Hl & Hr & Hlt & Hb)].
  - exists [], first, rest.
    split; [reflexivity|split; [exact Hr|split; [intros x []|]]].
    intros x Hx. specialize (Hall x Hx). rewrite Hr in Hall. exact Hall.
  - exists before, h, after.
    split; [exact Hl|split; [exact Hr|split; [exact Hb|]]].
    intros x Hx. specialize (Hall x Hx). rewrite Hr in Hall. exact Hall.
Qed.

(** [findPeakHour] is [null] on no entry and on no other input; otherwise
    it is the hour and the emissions of the first entry whose emissions no
    entry exceeds. *)
Theorem findPeakHour_first_maximum (hourlyData : list Hour.t) :
  (ReportGenerator.findPeakHour hourlyData = None <-> hourlyData = [])
  /\ forall peak, ReportGenerator.findPeakHour hourlyData = Some peak ->
       exists before h after,
         hourlyData = (before ++ h :: after)%list
         /\ peak = {| PeakHour.hour := Hour.hour h;
                      PeakHour.emissions := Hour.totalEmissions h |}
         /\ (forall x, In x before ->
               Hour.totalEmissions x < Hour.totalEmissions h)
         /\ (forall x, In x hourlyData ->
               Hour.totalEmissions x <= Hour.totalEmissions h).
Proof.
  split.
  - destruct hourlyData; cbn [ReportGenerator.findPeakHour];
      split; intros H; congruence.
  - intros peak. apply findPeakHour_some.
Qed.

Lemma peakDay_fold (l : list Day.t) (peak : PeakDay.t) :
  let result :=
    fold_left
      (fun peak day =>
         if JS.gtb (Day.totalEmissions day) (PeakDay.emissions peak)
         then {| PeakDay.dayName := Day.dayName day;
                 PeakDay.emissions := Day.totalEmissions day |}
         else peak) l peak in
  PeakDay.emissions peak <= PeakDay.emissions result
  /\ (forall d, In d l -> Day.totalEmissions d <= PeakDay.emissions result)
  /\ (result = peak
      \/ exists before d after,
           l = (before ++ d :: after)%list
           /\ result = {| PeakDay.dayName := Day.dayName d;
                          PeakDay.emissions := Day.totalEmissions d |}
           /\ PeakDay.emissions peak < Day.totalEmissions d
           /\ (forall x, In x before ->
                 Day.totalEmissions x < Day.totalEmissions d)).
Proof.
  revert peak. induction l as [|x l IH]; intros peak; cbn [fold_left].
  - split; [apply Qle_refl|split; [intros d []|now left]].
  - destruct (JS.gtb (Day.totalEmissions x) (PeakDay.emissions peak)) eqn:Hx.
    + apply gtb_lt in Hx.
      destruct (IH {| PeakDay.dayName := Day.dayName x;
                      PeakDay.emissions := Day.totalEmissions x |})
        as (Hle & Hall & Hor).
      cbn [PeakDay.emissions] in Hle, Hor.
      split; [lra|split].
      * intros d [<-|Hd]; [exact Hle|now apply Hall].
      * right. destruct Hor as [->|(before & d & after & -> & Hr & Hlt & Hb)].
        -- exists [], x, l. split; [reflexivity|split; [reflexivity|]].
           split; [exact Hx|intros y []].
        -- exists (x :: before), d, after.
           split; [reflexivity|split; [exact Hr|]].
           split; [lra|]. intros y [<-|Hy]; [exact Hlt|now apply Hb].
    + apply gtb_le in Hx.
      destruct (IH peak) as (Hle & Hall & Hor).
      split; [exact Hle|split].
      * intros d [<-|Hd]; [lra|now apply Hall].
      * destruct Hor as [Hr|(before & d & after & -> & Hr & Hlt & Hb)];
          [now left|right].
        exists (x :: before), d, after.
        split; [reflexivity|split; [exact Hr|]].
        split; [exact Hlt|]. intros y [<-|Hy]; [lra|now apply Hb].
Qed.

Lemma findPeakDay_some (dailyData : list Day.t) (peak : PeakDay.t) :
  ReportGenerator.findPeakDay dailyData = Some peak ->
  exists before d after,
    dailyData = (before ++ d :: after)%list
    /\ peak = {| PeakDay.dayName := Day.dayName d;
                 PeakDay.emissions := Day.totalEmissions d |}
    /\ (forall x, In x before ->
          Day.totalEmissions x < Day.totalEmissions d)
    /\ (forall x, In x dailyData ->
          Day.totalEmissions x <= Day.totalEmissions d).
Proof.
  intros Hp. destruct dailyData as [|first rest]; [discriminate|].
  cbn [ReportGenerator.findPeakDay] in Hp. injection Hp as <-.
  destruct (peakDay_fold (first :: rest)
              {| PeakDay.dayName := Day.dayName first;
                 PeakDay.emissions := Day.totalEmissions first |})
    as (Hle & Hall & Hor).
  destruct Hor as [Hr|(before & d & after & Hl & Hr & Hlt & Hb)].
  - exists [], first, rest.
    split; [reflexivity|split; [exact Hr|split; [intros x []|]]].
    intros x Hx. specialize (Hall x Hx). rewrite Hr in Hall. exact Hall.
  - exists before, d, after.
    split; [exact Hl|split; [exact Hr|split; [exact Hb|]]].
    intros x Hx. specialize (Hall x Hx). rewrite Hr in Hall. exact Hall.
Qed.

(** [findPeakDay] is [null] on no row and on no other input; otherwise it
    is the name and the emissions of the first row whose emissions no row
    exceeds. *)
Theorem findPeakDay_first_maximum (dailyData : list Day.t) :
  (ReportGenerator.findPeakDay dailyData = None <-> dailyData = [])
  /\ forall peak, ReportGenerator.findPeakDay dailyData = Some peak ->
       exists before d after,
         dailyData = (before ++ d :: after)%list
         /\ peak = {| PeakDay.dayName := Day.dayName d;
                      PeakDay.emissions := Day.totalEmissions d |}
         /\ (forall x, In x before ->
               Day.totalEmissions x < Day.totalEmissions d)
         /\ (forall x, In x dailyData ->
               Day.totalEmissions x <= Day.totalEmissions d).
Proof.
  split.
  - destruct dailyData; cbn [ReportGenerator.findPeakDay];
      split; intros H; congruence.
  - intros peak. apply findPeakDay_some.
Qed.

(** ** The recommendations of a report *)

Section AdviceProperties.

Variable host : Host.t.




End AdviceProperties.

(** ** The weeks of a month *)

Lemma ceilDiv_weeks (a : Z) (i : nat) :
  (i < Z.to_nat (JS.ceilDiv a 7))%nat -> (Z.of_nat i * 7 < a)%Z.
Proof.
  unfold JS.ceilDiv. intros H.
  pose proof (Z.div_mod (- a) 7) as Hd.
  pose proof (Z.mod_pos_bound (- a) 7) as Hm.
  assert (Hi : (Z.of_nat i < - (- a / 7))%Z) by lia.
  revert Hd Hm Hi. generalize (- a / 7)%Z ((- a) mod 7)%Z. intros q r. lia.
Qed.

Section WeekProperties.

Variable host : Host.t.

Let dated (w : Week.t) : bool :=
  match Week.startDate w with Some _ => true | None => false end.

Let label (w : Week.t) : Z * option string * option string :=
  (Week.week w, Week.startDate w, Week.endDate w).

Lemma calculateWeeklyTrend_unfold (data : list Reading.t) (startDate : Z) :
  ReportGenerator.calculateWeeklyTrend host data startDate =
  map
    (fun w =>
       {| Week.week := Week.week w;
          Week.startDate := Week.startDate w;
          Week.endDate := Week.endDate w;
          Week.totalEmissions := JS.rounded (Week.totalEmissions w) 2;
          Week.totalEnergy := JS.rounded (Week.totalEnergy w) 2;
          Week.readingCount := Week.readingCount w |})
    (filter dated (fold_left (WeekLoop.addToWeek host startDate) data (WeekLoop.newWeeks host startDate))).
Proof. reflexivity. Qed.

Lemma addToWeek_fold (startDate n : Z) (data : list Reading.t)
  (weeks : list Week.t) :
  Z.of_nat (List.length weeks) = n ->
  let result := fold_left (WeekLoop.addToWeek host startDate) data weeks in
  map label result = map label weeks
  /\ Counts.total (map Week.readingCount result) =
     (Counts.total (map Week.readingCount weeks)
      + Z.of_nat (List.length
                    (filter (inWeeks host (Host.getDay host startDate) n) data)))%Z.
Proof.
  revert weeks. induction data as [|item data IH]; intros weeks Hlen;
    cbn [fold_left filter].
  - cbn [List.length]. split; [reflexivity|lia].
  - unfold WeekLoop.addToWeek at 2 4. cbv zeta.
    change (inWeeks host (Host.getDay host startDate) n item)
      with ((0 <=? (Host.getDate host (Reading.timestamp item)
                    + Host.getDay host startDate - 1) / 7)%Z
            && ((Host.getDate host (Reading.timestamp item)
                 + Host.getDay host startDate - 1) / 7 <? n)%Z).
    rewrite Hlen.
    set (idx := ((Host.getDate host (Reading.timestamp item)
                  + Host.getDay host startDate - 1) / 7)%Z).
    destruct ((0 <=? idx)%Z && (idx <? n)%Z) eqn:Hin.
    + apply andb_true_iff in Hin. destruct Hin as [H0 H1].
      apply Z.leb_le in H0. apply Z.ltb_lt in H1.
      match goal with |- context [JS.updateAt ?i ?f weeks] =>
        set (weeks' := JS.updateAt i f weeks) end.
      assert (Hlen' : Z.of_nat (List.length weeks') = n)
        by (unfold weeks'; now rewrite updateAt_length).
      destruct (IH weeks' Hlen') as (Hc & Ht).
      split.
      * rewrite Hc. unfold weeks'. now apply updateAt_map.
      * rewrite Ht. unfold weeks'.
        rewrite updateAt_total; [cbn [List.length]; lia| |reflexivity]. lia.
    + exact (IH weeks Hlen).
Qed.

Lemma newWeeks_dated (startDate : Z) :
  forall w, In w (WeekLoop.newWeeks host startDate) ->
    Week.startDate w <> None /\ Week.endDate w <> None.
Proof.
  intros w Hw. unfold WeekLoop.newWeeks in Hw. cbv zeta in Hw.
  apply in_map_iff in Hw. destruct Hw as (i & <- & Hi).
  apply in_seq in Hi. cbn [Week.startDate Week.endDate].
  assert (H : (Z.of_nat i * 7 <
               Host.getDate host
                 (Host.newDate host (Host.getFullYear host startDate)
                    (Host.getMonth host startDate + 1) 0)
               + Host.getDay host startDate)%Z)
    by (apply ceilDiv_weeks; lia).
  destruct (Z.leb_spec
              (Z.of_nat i * 7 - Host.getDay host startDate + 1)
              (Host.getDate host
                 (Host.newDate host (Host.getFullYear host startDate)
                    (Host.getMonth host startDate + 1) 0)));
    [split; discriminate|lia].
Qed.

Lemma filter_all {A : Type} (p : A -> bool) (l : list A) :
  (forall x, In x l -> p x = true) -> filter p l = l.
Proof.
  induction l as [|x l IH]; intros H; cbn [filter]; [reflexivity|].
  rewrite (H x (or_introl eq_refl)). f_equal. apply IH.
  intros y Hy. apply H. now right.
Qed.

Lemma weeklyTrend_rows (data : list Reading.t) (startDate : Z) :
  let startDay := Host.getDay host startDate in
  let result := fold_left (WeekLoop.addToWeek host startDate) data (WeekLoop.newWeeks host startDate) in
  ReportGenerator.calculateWeeklyTrend host data startDate =
  map (fun w =>
         {| Week.week := Week.week w;
            Week.startDate := Week.startDate w;
            Week.endDate := Week.endDate w;
            Week.totalEmissions := JS.rounded (Week.totalEmissions w) 2;
            Week.totalEnergy := JS.rounded (Week.totalEnergy w) 2;
            Week.readingCount := Week.readingCount w |}) result
  /\ map label result = map label (WeekLoop.newWeeks host startDate)
  /\ Counts.total (map Week.readingCount result) =
     Z.of_nat
       (List.length
          (filter (inWeeks host startDay
                     (Z.of_nat (List.length (WeekLoop.newWeeks host startDate)))) data)).
Proof.
  intros startDay result.
  destruct (addToWeek_fold startDate _ data (WeekLoop.newWeeks host startDate) eq_refl)
    as (Hlabel & Htotal).
  fold result in Hlabel, Htotal.
  assert (Hdated : forall w, In w result -> dated w = true).
  { intros w Hw.
    apply (in_map label) in Hw. rewrite Hlabel in Hw.
    apply in_map_iff in Hw. destruct Hw as (w0 & E & Hw0).
    apply newWeeks_dated in Hw0. destruct Hw0 as [Hs _]. unfold dated.
    unfold label in E. injection E as _ E _. rewrite <- E.
    destruct (Week.startDate w0); [reflexivity|congruence]. }
  split; [|split; [exact Hlabel|]].
  - rewrite calculateWeeklyTrend_unfold. fold result.
    now rewrite (filter_all _ _ Hdated).
  - rewrite Htotal.
    assert (E0 : Counts.total (map Week.readingCount (WeekLoop.newWeeks host startDate)) = 0%Z).
    { unfold WeekLoop.newWeeks. cbv zeta. rewrite map_map. cbn [Week.readingCount].
      induction (seq 0 _) as [|i l IH]; [reflexivity|].
      cbn [map Counts.total fold_right]. unfold Counts.total in IH.
      now rewrite IH. }
    rewrite E0. fold startDay. lia.
Qed.

Lemma weeklyTrend_dated (data : list Reading.t) (startDate : Z) :
  forall w, In w (ReportGenerator.calculateWeeklyTrend host data startDate) ->
    Week.startDate w <> None /\ Week.endDate w <> None.
Proof.
  intros w Hw. destruct (weeklyTrend_rows data startDate) as (Hweeks & Hlabel & _).
  rewrite Hweeks in Hw. apply in_map_iff in Hw.
  destruct Hw as (w0 & <- & Hw0). cbn [Week.startDate Week.endDate].
  apply (in_map label) in Hw0. rewrite Hlabel in Hw0.
  apply in_map_iff in Hw0. destruct Hw0 as (w1 & E & Hw1).
  unfold label in E. injection E as _ Es Ee. rewrite <- Es, <- Ee.
  exact (newWeeks_dated startDate w1 Hw1).
Qed.

Lemma inWeeks_max (startDay n : Z) (item : Reading.t) :
  inWeeks host startDay (Z.max 0 n) item = inWeeks host startDay n item.
Proof.
  unfold inWeeks.
  destruct (Z.leb_spec 0 (weekIndex host startDay item)); cbn [andb];
    [|reflexivity].
  destruct (Z.ltb_spec (weekIndex host startDay item) (Z.max 0 n));
    destruct (Z.ltb_spec (weekIndex host startDay item) n); try reflexivity; lia.
Qed.

(** [calculateWeeklyTrend] numbers the weeks of the month 1, 2, ... up to
    the integer above (days in the month + weekday of its first day) / 7
    and dates every one of them, so that the filter on weeks without a
    start date removes nothing; a reading is counted, once, in the week of
    its day of the month when that week is one of them. *)
Theorem calculateWeeklyTrend_weeks (data : list Reading.t) (startDate : Z) :
  let startDay := Host.getDay host startDate in
  let daysInMonth :=
    Host.getDate host
      (Host.newDate host (Host.getFullYear host startDate)
                    (Host.getMonth host startDate + 1) 0) in
  let numWeeks := JS.ceilDiv (daysInMonth + startDay) 7 in
  let weeks := ReportGenerator.calculateWeeklyTrend host data startDate in
  map Week.week weeks =
  map (fun i => (Z.of_nat i + 1)%Z) (seq 0 (Z.to_nat numWeeks))
  /\ (forall w, In w weeks ->
        Week.startDate w <> None /\ Week.endDate w <> None)
  /\ Counts.total (map Week.readingCount weeks) =
     Z.of_nat (List.length (filter (inWeeks host startDay numWeeks) data)).
Proof.
  intros startDay daysInMonth numWeeks weeks.
  destruct (weeklyTrend_rows data startDate) as (Hweeks & Hlabel & Htotal).
  fold weeks in Hweeks.
  assert (Hn : Z.of_nat (List.length (WeekLoop.newWeeks host startDate)) = Z.max 0 numWeeks).
  { unfold WeekLoop.newWeeks. cbv zeta. rewrite length_map, length_seq.
    fold startDay daysInMonth numWeeks. lia. }
  split; [|split].
  - rewrite Hweeks, map_map. cbn [Week.week].
    transitivity (map (fun l => fst (fst l))
                      (map label (fold_left (WeekLoop.addToWeek host startDate) data
                                            (WeekLoop.newWeeks host startDate)))).
    + now rewrite map_map.
    + rewrite Hlabel, map_map. unfold WeekLoop.newWeeks. cbv zeta.
      rewrite map_map. reflexivity.
  - apply weeklyTrend_dated.
  - rewrite Hweeks, map_map. cbn [Week.readingCount].
    change (fun x => Week.readingCount x) with Week.readingCount.
    rewrite Htotal, Hn. fold startDay.
    now rewrite (filter_ext _ _ (inWeeks_max startDay numWeeks)).
Qed.

End WeekProperties.

(** ** The reports *)

Section ReportShape.

Variable host : Host.t.









(** ** The export of a report of another type *)

(** For a report whose type is not daily, weekly or monthly the export
    still has its five sections: the line of the type alone, the three
    totals of the summary, the buildings, an empty time series and the
    recommendations. *)
Theorem export_other_type (report : Report.t) :
  Report.reportType report <> "daily"%string ->
  Report.reportType report <> "weekly"%string ->
  Report.reportType report <> "monthly"%string ->
  ReportGenerator.exportReportAsCsv host report =
  CsvLayout.sections
    [[("Report Type," ++ Report.reportType report)%string];
     "SUMMARY"%string :: CsvLayout.totalsLines host (Report.summary report);
     "BUILDINGS"%string :: CsvLayout.buildingsHeader ::
       map (CsvLayout.buildingLine host) (Report.buildings report);
     [];
     "RECOMMENDATIONS"%string :: CsvLayout.adviceHeader ::
       map CsvLayout.adviceLine (Report.recommendations report)].
Proof.
  intros Hdaily Hweekly Hmonthly.
  unfold ReportGenerator.exportReportAsCsv. cbv zeta.
  destruct (String.eqb_spec (Report.reportType report) "daily");
    [contradiction|].
  destruct (String.eqb_spec (Report.reportType report) "weekly");
    [contradiction|].
  destruct (String.eqb_spec (Report.reportType report) "monthly");
    [contradiction|].
  cbn [andb orb].
  rewrite (fold_rows _ _ _ _ adviceRow_line).
  rewrite (fold_rows _ _ _ _ (buildingRow_line host)).
  cbn [CsvLayout.sections CsvLayout.block fold_right CsvLayout.totalsLines app].
  rewrite !append_assoc. reflexivity.
Qed.

End ReportShape.

(** ** The ratio printed by the efficiency recommendation *)

Section RatioProperties.

Variable host : Host.t.

Local Open Scope string_scope.

Lemma trendRule_keeps (data : list Reading.t) (interval : string)
  (recommendations : list Recommendation.t) :
  data <> [] ->
  exists recs,
    CarbonDataAnalyzer.trendRule
      (CarbonDataAnalyzer.identifyTrends host data interval) recommendations
    = JS.Normal recs
    /\ forall r, In r recommendations -> In r recs.
Proof.
  intros Hne. unfold CarbonDataAnalyzer.trendRule.
  destruct (identifyTrends_analysis host data interval Hne) as (analysis & Ha).
  rewrite Ha. cbn [JS.defined JS.bind].
  destruct (Trends.hasSignificantTrend _); [|eauto].
  destruct (JS.gtb _ _); eexists; (split; [reflexivity|]);
    intros r Hr; unfold JS.push; apply in_or_app; now left.
Qed.

Lemma anomalyRule_keeps (anomalies : list Anomaly.t)
  (recommendations : list Recommendation.t) (r : Recommendation.t) :
  In r recommendations ->
  In r (CarbonDataAnalyzer.anomalyRule anomalies recommendations).
Proof.
  unfold CarbonDataAnalyzer.anomalyRule.
  destruct anomalies as [|a anomalies]; [trivial|]. cbv zeta.
  generalize (JS.entries (fold_left CarbonDataAnalyzer.anomalyStep (a :: anomalies) [])).
  intros entries. revert recommendations.
  induction entries as [|entry entries IH]; intros recs Hr; cbn [fold_left];
    [exact Hr|].
  apply IH. destruct (2 <? _)%nat; [|exact Hr].
  unfold JS.push. apply in_or_app. now left.
Qed.

Lemma generalRule_keeps (recommendations : list Recommendation.t)
  (r : Recommendation.t) :
  In r recommendations -> In r (CarbonDataAnalyzer.generalRule recommendations).
Proof.
  intros Hr. unfold CarbonDataAnalyzer.generalRule.
  destruct (_ <? 2)%nat; [|exact Hr].
  unfold JS.push. apply in_or_app. left. apply in_or_app. now left.
Qed.

(** With ten readings or more, when the average intensity of
    [calculateCarbonIntensity] is zero and the building of highest
    intensity has a positive one, [generateRecommendations] divides the one
    by the other without a guard: the efficiency recommendation it returns
    reads "... has a carbon intensity Infinityx higher than average". *)
Theorem generateRecommendations_infinite_ratio (data : list Reading.t)
  (highest : BuildingIntensity.t) (others : list BuildingIntensity.t) :
  (10 <= List.length data)%nat ->
  Intensity.buildings (CarbonDataAnalyzer.calculateCarbonIntensity data)
  = highest :: others ->
  Intensity.average (CarbonDataAnalyzer.calculateCarbonIntensity data) == 0 ->
  0 < BuildingIntensity.intensity highest ->
  exists recs,
    CarbonDataAnalyzer.generateRecommendations host data = JS.Normal recs
    /\ In {| Recommendation.type := "efficiency";
             Recommendation.priority := "high";
             Recommendation.target := Some (BuildingIntensity.name highest);
             Recommendation.text :=
               BuildingIntensity.name highest ++
               " has a carbon intensity Infinityx higher than average. Consider energy efficiency improvements."
          |} recs.
Proof.
  intros Hlen Hb Havg Hpos.
  unfold CarbonDataAnalyzer.generateRecommendations.
  destruct (Nat.ltb_spec (List.length data) 10) as [Hlt|_]; [lia|]. cbv zeta.
  assert (Hne : data <> []) by (intros ->; simpl in Hlen; lia).
  set (rule := CarbonDataAnalyzer.intensityRule _ []).
  destruct (trendRule_keeps data "day" rule Hne) as (recs & -> & Hkeep).
  cbn [JS.bind]. eexists. split; [reflexivity|].
  apply generalRule_keeps, anomalyRule_keeps, Hkeep.
  unfold rule, CarbonDataAnalyzer.intensityRule. rewrite Hb.
  assert (Hgt : JS.gtb (BuildingIntensity.intensity highest)
                  (Intensity.average
                     (CarbonDataAnalyzer.calculateCarbonIntensity data) * (15 # 10))
                = true).
  { apply gtb_lt. rewrite Havg. now rewrite Qmult_0_l. }
  rewrite Hgt. cbv zeta.
  assert (Hdiv : JS.div (BuildingIntensity.intensity highest)
                   (Intensity.average
                      (CarbonDataAnalyzer.calculateCarbonIntensity data))
                 = JS.PosInf).
  { unfold JS.div.
    assert (E0 : JS.eqb (Intensity.average
                   (CarbonDataAnalyzer.calculateCarbonIntensity data)) 0 = true).
    { unfold JS.eqb. now apply Qeq_bool_iff. }
    rewrite E0.
    assert (E1 : JS.eqb (BuildingIntensity.intensity highest) 0 = false).
    { unfold JS.eqb. apply not_true_is_false. intros E.
      apply Qeq_bool_iff in E. rewrite E in Hpos. now apply Qlt_irrefl in Hpos. }
    rewrite E1.
    assert (E2 : JS.ltb 0 (BuildingIntensity.intensity highest) = true)
      by now apply ltb_lt.
    now rewrite E2. }
  rewrite Hdiv. cbn [JS.toFixedNum JS.showFixedStr].
  destruct (BuildingIntensity.devices highest) as [|worst rest];
    [|destruct (JS.gtb (Device.intensity worst) _)];
    unfold JS.push; cbn [app]; left; reflexivity.
Qed.

End RatioProperties.

(** ** The properties on the sample data *)


Lemma getStatistics_dateRange_witness :
  exists earliest latest,
    In earliest Samples.steady /\ In latest Samples.steady
    /\ Statistics.dateRangeStart
         (CarbonDataAnalyzer.getStatistics UTC.host Samples.steady)
       = Some (Host.toISOString UTC.host (Reading.timestamp earliest))
    /\ Statistics.dateRangeEnd
         (CarbonDataAnalyzer.getStatistics UTC.host Samples.steady)
       = Some (Host.toISOString UTC.host (Reading.timestamp latest)).
Proof.
  destruct (getStatistics_dateRange UTC.host Samples.steady)
    as (earliest & latest & He & Hl & Hs & Hf & _).
  - discriminate.
  - exists earliest, latest. auto.
Defined.

Lemma detectAnomalies_threshold_monotone_witness :
  incl (CarbonDataAnalyzer.detectAnomalies UTC.host Samples.spike 3)
       (CarbonDataAnalyzer.detectAnomalies UTC.host Samples.spike 2).
Proof.
  apply (detectAnomalies_threshold_monotone UTC.host Samples.spike 2 3).
  discriminate.
Defined.


Lemma forecast_confidence_witness :
  exists result,
    CarbonDataAnalyzer.forecast UTC.host Samples.spike (-1) "day"
    = JS.Normal result
    /\ Forecast.forecast result = []
    /\ Forecast.confidence result = "low"%string.
Proof.
  destruct (forecast_confidence UTC.host Samples.spike (-1) "day")
    as (result & Hr & Hp & _ & Hlow & _).
  - cbn; lia.
  - exists result. split; [exact Hr|split].
    + apply Hp. lia.
    + apply Hlow. cbn; lia.
Defined.

Lemma forecast_monotone_witness :
  exists result slope,
    CarbonDataAnalyzer.forecast UTC.host Samples.spike 3 "hour"
    = JS.Normal result
    /\ Forecast.slope result = Some slope
    /\ (0 <= slope ->
        Sorted Qle (map ForecastPoint.forecast (Forecast.forecast result))).
Proof.
  destruct (forecast_monotone UTC.host Samples.spike 3 "hour")
    as (result & slope & Hr & Hs & Hup & _).
  - cbn; lia.
  - exists result, slope. auto.
Defined.




Lemma export_other_type_witness :
  ReportGenerator.exportReportAsCsv UTC.host Cases.yearly =
  CsvLayout.sections
    [["Report Type,yearly"%string];
     "SUMMARY"%string :: CsvLayout.totalsLines UTC.host (Report.summary Cases.yearly);
     "BUILDINGS"%string :: CsvLayout.buildingsHeader ::
       map (CsvLayout.buildingLine UTC.host) (Report.buildings Cases.yearly);
     [];
     ["RECOMMENDATIONS"%string; CsvLayout.adviceHeader]].
Proof.
  apply (export_other_type UTC.host Cases.yearly); discriminate.
Defined.

Lemma generateRecommendations_infinite_ratio_witness :
  exists recs,
    CarbonDataAnalyzer.generateRecommendations UTC.host Cases.diluted
    = JS.Normal recs
    /\ In {| Recommendation.type := "efficiency";
             Recommendation.priority := "high";
             Recommendation.target := Some "B-101"%string;
             Recommendation.text :=
               "B-101 has a carbon intensity Infinityx higher than average. Consider energy efficiency improvements."
          |} recs.
Proof.
  destruct (Intensity.buildings
              (CarbonDataAnalyzer.calculateCarbonIntensity Cases.diluted))
    as [|highest others] eqn:E; [vm_compute in E; discriminate E|].
  pose proof E as E'. vm_compute in E'. injection E' as Eh Eo.
  pose proof (generateRecommendations_infinite_ratio UTC.host Cases.diluted
                highest others) as H.
  rewrite <- Eh in H. apply H.
  - cbn. lia.
  - rewrite Eh. exact E.
  - vm_compute. reflexivity.
  - vm_compute. reflexivity.
Defined.
